(** * BRaman: the MCM3000 stage controller

    A shallow embedding of
    [src/braman/controller/z_stage/z_controllers/mcm3000_controller.py]
    and the properties of its motion logic.

    Python values are modelled as the interpreter has them: [int] is [Z],
    [float] is the kernel's binary64 ([PrimFloat.float]), [bytes] is a list
    of byte values, [None] is [None] of an [option].  An attribute that the
    source rebinds from a list to a number keeps both shapes ([attr]).  The
    serial port and the wall clock are explicit parts of the state, and a
    method is a function from the state to an [outcome]: a returned value, a
    raised exception, or a read that never returns. *)

From Stdlib Require Import ZArith QArith Qabs Bool Lia Floats String Reals Lra Qreals.
From Stdlib Require Uint63.
From stdpp Require Import base list.

Open Scope Z_scope.

(** ** Python scalars *)

Module Py.

(** The [assert] statements of the source, by what they guard. *)
Inductive assertion :=
| ChannelNotAvailable   (* assert channel in self.channels *)
| StageNotInitialised   (* assert self.stages[...] is not None *)
| LinkDesync            (* assert self.port.inWaiting() == 0 *)
| ProtocolMismatch      (* assert response[6:7] == channel_byte *)
| OutOfRange            (* the limit asserts of the public methods *)
| BadConfiguration.     (* the asserts of __init__ *)

Inductive exn :=
| AssertionError (a : assertion)
| TypeError
| ValueError
| OverflowError
| ZeroDivisionError
| KeyError
| IndexError
| AttributeError
| RecursionError.

(** A computation without side effects that may raise. *)
Inductive result (A : Type) :=
| Ok (a : A)
| Err (e : exn).
Arguments Ok {A} a.
Arguments Err {A} e.

Definition rbind {A B} (r : result A) (f : A -> result B) : result B :=
  match r with
  | Ok a => f a
  | Err e => Err e
  end.

(** [float(n)] for a Python int: the nearest binary64, ties to even;
    OverflowError when [n] is too large for a finite one. *)
Definition float_of_int (n : Z) : result float :=
  let f := SF2Prim (binary_normalize prec emax n 0 false) in
  if PrimFloat.is_infinity f then Err OverflowError else Ok f.

(** [int(x)] for a Python float: truncation toward zero. *)
Definition int_of_float (x : float) : result Z :=
  match Prim2SF x with
  | S754_nan => Err ValueError
  | S754_infinity _ => Err OverflowError
  | S754_zero _ => Ok 0
  | S754_finite s m e =>
      let a := if 0 <=? e then Z.shiftl (Zpos m) e else Z.shiftr (Zpos m) (- e) in
      Ok (if s then - a else a)
  end.

(** [n * x] with [n] an int and [x] a float. *)
Definition int_mul_float (n : Z) (x : float) : result float :=
  rbind (float_of_int n) (fun f => Ok (f * x)%float).

(** [x * n] with [x] a float and [n] an int. *)
Definition float_mul_int (x : float) (n : Z) : result float :=
  rbind (float_of_int n) (fun f => Ok (x * f)%float).

(** [x / y] on floats. *)
Definition float_div (x y : float) : result float :=
  if (y =? 0)%float then Err ZeroDivisionError else Ok (x / y)%float.

(** Truth value of a float, of an int, and of a value that may be [None]. *)
Definition float_truthy (x : float) : bool := negb (x =? 0)%float.
Definition int_truthy (n : Z) : bool := negb (n =? 0).

Definition is_not_none {A} (o : option A) : bool :=
  match o with
  | Some _ => true
  | None => false
  end.

Definition opt_truthy {A} (t : A -> bool) (o : option A) : bool :=
  match o with
  | Some a => t a
  | None => false
  end.

(** [a <= b] where either side may be [None]. *)
Definition le (a b : option float) : result bool :=
  match a, b with
  | Some x, Some y => Ok (x <=? y)%float
  | _, _ => Err TypeError
  end.

(** The chained comparison [a <= b <= c]: the second test is evaluated only
    when the first holds.  [c] is passed unevaluated. *)
Definition le_le (a b : option float) (c : result (option float)) : result bool :=
  rbind (le a b) (fun ab =>
    if ab then rbind c (fun c' => le b c') else Ok false).

(** [a >= b >= c]. *)
Definition ge_ge (a b : option float) (c : result (option float)) : result bool :=
  rbind (le b a) (fun ab =>
    if ab then rbind c (fun c' => le c' b) else Ok false).

(** [n.to_bytes(len, 'little', signed=...)]. *)
Fixpoint le_digits (len : nat) (n : Z) : list Z :=
  match len with
  | O => []
  | S k => n mod 256 :: le_digits k (n / 256)
  end.

Definition to_bytes (n : Z) (len : nat) (signed : bool) : result (list Z) :=
  let bits := 8 * Z.of_nat len in
  if signed then
    if (- 2 ^ (bits - 1) <=? n) && (n <? 2 ^ (bits - 1))
    then Ok (le_digits len (n mod 2 ^ bits))
    else Err OverflowError
  else
    if (0 <=? n) && (n <? 2 ^ bits)
    then Ok (le_digits len n)
    else Err OverflowError.

(** [int.from_bytes(b, 'little', signed=True)]. *)
Fixpoint le_value (b : list Z) : Z :=
  match b with
  | [] => 0
  | x :: r => x + 256 * le_value r
  end.

Definition from_bytes_signed (b : list Z) : Z :=
  let bits := 8 * Z.of_nat (length b) in
  let u := le_value b in
  if (bits =? 0) || (u <? 2 ^ (bits - 1)) then u else u - 2 ^ bits.

(** [b[-n:]] and [b[i:j]]. *)
Definition suffix (n : nat) (b : list Z) : list Z := drop (length b - n)%nat b.
Definition slice (i j : nat) (b : list Z) : list Z := take (j - i)%nat (drop i b).

(** [l[i]] on a list. *)
Definition index {A} (l : list A) (i : nat) : result A :=
  match l !! i with
  | Some a => Ok a
  | None => Err IndexError
  end.

(** [l[i] = v] on a list. *)
Definition store {A} (l : list A) (i : nat) (v : A) : result (list A) :=
  if (i <? length l)%nat then Ok (<[i := v]> l) else Err IndexError.

(** [dict(zip(keys, values))[k]]: of two equal keys the later one wins. *)
Definition dict_zip_get {V} (keys : list Z) (values : list V) (k : Z) : result V :=
  match fold_left (fun acc kv => if fst kv =? k then Some (snd kv) else acc)
                  (zip keys values) None with
  | Some v => Ok v
  | None => Err KeyError
  end.

(** [k in keys]. *)
Definition contains (keys : list Z) (k : Z) : bool := existsb (Z.eqb k) keys.

End Py.

(** ** The serial port and the clock *)

(** The device at the other end of the link is a script: [replies] holds,
    for each frame still to be written, the bytes the device sends back on
    receiving it.  [written] and [received] log the traffic, oldest first. *)
Record Serial := {
  written : list (list Z);
  received : list (list Z);
  in_buffer : list Z;
  replies : list (list Z)
}.

(** [port.write(cmd)]. *)
Definition serial_write (cmd : list Z) (p : Serial) : Serial :=
  {| written := written p ++ [cmd];
     received := received p;
     in_buffer := in_buffer p ++ hd [] (replies p);
     replies := tl (replies p) |}.

(** [port.read(n)]: the port is opened without a timeout, so the call
    returns [n] bytes or never returns ([None]). *)
Definition serial_read (n : nat) (p : Serial) : option (list Z * Serial) :=
  if (n <=? length (in_buffer p))%nat
  then Some (take n (in_buffer p),
             {| written := written p;
                received := received p ++ [take n (in_buffer p)];
                in_buffer := drop n (in_buffer p);
                replies := replies p |})
  else None.

(** [port.inWaiting()]. *)
Definition serial_inWaiting (p : Serial) : nat := length (in_buffer p).

(** ** The controller object *)

(** [supported_stages]: stage type -> (travel limit in um, um per count). *)
Definition supported_stages : list (string * (float * float)) :=
  [("ZFM2020"%string,
    ((0x1.f4p+9 * 0x1.9666666666666p+3)%float      (* 1e3 * 12.7 *),
     0x1.b17e4f9137cb5p-3%float                    (* 0.2116667 *)))].

Definition stage_lookup (name : string) : option (float * float) :=
  snd <$> find (fun kv => String.eqb (fst kv) name) supported_stages.

(** An attribute that [__init__] binds to a three-element list and that a
    later assignment may rebind to a single number. *)
Inductive attr :=
| PerChannel (l : list (option float))
| Scalar (x : float).

Record MCM3000Controller := {
  verbose : bool;
  very_verbose : bool;
  stages : list (option string);
  channels : list Z;
  _internal_channels : list nat;
  reverse : list bool;
  reverse_factors : list Z;
  _stage_upper_limit_um : list (option float);
  _stage_lower_limit_um : list (option float);
  _stage_lowest_scan_point_um : attr;
  _stage_highest_scan_point_um : attr;
  _stage_retract_point_um : attr;
  _min_encoder_motion : Z;
  _stage_conversion_um : list (option float);
  _current_encoder_value : list (option Z);
  _pending_encoder_value : list (option Z);
  port : Serial;
  (** [time.time()]: [wall_clock k] is what the call returns the [k]-th
      time it is made, [clock_reads] the number of calls made so far *)
  wall_clock : nat -> float;
  clock_reads : nat
}.

(** [self.verbose], where a method has a parameter of the same name. *)
Definition self_verbose (s : MCM3000Controller) : bool := verbose s.

(** Assignments to the attributes that the methods rebind or update. *)
Definition set_port (p : Serial) (s : MCM3000Controller) : MCM3000Controller :=
  {| verbose := verbose s; very_verbose := very_verbose s; stages := stages s;
     channels := channels s; _internal_channels := _internal_channels s;
     reverse := reverse s; reverse_factors := reverse_factors s;
     _stage_upper_limit_um := _stage_upper_limit_um s;
     _stage_lower_limit_um := _stage_lower_limit_um s;
     _stage_lowest_scan_point_um := _stage_lowest_scan_point_um s;
     _stage_highest_scan_point_um := _stage_highest_scan_point_um s;
     _stage_retract_point_um := _stage_retract_point_um s;
     _min_encoder_motion := _min_encoder_motion s;
     _stage_conversion_um := _stage_conversion_um s;
     _current_encoder_value := _current_encoder_value s;
     _pending_encoder_value := _pending_encoder_value s;
     port := p; wall_clock := wall_clock s;
     clock_reads := clock_reads s |}.

Definition set_clock_reads (n : nat) (s : MCM3000Controller) : MCM3000Controller :=
  {| verbose := verbose s; very_verbose := very_verbose s; stages := stages s;
     channels := channels s; _internal_channels := _internal_channels s;
     reverse := reverse s; reverse_factors := reverse_factors s;
     _stage_upper_limit_um := _stage_upper_limit_um s;
     _stage_lower_limit_um := _stage_lower_limit_um s;
     _stage_lowest_scan_point_um := _stage_lowest_scan_point_um s;
     _stage_highest_scan_point_um := _stage_highest_scan_point_um s;
     _stage_retract_point_um := _stage_retract_point_um s;
     _min_encoder_motion := _min_encoder_motion s;
     _stage_conversion_um := _stage_conversion_um s;
     _current_encoder_value := _current_encoder_value s;
     _pending_encoder_value := _pending_encoder_value s;
     port := port s; wall_clock := wall_clock s; clock_reads := n |}.

Definition set_current (l : list (option Z)) (s : MCM3000Controller) : MCM3000Controller :=
  {| verbose := verbose s; very_verbose := very_verbose s; stages := stages s;
     channels := channels s; _internal_channels := _internal_channels s;
     reverse := reverse s; reverse_factors := reverse_factors s;
     _stage_upper_limit_um := _stage_upper_limit_um s;
     _stage_lower_limit_um := _stage_lower_limit_um s;
     _stage_lowest_scan_point_um := _stage_lowest_scan_point_um s;
     _stage_highest_scan_point_um := _stage_highest_scan_point_um s;
     _stage_retract_point_um := _stage_retract_point_um s;
     _min_encoder_motion := _min_encoder_motion s;
     _stage_conversion_um := _stage_conversion_um s;
     _current_encoder_value := l;
     _pending_encoder_value := _pending_encoder_value s;
     port := port s; wall_clock := wall_clock s;
     clock_reads := clock_reads s |}.

Definition set_pending (l : list (option Z)) (s : MCM3000Controller) : MCM3000Controller :=
  {| verbose := verbose s; very_verbose := very_verbose s; stages := stages s;
     channels := channels s; _internal_channels := _internal_channels s;
     reverse := reverse s; reverse_factors := reverse_factors s;
     _stage_upper_limit_um := _stage_upper_limit_um s;
     _stage_lower_limit_um := _stage_lower_limit_um s;
     _stage_lowest_scan_point_um := _stage_lowest_scan_point_um s;
     _stage_highest_scan_point_um := _stage_highest_scan_point_um s;
     _stage_retract_point_um := _stage_retract_point_um s;
     _min_encoder_motion := _min_encoder_motion s;
     _stage_conversion_um := _stage_conversion_um s;
     _current_encoder_value := _current_encoder_value s;
     _pending_encoder_value := l;
     port := port s; wall_clock := wall_clock s;
     clock_reads := clock_reads s |}.

Definition set_lowest_scan (a : attr) (s : MCM3000Controller) : MCM3000Controller :=
  {| verbose := verbose s; very_verbose := very_verbose s; stages := stages s;
     channels := channels s; _internal_channels := _internal_channels s;
     reverse := reverse s; reverse_factors := reverse_factors s;
     _stage_upper_limit_um := _stage_upper_limit_um s;
     _stage_lower_limit_um := _stage_lower_limit_um s;
     _stage_lowest_scan_point_um := a;
     _stage_highest_scan_point_um := _stage_highest_scan_point_um s;
     _stage_retract_point_um := _stage_retract_point_um s;
     _min_encoder_motion := _min_encoder_motion s;
     _stage_conversion_um := _stage_conversion_um s;
     _current_encoder_value := _current_encoder_value s;
     _pending_encoder_value := _pending_encoder_value s;
     port := port s; wall_clock := wall_clock s;
     clock_reads := clock_reads s |}.

Definition set_highest_scan (a : attr) (s : MCM3000Controller) : MCM3000Controller :=
  {| verbose := verbose s; very_verbose := very_verbose s; stages := stages s;
     channels := channels s; _internal_channels := _internal_channels s;
     reverse := reverse s; reverse_factors := reverse_factors s;
     _stage_upper_limit_um := _stage_upper_limit_um s;
     _stage_lower_limit_um := _stage_lower_limit_um s;
     _stage_lowest_scan_point_um := _stage_lowest_scan_point_um s;
     _stage_highest_scan_point_um := a;
     _stage_retract_point_um := _stage_retract_point_um s;
     _min_encoder_motion := _min_encoder_motion s;
     _stage_conversion_um := _stage_conversion_um s;
     _current_encoder_value := _current_encoder_value s;
     _pending_encoder_value := _pending_encoder_value s;
     port := port s; wall_clock := wall_clock s;
     clock_reads := clock_reads s |}.

Definition set_retract (a : attr) (s : MCM3000Controller) : MCM3000Controller :=
  {| verbose := verbose s; very_verbose := very_verbose s; stages := stages s;
     channels := channels s; _internal_channels := _internal_channels s;
     reverse := reverse s; reverse_factors := reverse_factors s;
     _stage_upper_limit_um := _stage_upper_limit_um s;
     _stage_lower_limit_um := _stage_lower_limit_um s;
     _stage_lowest_scan_point_um := _stage_lowest_scan_point_um s;
     _stage_highest_scan_point_um := _stage_highest_scan_point_um s;
     _stage_retract_point_um := a;
     _min_encoder_motion := _min_encoder_motion s;
     _stage_conversion_um := _stage_conversion_um s;
     _current_encoder_value := _current_encoder_value s;
     _pending_encoder_value := _pending_encoder_value s;
     port := port s; wall_clock := wall_clock s;
     clock_reads := clock_reads s |}.

(** ** Methods as state transformers *)

(** What a call does: it returns, it raises, or it blocks for ever in
    [port.read].  [Spent] marks an exhausted iteration budget of a loop of
    the model, which the theorems on the loops show is never reached. *)
Inductive outcome (A : Type) :=
| Return (a : A) (s : MCM3000Controller)
| Raise (e : Py.exn) (s : MCM3000Controller)
| Blocked (s : MCM3000Controller)
| Spent.
Arguments Return {A} a s.
Arguments Raise {A} e s.
Arguments Blocked {A} s.
Arguments Spent {A}.

Definition M (A : Type) : Type := MCM3000Controller -> outcome A.

Definition ret {A} (a : A) : M A := fun s => Return a s.
Definition raise {A} (e : Py.exn) : M A := fun s => Raise e s.

Definition bind {A B} (m : M A) (f : A -> M B) : M B :=
  fun s =>
    match m s with
    | Return a s' => f a s'
    | Raise e s' => Raise e s'
    | Blocked s' => Blocked s'
    | Spent => Spent
    end.

Notation "'let*' x ':=' m 'in' k" := (bind m (fun x => k))
  (at level 10, x name, m at level 100, k at level 200).
Notation "'run' m 'then' k" := (bind m (fun _ => k))
  (at level 10, m at level 100, k at level 200).

(** Lifting of a pure computation, of a read of the state, of an update. *)
Definition lift {A} (r : Py.result A) : M A :=
  fun s => match r with Py.Ok a => Return a s | Py.Err e => Raise e s end.
Definition gets {A} (f : MCM3000Controller -> A) : M A := fun s => Return (f s) s.
Definition modify (f : MCM3000Controller -> MCM3000Controller) : M unit :=
  fun s => Return tt (f s).
(** [assert c] where evaluating the message cannot raise. *)
Definition assert_that (c : bool) (a : Py.assertion) : M unit :=
  if c then ret tt else raise (Py.AssertionError a).

(** [self._internal_channels_dict[channel]], the dict being
    [dict(zip(self.channels, self._internal_channels))]. *)
Definition internal_channel (channel : Z) : M nat :=
  fun s => lift (Py.dict_zip_get (channels s) (_internal_channels s) channel) s.

(** [assert channel in self.channels]. *)
Definition assert_channel (channel : Z) : M unit :=
  fun s => assert_that (Py.contains (channels s) channel) Py.ChannelNotAvailable s.

(** [a[i]] for an attribute that should be a list. *)
Definition attr_index (a : attr) (i : nat) : Py.result (option float) :=
  match a with
  | PerChannel l => Py.index l i
  | Scalar _ => Py.Err Py.TypeError
  end.

(** [time.time()]: the next reading of the wall clock.  The readings are
    those of the execution at hand; nothing is assumed of them. *)
Definition time_time : M float :=
  fun s => Return (wall_clock s (clock_reads s)) (set_clock_reads (S (clock_reads s)) s).

(** [time.sleep(seconds)].  The call changes nothing the program can see but
    the readings of the clock that follow, and these are in [wall_clock]. *)
Definition time_sleep (seconds : float) : M unit := ret tt.

(** *** [_send] *)
Definition _send (cmd : list Z) (channel : Z) (response_bytes : option nat)
  : M (option (list Z)) :=
  let* i := internal_channel channel in
  let* stage := (fun s => lift (Py.index (stages s) i) s) in
  run assert_that (Py.is_not_none stage) Py.StageNotInitialised then
  run modify (fun s => set_port (serial_write cmd (port s)) s) then
  let* response := match response_bytes with
              | Some n => fun s =>
                  match serial_read n (port s) with
                  | Some (b, p) => Return (Some b) (set_port p s)
                  | None => Blocked s
                  end
              | None => ret None
              end in
  let* waiting := gets (fun s => serial_inWaiting (port s)) in
  run assert_that (waiting =? 0)%nat Py.LinkDesync then
  ret response.

(** The position query for internal channel [i]: [0A 04 <i> 00 00 00]. *)
Definition query_frame (channel_byte : list Z) : list Z :=
  [10; 4] ++ channel_byte ++ [0; 0; 0].

(** *** [_get_encoder_value] *)
Definition _get_encoder_value (channel : Z) (verbose : bool) : M Z :=
  run assert_channel channel then
  let* i := internal_channel channel in
  let* channel_byte := lift (Py.to_bytes (Z.of_nat i) 1 false) in
  let* response := _send (query_frame channel_byte) channel (Some 12%nat) in
  match response with
  | None => raise Py.TypeError
  | Some r =>
      run assert_that (bool_decide (Py.slice 6 7 r = channel_byte)) Py.ProtocolMismatch then
      ret (Py.from_bytes_signed (Py.suffix 4 r))
  end.

(** *** [_um_from_encoder_value] *)
Definition _um_from_encoder_value (channel : Z) (encoder_value : Z) : M float :=
  let* i := internal_channel channel in
  let* conv := (fun s => lift (Py.index (_stage_conversion_um s) i) s) in
  let* um := lift (match conv with
              | Some c => Py.int_mul_float encoder_value c
              | None => Py.Err Py.TypeError
              end) in
  let* i' := internal_channel channel in
  let* rev := (fun s => lift (Py.index (reverse s) i') s) in
  let um := if rev : bool then (- um)%float else um in
  ret (um + 0)%float.

(** *** [_encoder_value_from_um] *)
Definition _encoder_value_from_um (channel : Z) (um : float) : M Z :=
  let* i := internal_channel channel in
  let* conv := (fun s => lift (Py.index (_stage_conversion_um s) i) s) in
  let* encoder_value := lift (match conv with
                         | Some c => Py.rbind (Py.float_div um c) Py.int_of_float
                         | None => Py.Err Py.TypeError
                         end) in
  let* i' := internal_channel channel in
  let* rev := (fun s => lift (Py.index (reverse s) i') s) in
  let encoder_value := if rev : bool then - encoder_value else encoder_value in
  ret (encoder_value + 0).

(** *** [get_position_um] *)
Definition get_position_um (channel : Z) (verbose : bool) : M float :=
  run assert_channel channel then
  let* encoder_value := _get_encoder_value channel false in
  _um_from_encoder_value channel encoder_value.

(** *** [_finish_move] *)

(** [self._pending_encoder_value[i]] and [self._current_encoder_value[i]]. *)
Definition pending_at (i : nat) : M (option Z) :=
  fun s => lift (Py.index (_pending_encoder_value s) i) s.
Definition current_at (i : nat) : M (option Z) :=
  fun s => lift (Py.index (_current_encoder_value s) i) s.

(** The polling loop [while True: ...], entered with the first reading in
    hand; [timeout] is the deadline.  It returns the last reading.
    [budget] bounds the number of turns of the loop in the model. *)
Fixpoint poll (budget : nat) (channel : Z) (timeout : float) (current_encoder_value : Z)
  : M Z :=
  let* i := internal_channel channel in
  let* target := pending_at i in
  if bool_decide (Some current_encoder_value = target) then ret current_encoder_value
  else
    let* now := time_time in
    if (timeout <? now)%float then
      (* position_error = current_encoder_value - pending *)
      match target with
      | Some _ => ret current_encoder_value
      | None => raise Py.TypeError
      end
    else
      match budget with
      | O => fun _ => Spent
      | S budget' =>
          run time_sleep 0x1.999999999999ap-4 (* 0.1 *) then
          let* current_encoder_value' := _get_encoder_value channel false in
          poll budget' channel timeout current_encoder_value'
      end.

(** A turn of the loop that is followed by another has read a reply of the
    device: there are no more such turns than replies left in the script,
    and one for the bytes that may wait in the buffer. *)
Definition poll_budget (s : MCM3000Controller) : nat :=
  S (S (length (replies (port s)))).

Definition _finish_move (channel : Z) (verbose : bool) : M (option (Z * float)) :=
  run assert_channel channel then
  let* i := internal_channel channel in
  let* target := pending_at i in
  match target with
  | None => ret None
  | Some _ =>
      let* current_encoder_value := _get_encoder_value channel false in
      let* now := time_time in
      let timeout := (now + 6)%float in
      let* current_encoder_value :=
        (fun s => poll (poll_budget s) channel timeout current_encoder_value s) in
      let* i := internal_channel channel in
      let* l := (fun s => lift (Py.store (_current_encoder_value s) i
                                         (Some current_encoder_value)) s) in
      run modify (set_current l) then
      let* current_position_um := _um_from_encoder_value channel current_encoder_value in
      let* i := internal_channel channel in
      let* l := (fun s => lift (Py.store (_pending_encoder_value s) i None) s) in
      run modify (set_pending l) then
      ret (Some (current_encoder_value, current_position_um))
  end.

(** The move command for internal channel [i]:
    [53 04 06 00 00 00 <i:2> <encoder:4>]. *)
Definition move_frame (channel_bytes encoder_bytes : list Z) : list Z :=
  [83; 4; 6; 0; 0; 0] ++ channel_bytes ++ encoder_bytes.

(** *** [_move_to_encoder_value] *)
Definition _move_to_encoder_value (channel : Z) (encoder_value : Z) (block : bool)
  : M unit :=
  run assert_channel channel then
  let* i := internal_channel channel in
  let* target := pending_at i in
  run (match target with
       | Some _ => run _finish_move channel false then ret tt
       | None => ret tt
       end) then
  let* encoder_bytes := lift (Py.to_bytes encoder_value 4 true) in
  let* i := internal_channel channel in
  let* channel_bytes := lift (Py.to_bytes (Z.of_nat i) 2 false) in
  run _send (move_frame channel_bytes encoder_bytes) channel None then
  let* i := internal_channel channel in
  let* l := (fun s => lift (Py.store (_pending_encoder_value s) i (Some encoder_value)) s) in
  run modify (set_pending l) then
  if block then run _finish_move channel false then ret tt else ret tt.

(** *** [_check_min_motion], [legalize_move_um] and [move_um]

    The three call each other: the guard calls [move_um] for the nudge.
    Each is written over the [move_um] it calls, and the knot is tied by
    recursion on the call depth. *)
Section Nudge.

Variable move_um : Z -> float -> bool -> bool -> bool -> M (option float).

Definition check_min_motion_body (channel : Z) (target_encoder_value : Z) : M bool :=
  let* i := internal_channel channel in
  let* pending := pending_at i in
  if Py.opt_truthy Py.int_truthy pending then
    let* i := internal_channel channel in
    let* pending := pending_at i in
    if bool_decide (Some target_encoder_value = pending) then ret false
    else
      let* i := internal_channel channel in
      let* pending := pending_at i in
      let* delta := lift (match pending with
                          | Some p => Py.Ok (Z.abs (target_encoder_value - p))
                          | None => Py.Err Py.TypeError
                          end) in
      let* min_motion := gets _min_encoder_motion in
      run (if delta <=? min_motion
           then run move_um channel 10%float true true false then ret tt
           else ret tt) then
      ret true
  else
    let* i := internal_channel channel in
    let* current := current_at i in
    if bool_decide (Some target_encoder_value = current) then ret false
    else
      let* i := internal_channel channel in
      let* current := current_at i in
      let* delta := lift (match current with
                          | Some c => Py.Ok (Z.abs (target_encoder_value - c))
                          | None => Py.Err Py.TypeError
                          end) in
      let* min_motion := gets _min_encoder_motion in
      run (if delta <=? min_motion
           then run move_um channel 10%float true true false then ret tt
           else ret tt) then
      ret true.

(** [self._stage_lowest_scan_point_um[i]] and its siblings. *)
Definition lowest_scan_at (i : nat) : M (option float) :=
  fun s => lift (attr_index (_stage_lowest_scan_point_um s) i) s.
Definition highest_scan_at (i : nat) : M (option float) :=
  fun s => lift (attr_index (_stage_highest_scan_point_um s) i) s.
Definition lower_limit_at (i : nat) : M (option float) :=
  fun s => lift (Py.index (_stage_lower_limit_um s) i) s.
Definition upper_limit_at (i : nat) : M (option float) :=
  fun s => lift (Py.index (_stage_upper_limit_um s) i) s.
Definition reverse_at (i : nat) : M bool :=
  fun s => lift (Py.index (reverse s) i) s.

(** The first lines of [legalize_move_um]: the absolute target in counts. *)
Definition target_encoder (channel : Z) (move_um : float) (relative : bool) : M Z :=
  let* target_encoder_value := _encoder_value_from_um channel move_um in
  if relative then
    let* i := internal_channel channel in
    let* pending := pending_at i in
    if Py.opt_truthy Py.int_truthy pending then
      let* i := internal_channel channel in
      let* pending := pending_at i in
      lift (match pending with
            | Some p => Py.Ok (target_encoder_value + p)
            | None => Py.Err Py.TypeError
            end)
    else
      let* i := internal_channel channel in
      let* current := current_at i in
      lift (match current with
            | Some c => Py.Ok (target_encoder_value + c)
            | None => Py.Err Py.TypeError
            end)
  else ret target_encoder_value.

(** The last lines of [legalize_move_um]: the realised value of the target
    and the test against the scan points or, where one is unset or zero,
    the stage limit. *)
Definition within_limits (channel : Z) (target_encoder_value : Z) : M float :=
  let* target_move_um := _um_from_encoder_value channel target_encoder_value in
  let* i := internal_channel channel in
  let* lowest := lowest_scan_at i in
  let* lower_limit_um :=
    (if Py.opt_truthy Py.float_truthy lowest
     then let* i := internal_channel channel in lowest_scan_at i
     else let* i := internal_channel channel in lower_limit_at i) in
  let* i := internal_channel channel in
  let* highest := highest_scan_at i in
  let* upper_limit_um :=
    (if Py.opt_truthy Py.float_truthy highest
     then let* i := internal_channel channel in highest_scan_at i
     else let* i := internal_channel channel in upper_limit_at i) in
  let* i := internal_channel channel in
  let* rev := reverse_at i in
  let* inside := lift (if rev
                       then Py.ge_ge lower_limit_um (Some target_move_um)
                                     (Py.Ok upper_limit_um)
                       else Py.le_le lower_limit_um (Some target_move_um)
                                     (Py.Ok upper_limit_um)) in
  run assert_that inside Py.OutOfRange then
  ret target_move_um.

Definition legalize_move_um_body (channel : Z) (move_um : float) (relative verbose : bool)
  : M (option float) :=
  run assert_channel channel then
  let* target_encoder_value := target_encoder channel move_um relative in
  let* needed := check_min_motion_body channel target_encoder_value in
  if negb needed then ret None
  else
    let* legal_move_um := within_limits channel target_encoder_value in
    ret (Some legal_move_um).

Definition move_um_body (channel : Z) (requested_um : float)
  (relative block verbose : bool) : M (option float) :=
  run assert_channel channel then
  let* legal_move_um := legalize_move_um_body channel requested_um relative verbose in
  if negb (Py.opt_truthy Py.float_truthy legal_move_um) then
    let* self_verbose := gets self_verbose in
    run (if self_verbose : bool
         then run get_position_um channel false then ret tt
         else ret tt) then
    ret None
  else
    let* encoder_value :=
      match legal_move_um with
      | Some um => _encoder_value_from_um channel um
      | None => raise Py.TypeError
      end in
    run _move_to_encoder_value channel encoder_value block then
    run (if block then run _finish_move channel verbose then ret tt else ret tt) then
    run (if verbose then run get_position_um channel false then ret tt else ret tt) then
    ret legal_move_um.

End Nudge.

(** Python's call stack is bounded; a nudge that keeps asking for a nudge
    ends in RecursionError.  Each level of [depth] is one call of [move_um]. *)
Fixpoint move_um_at (depth : nat) (channel : Z) (requested_um : float)
  (relative block verbose : bool) : M (option float) :=
  match depth with
  | O => raise Py.RecursionError
  | S d => move_um_body (move_um_at d) channel requested_um relative block verbose
  end.

Definition recursion_limit : nat := 333.

(** *** [move_um] *)
Definition move_um : Z -> float -> bool -> bool -> bool -> M (option float) :=
  move_um_at recursion_limit.

(** *** [_check_min_motion] and [legalize_move_um] *)
Definition _check_min_motion : Z -> Z -> M bool := check_min_motion_body move_um.
Definition legalize_move_um : Z -> float -> bool -> bool -> M (option float) :=
  legalize_move_um_body move_um.

(** *** [move_zero] *)
Definition move_zero (channel : Z) (block : bool) : M (option float) :=
  run assert_channel channel then
  move_um channel 0%float false block false.

(** [assert c, message]: the message is evaluated only when [c] fails, and
    an exception raised while formatting it replaces the AssertionError. *)
Definition assert_with (c : bool) (message : M unit) (a : Py.assertion) : M unit :=
  if c then ret tt else run message then raise (Py.AssertionError a).

(** [a < b] and [a > b] between two attributes, of which [b] has just been
    bound to a number. *)
Definition attr_lt_scalar (a : attr) (b : float) : Py.result bool :=
  match a with
  | PerChannel _ => Py.Err Py.TypeError
  | Scalar x => Py.Ok (x <? b)%float
  end.
Definition attr_gt_scalar (a : attr) (b : float) : Py.result bool :=
  match a with
  | PerChannel _ => Py.Err Py.TypeError
  | Scalar x => Py.Ok (b <? x)%float
  end.

(** The last operand of a chained comparison, [self._stage_upper_limit_um[...]]
    or [self._stage_highest_scan_point_um[...]], not yet evaluated. *)
Definition upper_limit_of (channel : Z) (s : MCM3000Controller)
  : Py.result (option float) :=
  Py.rbind (Py.dict_zip_get (channels s) (_internal_channels s) channel)
           (Py.index (_stage_upper_limit_um s)).
Definition highest_scan_of (channel : Z) (s : MCM3000Controller)
  : Py.result (option float) :=
  Py.rbind (Py.dict_zip_get (channels s) (_internal_channels s) channel)
           (attr_index (_stage_highest_scan_point_um s)).

(** *** [set_stage_limit_um] *)
Definition set_stage_limit_um (channel : Z) (lower_limit : bool) (limit_um : option float)
  : M float :=
  run assert_channel channel then
  let* target_limit_um :=
    (if Py.opt_truthy Py.float_truthy limit_um
     then match limit_um with Some x => ret x | None => raise Py.TypeError end
     else let* vv := gets very_verbose in get_position_um channel vv) in
  let* i := internal_channel channel in
  let* rev := reverse_at i in
  let message : M unit :=
    let* i := internal_channel channel in
    run lower_limit_at i then
    let* i := internal_channel channel in
    run upper_limit_at i then ret tt in
  run (if rev then
         let* i := internal_channel channel in
         let* lo := lower_limit_at i in
         let* hi := gets (upper_limit_of channel) in
         let* inside := lift (Py.ge_ge lo (Some target_limit_um) hi) in
         assert_with inside message Py.OutOfRange
       else
         let* i := internal_channel channel in
         let* lo := lower_limit_at i in
         let* hi := gets (upper_limit_of channel) in
         let* inside := lift (Py.le_le lo (Some target_limit_um) hi) in
         assert_with inside message Py.OutOfRange) then
  run (if lower_limit then
         (* self._stage_lowest_scan_point_um = target_limit_um *)
         modify (set_lowest_scan (Scalar target_limit_um))
       else
         (* self._stage_highest_scan_point_um = target_limit_um *)
         run modify (set_highest_scan (Scalar target_limit_um)) then
         let* i := internal_channel channel in
         let* rev := reverse_at i in
         let* tighter := (fun s =>
           lift (if rev : bool
                 then attr_lt_scalar (_stage_retract_point_um s) target_limit_um
                 else attr_gt_scalar (_stage_retract_point_um s) target_limit_um) s) in
         if tighter : bool then
           (* self.set_retract_point_um(self, channel,
                self._stage_highest_scan_point_um[...]): the argument
              subscripts the number just assigned *)
           let* i := internal_channel channel in
           run highest_scan_at i then
           raise Py.TypeError
         else ret tt) then
  ret target_limit_um.

(** *** [get_retract_point_um] *)
Definition get_retract_point_um (channel : Z) (verbose : bool) : M (option float) :=
  run assert_channel channel then
  let* i := internal_channel channel in
  fun s => lift (attr_index (_stage_retract_point_um s) i) s.

(** *** [set_retract_point_um] *)
Definition set_retract_point_um (channel : Z) (retract_um_pos : option float)
  (relative verbose : bool) : M float :=
  run assert_channel channel then
  let* target_retract_um :=
    (if Py.opt_truthy Py.float_truthy retract_um_pos
     then match retract_um_pos with
          | Some x =>
              if relative
              then let* pos := get_position_um channel false in ret (x + pos)%float
              else ret x
          | None => raise Py.TypeError
          end
     else get_position_um channel false) in
  let* i := internal_channel channel in
  let* rev := reverse_at i in
  run (if rev then
         let* i := internal_channel channel in
         let* lo := lowest_scan_at i in
         let* hi := gets (highest_scan_of channel) in
         let* inside := lift (Py.le_le lo (Some target_retract_um) hi) in
         assert_with inside
           (let* i := internal_channel channel in
            run lowest_scan_at i then
            let* i := internal_channel channel in
            run highest_scan_at i then ret tt)
           Py.OutOfRange
       else
         let* i := internal_channel channel in
         let* lo := lowest_scan_at i in
         let* hi := gets (highest_scan_of channel) in
         let* inside := lift (Py.ge_ge lo (Some target_retract_um) hi) in
         assert_with inside
           (* the message reads self._stage._lowest_scan_point_um *)
           (raise Py.AttributeError)
           Py.OutOfRange) then
  (* self._stage_retract_point_um = target_retract_um *)
  run modify (set_retract (Scalar target_retract_um)) then
  ret target_retract_um.

(** *** [retract] *)
Definition retract (channel : Z) : M unit :=
  run assert_channel channel then
  let* i := internal_channel channel in
  let* point := (fun s => lift (attr_index (_stage_retract_point_um s) i) s) in
  let* i := internal_channel channel in
  let* factor := (fun s => lift (Py.index (reverse_factors s) i) s) in
  let* um := lift (match point with
                   | Some x => Py.float_mul_int x factor
                   | None => Py.Err Py.TypeError
                   end) in
  run move_um channel um false true false then ret tt.

(** *** [__init__] *)

Definition set_stage_tables (upper lower conv : list (option float))
  (s : MCM3000Controller) : MCM3000Controller :=
  {| verbose := verbose s; very_verbose := very_verbose s; stages := stages s;
     channels := channels s; _internal_channels := _internal_channels s;
     reverse := reverse s; reverse_factors := reverse_factors s;
     _stage_upper_limit_um := upper;
     _stage_lower_limit_um := lower;
     _stage_lowest_scan_point_um := _stage_lowest_scan_point_um s;
     _stage_highest_scan_point_um := _stage_highest_scan_point_um s;
     _stage_retract_point_um := _stage_retract_point_um s;
     _min_encoder_motion := _min_encoder_motion s;
     _stage_conversion_um := conv;
     _current_encoder_value := _current_encoder_value s;
     _pending_encoder_value := _pending_encoder_value s;
     port := port s; wall_clock := wall_clock s;
     clock_reads := clock_reads s |}.

(** [a[i] = v] for an attribute that is still a list. *)
Definition attr_store (a : attr) (i : nat) (v : float) : Py.result attr :=
  match a with
  | PerChannel l => Py.rbind (Py.store l i (Some v)) (fun l' => Py.Ok (PerChannel l'))
  | Scalar _ => Py.Err Py.TypeError
  end.

(** The object as it stands before the loop over the stages. *)
Definition blank (p : Serial) (clock : nat -> float) (verbose very_verbose : bool)
  (stages : list (option string)) (reverse : list bool) (channels : list Z)
  : MCM3000Controller :=
  {| verbose := verbose; very_verbose := very_verbose; stages := stages;
     channels := channels; _internal_channels := [0; 1; 2]%nat;
     reverse := reverse;
     reverse_factors := (fun r : bool => if r then -1 else 1) <$> reverse;
     _stage_upper_limit_um := [None; None; None];
     _stage_lower_limit_um := [None; None; None];
     _stage_lowest_scan_point_um := PerChannel [None; None; None];
     _stage_highest_scan_point_um := PerChannel [None; None; None];
     _stage_retract_point_um := PerChannel [None; None; None];
     _min_encoder_motion := 5;
     _stage_conversion_um := [None; None; None];
     _current_encoder_value := [None; None; None];
     _pending_encoder_value := [None; None; None];
     port := p; wall_clock := clock; clock_reads := 0 |}.

(** One turn of [for channel, stage in enumerate(stages)]. *)
Definition init_stage (channel : nat) (stage : option string) : M unit :=
  match stage with
  | None => ret tt
  | Some name =>
      match stage_lookup name with
      | None => raise (Py.AssertionError Py.BadConfiguration)
      | Some (limit, conv) =>
          let* factor := (fun s => lift (Py.index (reverse_factors s) channel) s) in
          let* upper := lift (Py.float_mul_int limit factor) in
          let* lower := lift (Py.float_mul_int (- limit)%float factor) in
          let* step := lift (Py.float_mul_int conv factor) in
          let* ul := (fun s => lift (Py.store (_stage_upper_limit_um s) channel (Some upper)) s) in
          let* ll := (fun s => lift (Py.store (_stage_lower_limit_um s) channel (Some lower)) s) in
          let* cl := (fun s => lift (Py.store (_stage_conversion_um s) channel (Some conv)) s) in
          run modify (set_stage_tables ul ll cl) then
          let* hi := (fun s => lift (attr_store (_stage_highest_scan_point_um s) channel upper) s) in
          run modify (set_highest_scan hi) then
          let* lo := (fun s => lift (attr_store (_stage_lowest_scan_point_um s) channel lower) s) in
          run modify (set_lowest_scan lo) then
          let* re := (fun s => lift (attr_store (_stage_retract_point_um s) channel
                                                (upper - step)%float) s) in
          run modify (set_retract re) then
          let* label := (fun s => lift (Py.index (channels s) channel) s) in
          let* encoder_value := _get_encoder_value label true in
          let* cur := (fun s => lift (Py.store (_current_encoder_value s) channel
                                               (Some encoder_value)) s) in
          modify (set_current cur)
      end
  end.

Fixpoint init_stages (channel : nat) (stages : list (option string)) : M unit :=
  match stages with
  | [] => ret tt
  | stage :: rest => run init_stage channel stage then init_stages (S channel) rest
  end.

Definition __init__ (p : Serial) (clock : nat -> float) (verbose very_verbose : bool)
  (stages : list (option string)) (reverse : list bool) (channels : list Z)
  : outcome unit :=
  (run assert_that ((length stages =? 3)%nat && (length reverse =? 3)%nat
               && (length channels =? 3)%nat) Py.BadConfiguration then
   run assert_that (forallb (fun st => match st with
                                  | Some name => Py.is_not_none (stage_lookup name)
                                  | None => true
                                  end) stages) Py.BadConfiguration then
   init_stages 0 stages)
    (blank p clock verbose very_verbose stages reverse channels).

(** ** A bench for running the model

    A device that answers each position query with the next reading of a
    list, and is silent on a move command. *)
Definition position_reply (channel_index : Z) (encoder_value : Z) : list Z :=
  [0; 0; 0; 0; 0; 0; channel_index; 0] ++ Py.le_digits 4 (encoder_value mod 2 ^ 32).

Definition fresh_port (replies : list (list Z)) : Serial :=
  {| written := []; received := []; in_buffer := []; replies := replies |}.

(** The state an outcome ends in, and whether a frame is a move command. *)
Definition final_state {A} (o : outcome A) : option MCM3000Controller :=
  match o with
  | Return _ s | Raise _ s | Blocked s => Some s
  | Spent => None
  end.

Definition is_move_frame (frame : list Z) : bool :=
  bool_decide (take 6 frame = [83; 4; 6; 0; 0; 0]).

Definition move_frames (s : MCM3000Controller) : list (list Z) :=
  filter (fun f => is_move_frame f = true) (written (port s)).

(** ** Vocabulary of the properties *)

(** What a position query does, case by case. *)
Definition query_outcome (channel : Z) (s : MCM3000Controller) : outcome Z :=
  if Py.contains (channels s) channel then
    match Py.dict_zip_get (channels s) (_internal_channels s) channel with
    | Py.Err e => Raise e s
    | Py.Ok i =>
        match Py.to_bytes (Z.of_nat i) 1 false with
        | Py.Err e => Raise e s
        | Py.Ok cb =>
            match stages s !! i with
            | None => Raise Py.IndexError s
            | Some None => Raise (Py.AssertionError Py.StageNotInitialised) s
            | Some (Some _) =>
                let p1 := serial_write (query_frame cb) (port s) in
                match serial_read 12 p1 with
                | None => Blocked (set_port p1 s)
                | Some (r, p2) =>
                    if (length (in_buffer p2) =? 0)%nat then
                      if bool_decide (Py.slice 6 7 r = cb)
                      then Return (Py.from_bytes_signed (Py.suffix 4 r)) (set_port p2 s)
                      else Raise (Py.AssertionError Py.ProtocolMismatch) (set_port p2 s)
                    else Raise (Py.AssertionError Py.LinkDesync) (set_port p2 s)
                end
            end
        end
    end
  else Raise (Py.AssertionError Py.ChannelNotAvailable) s.

(** The encoder value carried by the last response read from the device. *)
Definition last_reading (s : MCM3000Controller) : option Z :=
  (fun r => Py.from_bytes_signed (Py.suffix 4 r)) <$> last (received (port s)).

(** [polled s s']: [s'] is [s] after some position queries and readings
    of the clock; only the port and the number of readings differ, and no
    move command was written. *)
Definition polled (s s' : MCM3000Controller) : Prop :=
  s' = set_clock_reads (clock_reads s') (set_port (port s') s)
  /\ (clock_reads s <= clock_reads s')%nat
  /\ exists queries,
       written (port s') = written (port s) ++ queries
       /\ Forall (fun f => is_move_frame f = false) queries.

(** A method that reads the state and leaves it as it was. *)
Definition reads_only {A} (m : M A) : Prop :=
  forall s, (exists a, m s = Return a s) \/ (exists e, m s = Raise e s).

(** A method that never fails the assertion [a]. *)
Definition never_fails {A} (a : Py.assertion) (m : M A) : Prop :=
  forall s s', m s <> Raise (Py.AssertionError a) s'.

Definition no_assertion {A} (r : Py.result A) : Prop :=
  forall a, r <> Py.Err (Py.AssertionError a).

(** The encoder value the minimum-motion guard measures a target against:
    the pending target when it is truthy, the current value otherwise. *)
Definition reference_encoder (i : nat) (s : MCM3000Controller) : option Z :=
  match _pending_encoder_value s !! i with
  | Some pending =>
      if Py.opt_truthy Py.int_truthy pending then pending
      else match _current_encoder_value s !! i with
           | Some current => current
           | None => None
           end
  | None => None
  end.

(** The value of the last four bytes of a response as a signed 32-bit
    little-endian integer. *)
Definition int32_le (b0 b1 b2 b3 : Z) : Z :=
  let u := b0 + 2 ^ 8 * b1 + 2 ^ 16 * b2 + 2 ^ 24 * b3 in
  if u <? 2 ^ 31 then u else u - 2 ^ 32.

(** ** Controllers on the bench *)

(** A wall clock for the bench.  The first two readings are one: a deadline
    is set and first tested with no wait between.  Each later reading
    comes 100.1 ms after the one before: a sleep of 0.1 s and the traffic
    of a query. *)
Definition bench_clock (k : nat) : float :=
  (PrimFloat.of_uint63 (Uint63.of_Z (Z.of_nat (pred k))) * 0x1.9a027525460aap-4)%float.

(** The controller that [__init__] builds on channels 1, 2, 3 over a
    scripted device. *)
Definition bench (self_verbose : bool) (stages : list (option string))
  (reverse : list bool) (replies : list (list Z)) : MCM3000Controller :=
  match __init__ (fresh_port replies) bench_clock self_verbose false stages reverse
          [1; 2; 3] with
  | Return _ s => s
  | _ => blank (fresh_port []) bench_clock false false [] [] []
  end.

(** A ZFM2020 stage on channel 1 that reports [encoder_value] at start-up;
    [rest] scripts the device from then on. *)
Definition one_axis (reversed : bool) (encoder_value : Z) (rest : list (list Z))
  : MCM3000Controller :=
  bench false [Some "ZFM2020"%string; None; None] [reversed; false; false]
    (position_reply 0 encoder_value :: rest).

(** ZFM2020 stages on channels 1 and 2, both at encoder value 0. *)
Definition two_axes : MCM3000Controller :=
  bench false [Some "ZFM2020"%string; Some "ZFM2020"%string; None] [false; false; false]
    [position_reply 0 0; position_reply 1 0].


(** Channel 1 with a move to encoder value 0 issued and not yet resolved,
    the stage being at 40. *)
Definition homing : MCM3000Controller :=
  match _move_to_encoder_value 1 0 false (one_axis false 40 [[]]) with
  | Return _ s => s
  | _ => one_axis false 40 []
  end.

(** ** The conversions, there and back *)

(** One conversion step of the supported stage, in um. *)
Definition step_um : float := 0x1.b17e4f9137cb5p-3.

(** [um -> encoder -> um] on a channel. *)
Definition round_trip (channel : Z) (um : float) : M float :=
  let* encoder_value := _encoder_value_from_um channel um in
  _um_from_encoder_value channel encoder_value.

(** The conversions as functions of the conversion factor and of the
    direction of the axis. *)
Definition um_of (conv : float) (reversed : bool) (n : Z) : Py.result float :=
  Py.rbind (Py.float_of_int n) (fun f =>
    let um := (f * conv)%float in
    Py.Ok ((if reversed then - um else um) + 0)%float).

Definition encoder_of (conv : float) (reversed : bool) (um : float) : Py.result Z :=
  Py.rbind (Py.float_div um conv) (fun q =>
    Py.rbind (Py.int_of_float q) (fun t => Py.Ok (if reversed then - t else t))).

(** The rational number a finite float stands for. *)
Definition exact (x : float) : option Q :=
  match Prim2SF x with
  | S754_zero _ => Some 0%Q
  | S754_finite s m e =>
      let n := if s then Zneg m else Zpos m in
      Some (if 0 <=? e then inject_Z (n * 2 ^ e) else Qmake n (Z.to_pos (2 ^ (- e))))
  | _ => None
  end.

(** [|a - b| <= bound], on the numbers the floats stand for. *)
Definition apart_at_most (a b : float) (bound : Q) : bool :=
  match exact a, exact b with
  | Some x, Some y => Qle_bool (Qabs (x - y)) bound
  | _, _ => false
  end.

(** The number [step_um] stands for. *)
Definition step_exact : Q := Qmake 7626096569973941 (2 ^ 55).

(** The claim of the round trip at one value: the result is within one
    conversion step of the value. *)
Definition within_one_step (s : MCM3000Controller) (channel : Z) (um : float) : Prop :=
  exists back, round_trip channel um s = Return back s
               /\ apart_at_most back um step_exact = true.

(** The round trip from the position of encoder value [n]: it comes back
    to [n] or to the next count toward zero, and within one conversion step
    and 2^-40 um of the position. *)
Definition near (reversed : bool) (n : Z) : bool :=
  match um_of step_um reversed n with
  | Py.Ok um =>
      match encoder_of step_um reversed um with
      | Py.Ok e =>
          match um_of step_um reversed e with
          | Py.Ok back =>
              ((e =? n) || (e =? n - Z.sgn n))
              && apart_at_most back um (step_exact + Qmake 1 (2 ^ 40))
          | _ => false
          end
      | _ => false
      end
  | _ => false
  end.

(** [float(n)] by the primitive conversion, for an [n] of less than 64 bits. *)
Definition fast_float (n : Z) : float :=
  if n <? 0 then (- of_uint63 (Uint63.of_Z (- n)))%float else of_uint63 (Uint63.of_Z n).

(** [um_of step_um] and [near] over [fast_float], cheaper to evaluate. *)
Definition um_fast (reversed : bool) (n : Z) : float :=
  let um := (fast_float n * step_um)%float in
  ((if reversed then - um else um) + 0)%float.

Definition near_fast (reversed : bool) (n : Z) : bool :=
  negb (is_infinity (fast_float n)) &&
  let um := um_fast reversed n in
  match Py.int_of_float (um / step_um)%float with
  | Py.Ok t =>
      let e := if reversed then - t else t in
      if e =? n then negb (is_nan um) && negb (is_infinity um)
      else (e =? n - Z.sgn n)
           && negb (is_infinity (fast_float e))
           && apart_at_most (um_fast reversed e) um (step_exact + Qmake 1 (2 ^ 40))
  | _ => false
  end.

(** [f] on [count] consecutive integers from [lo] on. *)
Fixpoint all_from (f : Z -> bool) (lo : Z) (count : nat) : bool :=
  match count with
  | O => true
  | S k => f lo && all_from f (lo + 1) k
  end.

(** Encoder values of the travel of a ZFM2020: 12700 um at 0.2116667 um a
    count is less than 60000 counts either way. *)
Definition travel_counts : Z := 60000.

(** The travel of a ZFM2020 either way, in um. *)
Definition travel_um : Q := inject_Z 12700.

(** ** Floats as real numbers *)

(** [2^e] and [m * 2^e]. *)
Definition pow2 (e : Z) : R := powerRZ 2 e.
Definition scaled (m e : Z) : R := (IZR m * pow2 e)%R.

(** The magnitude and the value of a float. *)
Definition mag (x : spec_float) : R :=
  match x with
  | S754_finite _ m e => scaled (Z.pos m) e
  | _ => 0%R
  end.

Definition realv (x : spec_float) : R :=
  match x with
  | S754_finite s m e => if s then (- scaled (Z.pos m) e)%R else scaled (Z.pos m) e
  | _ => 0%R
  end.

(** A float that is a zero or finite, of sign [s] and of exponent at most [E]. *)
Definition rounded (s : bool) (E : Z) (y : spec_float) : Prop :=
  match y with
  | S754_zero s' => s' = s
  | S754_finite s' _ e' => s' = s /\ e' <= E
  | _ => False
  end.

(** ** Claims that do not hold, as predicates *)

(** C2 as stated, at one request: an out-of-range rejection leaves the log
    of the port and the encoder values as they were. *)
Definition rejected_before_any_write (s : MCM3000Controller) (channel : Z) (um : float)
  (relative block verbose : bool) : Prop :=
  forall s',
    move_um channel um relative block verbose s = Raise (Py.AssertionError Py.OutOfRange) s' ->
    written (port s') = written (port s)
    /\ _current_encoder_value s' = _current_encoder_value s
    /\ _pending_encoder_value s' = _pending_encoder_value s.

(** *** [_reverse_limit_signs] *)

(** [-x] for a table entry that may be [None]. *)
Definition negated (x : option float) : Py.result float :=
  match x with
  | Some v => Py.Ok (- v)%float
  | None => Py.Err Py.TypeError
  end.

Definition retract_at (i : nat) : M (option float) :=
  fun s => lift (attr_index (_stage_retract_point_um s) i) s.

Definition _reverse_limit_signs (channel : Z) : M unit :=
  run assert_channel channel then
  (* self._stage_upper_limit_um[...] = -self._stage_upper_limit_um[...] *)
  let* i := internal_channel channel in
  let* x := upper_limit_at i in
  let* v := lift (negated x) in
  let* j := internal_channel channel in
  let* l := (fun s => lift (Py.store (_stage_upper_limit_um s) j (Some v)) s) in
  run modify (fun s => set_stage_tables l (_stage_lower_limit_um s) (_stage_conversion_um s) s) then
  (* self._stage_lower_limit_um[...] = -self._stage_lower_limit_um[...] *)
  let* i := internal_channel channel in
  let* x := lower_limit_at i in
  let* v := lift (negated x) in
  let* j := internal_channel channel in
  let* l := (fun s => lift (Py.store (_stage_lower_limit_um s) j (Some v)) s) in
  run modify (fun s => set_stage_tables (_stage_upper_limit_um s) l (_stage_conversion_um s) s) then
  (* self._stage_highest_scan_point_um[...] = -self._stage_highest_scan_point_um[...] *)
  let* i := internal_channel channel in
  let* x := highest_scan_at i in
  let* v := lift (negated x) in
  let* j := internal_channel channel in
  let* a := (fun s => lift (attr_store (_stage_highest_scan_point_um s) j v) s) in
  run modify (set_highest_scan a) then
  (* self._stage_lowest_scan_point_um[...] = -self._stage_lowest_scan_point_um[...] *)
  let* i := internal_channel channel in
  let* x := lowest_scan_at i in
  let* v := lift (negated x) in
  let* j := internal_channel channel in
  let* a := (fun s => lift (attr_store (_stage_lowest_scan_point_um s) j v) s) in
  run modify (set_lowest_scan a) then
  (* self._stage_retract_point_um[...] = -self._stage_retract_point_um[...] *)
  let* i := internal_channel channel in
  let* x := retract_at i in
  let* v := lift (negated x) in
  let* j := internal_channel channel in
  let* a := (fun s => lift (attr_store (_stage_retract_point_um s) j v) s) in
  modify (set_retract a).

(** *** [_set_encoder_value_to_zero] *)

(** The command that sets the encoder count of internal channel [i]:
    [09 04 06 00 00 00 <i:2> <encoder:4>]. *)
Definition zero_frame (channel_bytes encoder_bytes : list Z) : list Z :=
  [9; 4; 6; 0; 0; 0] ++ channel_bytes ++ encoder_bytes.

(** [while True: if self._get_encoder_value(...) == 0: break].  The loop has
    no timeout; [budget] bounds the number of queries of the model. *)
Fixpoint wait_for_zero (budget : nat) (channel : Z) : M unit :=
  match budget with
  | O => fun _ => Spent
  | S budget' =>
      let* verbose := gets self_verbose in
      let* encoder_value := _get_encoder_value channel verbose in
      if encoder_value =? 0 then ret tt else wait_for_zero budget' channel
  end.

(** Every query that comes back uses up a reply of the script, or the bytes
    left in the buffer: more queries than that cannot come back. *)
Definition zero_budget (s : MCM3000Controller) : nat := S (S (length (replies (port s)))).

(** The body of [_set_encoder_value_to_zero] from the command on: the
    command, the wait, the update of the current encoder value. *)
Definition zero_and_wait (channel : Z) : M unit :=
  let* i := internal_channel channel in
  let* channel_byte := lift (Py.to_bytes (Z.of_nat i) 2 false) in
  let* encoder_bytes := lift (Py.to_bytes 0 4 true) in
  run _send (zero_frame channel_byte encoder_bytes) channel None then
  run (fun s => wait_for_zero (zero_budget s) channel s) then
  let* i := internal_channel channel in
  let* l := (fun s => lift (Py.store (_current_encoder_value s) i (Some 0)) s) in
  modify (set_current l).

Definition _set_encoder_value_to_zero (channel : Z) : M unit :=
  run assert_channel channel then
  let* verbose := gets self_verbose in
  run (if verbose : bool
       then let* verbose := gets self_verbose in
            run _get_encoder_value channel verbose then ret tt
       else ret tt) then
  zero_and_wait channel.

(** ** Vocabulary of the properties of the other methods *)

(** A call that ends, by a return or an exception, with the object and the
    port as they were. *)
Definition untouched {A} (o : outcome A) (s : MCM3000Controller) : Prop :=
  match o with
  | Return _ s' | Raise _ s' => s' = s
  | _ => False
  end.

(** What is left to read: the replies still in the script, and the bytes
    in the buffer. *)
Definition unread (s : MCM3000Controller) : nat :=
  (length (replies (port s)) + if in_buffer (port s) is [] then 0 else 1)%nat.

(** A frame that is a position query. *)
Definition is_query (frame : list Z) : Prop := exists cb, frame = query_frame cb.

(** A channel without a stage, as [__init__] leaves it. *)
Definition no_stage (s : MCM3000Controller) (i : nat) : Prop :=
  stages s !! i = Some None
  /\ _stage_conversion_um s !! i = Some None
  /\ _stage_upper_limit_um s !! i = Some None
  /\ _stage_lower_limit_um s !! i = Some None
  /\ attr_index (_stage_lowest_scan_point_um s) i = Py.Ok None
  /\ attr_index (_stage_highest_scan_point_um s) i = Py.Ok None
  /\ attr_index (_stage_retract_point_um s) i = Py.Ok None.

(** The number of stages on the channels before channel [i]: the position,
    among the queries of [__init__], of the query for channel [i]. *)
Definition stages_before (i : nat) (names : list (option string)) : nat :=
  length (omap (fun stage => stage) (take i names)).

(** The direction of an axis as the factor of its limits,
    [reverse_factors[channel]] as a float. *)
Definition direction (rev : bool) : float := if rev then (-1)%float else 1%float.

(** The object after [_reverse_limit_signs] on internal channel [i]. *)
Definition signs_reversed (i : nat) (u l h lo r : float) (hi_l lo_l re_l : list (option float))
  (s : MCM3000Controller) : MCM3000Controller :=
  set_retract (PerChannel (<[i := Some (- r)%float]> re_l))
    (set_lowest_scan (PerChannel (<[i := Some (- lo)%float]> lo_l))
       (set_highest_scan (PerChannel (<[i := Some (- h)%float]> hi_l))
          (set_stage_tables (<[i := Some (- u)%float]> (_stage_upper_limit_um s))
             (<[i := Some (- l)%float]> (_stage_lower_limit_um s))
             (_stage_conversion_um s) s))).

(** Channel 1 after [_reverse_limit_signs]: the limits, the scan points and
    the retract point of a fresh axis with their signs reversed. *)
Definition mirrored : MCM3000Controller :=
  match _reverse_limit_signs 1 (one_axis false 0 []) with
  | Return _ s => s
  | _ => one_axis false 0 []
  end.

(** A controller built with the label 1 on its first two channels and a
    stage on each of them. *)
Definition twin_labels : MCM3000Controller :=
  match __init__ (fresh_port [position_reply 1 40; position_reply 1 40]) bench_clock
          false false [Some "ZFM2020"%string; Some "ZFM2020"%string; None]
          [false; false; false] [1; 1; 3] with
  | Return _ s => s
  | _ => blank (fresh_port []) bench_clock false false [] [] []
  end.

(** A scan point attribute that holds one number instead of the list of
    [__init__]. *)
Definition scan_point_is_a_number (s : MCM3000Controller) : Prop :=
  (exists x, _stage_lowest_scan_point_um s = Scalar x)
  \/ (exists x, _stage_highest_scan_point_um s = Scalar x).

(** Channel 1 with a move to encoder value 100 issued, on a stage that
    stays at 50: every later query is answered with 50. *)
Definition stalled : MCM3000Controller :=
  match _move_to_encoder_value 1 100 false
          (one_axis false 0 ([] :: repeat (position_reply 0 50) 62)) with
  | Return _ s => s
  | _ => one_axis false 0 []
  end.

(** ** A device that answers *)







(** ** Reasoning about the monad *)

Ltac munfold :=
  unfold assert_with, assert_that, time_sleep, time_time, lift, gets, modify, bind, ret, raise,
    Py.rbind in *.

Ltac msimpl :=
  cbn [set_port set_clock_reads set_current set_pending set_lowest_scan set_highest_scan
       set_retract set_stage_tables self_verbose
       verbose very_verbose stages channels _internal_channels reverse reverse_factors
       _stage_upper_limit_um _stage_lower_limit_um _stage_lowest_scan_point_um
       _stage_highest_scan_point_um _stage_retract_point_um _min_encoder_motion
       _stage_conversion_um _current_encoder_value _pending_encoder_value
       port wall_clock clock_reads Py.is_not_none Py.opt_truthy] in *.

Ltac mrew :=
  repeat (msimpl; match goal with
                  | H : ?t = _ |- context [?t] => rewrite H
                  end); msimpl.

Ltac mcase t := let E := fresh "E" in destruct t eqn:E; mrew.

Lemma get_encoder_value_outcome channel verbose s :
  _get_encoder_value channel verbose s = query_outcome channel s.
Proof.
  unfold _get_encoder_value, query_outcome, assert_channel, _send, internal_channel,
    serial_inWaiting, Py.index.
  munfold.
  mcase (Py.contains (channels s) channel); [|reflexivity].
  mcase (Py.dict_zip_get (channels s) (_internal_channels s) channel); [|reflexivity].
  mcase (Py.to_bytes (Z.of_nat a) 1 false); [|reflexivity].
  mcase (stages s !! a); [|reflexivity].
  match goal with |- context [Py.is_not_none ?o] => destruct o end; mrew; [|reflexivity].
  mcase (serial_read 12 (serial_write (query_frame a0) (port s))); [|reflexivity].
  match goal with p : (list Z * Serial)%type |- _ => destruct p as [r p2] end; mrew.
  mcase (length (in_buffer p2) =? 0)%nat; [|reflexivity].
  destruct (bool_decide _); reflexivity.
Qed.

Lemma polled_refl s : polled s s.
Proof.
  split; [destruct s; reflexivity|]. split; [lia|].
  exists []. rewrite app_nil_r. auto.
Qed.

Lemma polled_trans s1 s2 s3 : polled s1 s2 -> polled s2 s3 -> polled s1 s3.
Proof.
  intros (E1 & L1 & q1 & W1 & F1) (E2 & L2 & q2 & W2 & F2).
  split; [rewrite E2, E1 at 1; reflexivity|]. split; [lia|].
  exists (q1 ++ q2). rewrite W2, W1, app_assoc. split; [reflexivity|].
  apply Forall_app; auto.
Qed.

Lemma polled_tick s : polled s (set_clock_reads (S (clock_reads s)) s).
Proof.
  split; [destruct s; reflexivity|]. split; [cbn; lia|].
  exists []. cbn. rewrite app_nil_r. auto.
Qed.

Lemma query_frame_not_move cb : is_move_frame (query_frame cb) = false.
Proof. reflexivity. Qed.

Lemma query_outcome_polled channel s s' :
  final_state (query_outcome channel s) = Some s' -> polled s s'.
Proof.
  unfold query_outcome.
  repeat match goal with
         | |- context [match ?x with _ => _ end] => destruct x eqn:?
         end; cbn [final_state]; intros [= <-]; try apply polled_refl.
  all: split; [destruct s; reflexivity|]; (split; [cbn; lia|]).
  all: match goal with
       | H : serial_read _ _ = Some _ |- _ =>
           unfold serial_read in H;
           destruct (_ <=? _)%nat in H; [injection H as <- <-|discriminate]
       | _ => idtac
       end.
  all: eexists [_]; cbn; split; [reflexivity|]; repeat constructor.
Qed.

Lemma query_outcome_reading channel s v s' :
  query_outcome channel s = Return v s' -> last_reading s' = Some v.
Proof.
  unfold query_outcome.
  repeat match goal with
         | |- context [match ?x with _ => _ end] => destruct x eqn:?
         end; try discriminate; intros [= <- <-].
  match goal with
  | H : serial_read _ _ = Some _ |- _ =>
      unfold serial_read in H;
      destruct (_ <=? _)%nat in H; [injection H as <- <-|discriminate]
  end.
  unfold last_reading. cbn. rewrite last_snoc. reflexivity.
Qed.

Lemma polled_fields s s' :
  polled s s' ->
  channels s' = channels s /\ _internal_channels s' = _internal_channels s
  /\ _pending_encoder_value s' = _pending_encoder_value s
  /\ _current_encoder_value s' = _current_encoder_value s.
Proof. intros (E & _). rewrite E. auto. Qed.

Lemma query_outcome_not_spent channel s : query_outcome channel s <> Spent.
Proof.
  unfold query_outcome.
  repeat match goal with
         | |- context [match ?x with _ => _ end] => destruct x eqn:?
         end; discriminate.
Qed.

Lemma query_outcome_clock channel s s' :
  final_state (query_outcome channel s) = Some s' -> clock_reads s' = clock_reads s.
Proof.
  unfold query_outcome.
  repeat match goal with
         | |- context [match ?x with _ => _ end] => destruct x eqn:?
         end; cbn [final_state]; intros [= <-]; reflexivity.
Qed.

Lemma query_outcome_uses_a_reply channel s v s' :
  query_outcome channel s = Return v s' -> (unread s' < unread s)%nat.
Proof.
  intros H. unfold query_outcome in H.
  repeat match type of H with
         | context [match ?x with _ => _ end] => destruct x eqn:?
         end; try discriminate; injection H as <- <-.
  match goal with
  | H : serial_read _ _ = Some _ |- _ =>
      unfold serial_read in H;
      destruct (_ <=? _)%nat eqn:Hlen in H; [injection H as <- <-|discriminate]
  end.
  match goal with H : (length _ =? 0)%nat = true |- _ =>
    apply Nat.eqb_eq in H; cbn in H; apply length_zero_iff_nil in H; rename H into Hb end.
  apply Nat.leb_le in Hlen. cbn in Hlen.
  unfold unread. cbn. rewrite Hb.
  destruct (replies (port s)) as [|r rest]; cbn in *; [|lia].
  rewrite app_nil_r in Hlen. destruct (in_buffer (port s)); cbn in *; lia.
Qed.

Lemma polled_clock s s' :
  polled s s' -> wall_clock s' = wall_clock s /\ (clock_reads s <= clock_reads s')%nat.
Proof. intros (E & L & _). split; [rewrite E; reflexivity|exact L]. Qed.

Lemma polled_unread s s' : port s' = port s -> unread s' = unread s.
Proof. intros E. unfold unread. rewrite E. reflexivity. Qed.

(** The loop ends, with the last reading, on the target or on a reading of
    the clock past the deadline. *)
Lemma poll_spec channel timeout i : forall budget cur s,
  Py.dict_zip_get (channels s) (_internal_channels s) channel = Py.Ok i ->
  (unread s < budget)%nat ->
  last_reading s = Some cur ->
  match poll budget channel timeout cur s with
  | Return v s' =>
      polled s s' /\ last_reading s' = Some v
      /\ exists p, _pending_encoder_value s !! i = Some (Some p)
                   /\ (v = p
                       \/ ((clock_reads s < clock_reads s')%nat
                           /\ (timeout <? wall_clock s (pred (clock_reads s')))%float = true))
  | Raise _ s' | Blocked s' => polled s s'
  | Spent => False
  end.
Proof.
  induction budget as [|b IH]; intros cur s Hd Hb Hl; [lia|].
  cbn [poll]; unfold internal_channel, pending_at, Py.index; munfold; mrew.
  mcase (_pending_encoder_value s !! i); [|apply polled_refl].
  case_bool_decide as Heq;
    [subst o; split; [apply polled_refl|]; split; [assumption|]; eauto|].
  set (s1 := set_clock_reads (S (clock_reads s)) s).
  assert (P1 : polled s s1) by apply polled_tick.
  destruct (timeout <? wall_clock s (clock_reads s))%float eqn:Ht.
  { destruct o as [p|]; [|exact P1].
    split; [exact P1|]. split; [exact Hl|].
    exists p. split; [reflexivity|]. right. cbn. split; [lia|exact Ht]. }
  rewrite get_encoder_value_outcome.
  destruct (query_outcome channel s1) as [v s2|e s2|s2|] eqn:Hq.
  + assert (P2 : polled s1 s2)
      by (apply (query_outcome_polled channel); rewrite Hq; reflexivity).
    pose proof (query_outcome_reading _ _ _ _ Hq) as Hl2.
    pose proof (query_outcome_uses_a_reply _ _ _ _ Hq) as Hu.
    pose proof (polled_trans _ _ _ P1 P2) as P12.
    destruct (polled_fields _ _ P12) as (F1 & F2 & F3 & F4).
    destruct (polled_clock _ _ P12) as (W12 & C12).
    destruct (polled_clock _ _ P2) as (_ & C2). cbn in C2.
    assert (U1 : unread s1 = unread s) by reflexivity.
    specialize (IH v s2). rewrite F1, F2, F3 in IH.
    specialize (IH Hd ltac:(lia) Hl2).
    destruct (poll b channel timeout v s2) as [v' s3|e s3|s3|].
    * destruct IH as (P3 & L3 & p & Hp & Hv).
      split; [exact (polled_trans _ _ _ P12 P3)|]. split; [assumption|].
      exists p. rewrite E in Hp. split; [exact Hp|].
      destruct Hv as [Hv|[Hc Hv]]; [left; exact Hv|right].
      rewrite W12 in Hv. split; [lia|exact Hv].
    * exact (polled_trans _ _ _ P12 IH).
    * exact (polled_trans _ _ _ P12 IH).
    * exact IH.
  + eapply polled_trans; [eassumption|].
    apply (query_outcome_polled channel); rewrite Hq; reflexivity.
  + eapply polled_trans; [eassumption|].
    apply (query_outcome_polled channel); rewrite Hq; reflexivity.
  + exact (query_outcome_not_spent _ _ Hq).
Qed.

Section Combinators.
Context {A B : Type}.

Lemma reads_only_ret (a : A) : reads_only (ret a).
Proof. intros s. left. eauto. Qed.

Lemma reads_only_raise e : reads_only (@raise A e).
Proof. intros s. right. eauto. Qed.

Lemma reads_only_lift (r : Py.result A) : reads_only (lift r).
Proof. intros s. destruct r; [left|right]; eauto. Qed.

Lemma reads_only_lift_of (g : MCM3000Controller -> Py.result A) :
  reads_only (fun s => lift (g s) s).
Proof. intros s. destruct (g s); [left|right]; eauto. Qed.

Lemma reads_only_gets (g : MCM3000Controller -> A) : reads_only (gets g).
Proof. intros s. left. eauto. Qed.

Lemma reads_only_bind (m : M A) (f : A -> M B) :
  reads_only m -> (forall a, reads_only (f a)) -> reads_only (bind m f).
Proof.
  intros Hm Hf s. unfold bind.
  destruct (Hm s) as [[a ->]|[e ->]]; [apply Hf|right; eauto].
Qed.

Lemma never_fails_ret x (a : A) : never_fails x (ret a).
Proof. intros s s'. discriminate. Qed.

Lemma never_fails_raise x e : (forall y, e <> Py.AssertionError y) -> never_fails x (@raise A e).
Proof. intros H s s' [= E]. exact (H _ E). Qed.

Lemma never_fails_lift x (r : Py.result A) : no_assertion r -> never_fails x (lift r).
Proof. intros H s s'. destruct r; cbn; [discriminate|]. intros [= -> _]. exact (H _ eq_refl). Qed.

Lemma never_fails_lift_of x (g : MCM3000Controller -> Py.result A) :
  (forall s, no_assertion (g s)) -> never_fails x (fun s => lift (g s) s).
Proof. intros H s. apply never_fails_lift, H. Qed.

Lemma never_fails_gets x (g : MCM3000Controller -> A) : never_fails x (gets g).
Proof. intros s s'. discriminate. Qed.

Lemma never_fails_bind x (m : M A) (f : A -> M B) :
  never_fails x m -> (forall a, never_fails x (f a)) -> never_fails x (bind m f).
Proof.
  intros Hm Hf s s'. unfold bind.
  destruct (m s) eqn:E; try discriminate; [apply Hf|].
  intros [= -> ->]. exact (Hm _ _ E).
Qed.

End Combinators.

Lemma never_fails_modify x f : never_fails x (modify f).
Proof. intros s s'. discriminate. Qed.

Lemma never_fails_assert_that x c y : x <> y -> never_fails x (assert_that c y).
Proof. intros H s s'. destruct c; cbn; [discriminate|]. intros [= E _]. auto. Qed.

Lemma no_assertion_index {A} (l : list A) i : no_assertion (Py.index l i).
Proof. intros a. unfold Py.index. destruct (l !! i); discriminate. Qed.

Lemma no_assertion_store {A} (l : list A) i v : no_assertion (Py.store l i v).
Proof. intros a. unfold Py.store. destruct (_ <? _)%nat; discriminate. Qed.

Lemma no_assertion_dict {V} keys (values : list V) k :
  no_assertion (Py.dict_zip_get keys values k).
Proof. intros a. unfold Py.dict_zip_get. destruct (fold_left _ _ _); discriminate. Qed.

Lemma no_assertion_float_of_int n : no_assertion (Py.float_of_int n).
Proof. intros a. unfold Py.float_of_int. destruct (is_infinity _); discriminate. Qed.

Lemma no_assertion_int_of_float x : no_assertion (Py.int_of_float x).
Proof. intros a. unfold Py.int_of_float. destruct (Prim2SF x); discriminate. Qed.

Lemma no_assertion_rbind {A B} (r : Py.result A) (f : A -> Py.result B) :
  no_assertion r -> (forall a, no_assertion (f a)) -> no_assertion (Py.rbind r f).
Proof. intros Hr Hf a. destruct r; cbn; [apply Hf|]. intros [= ->]. exact (Hr _ eq_refl). Qed.

Lemma no_assertion_Ok {A} (a : A) : no_assertion (Py.Ok a).
Proof. intros x. discriminate. Qed.

Lemma no_assertion_Err {A} e : (forall y, e <> Py.AssertionError y) -> no_assertion (@Py.Err A e).
Proof. intros H x [= E]. exact (H _ E). Qed.

Lemma no_assertion_to_bytes n len sg : no_assertion (Py.to_bytes n len sg).
Proof. intros a. unfold Py.to_bytes. repeat destruct (_ && _); destruct sg; discriminate. Qed.

Lemma no_assertion_float_div x y : no_assertion (Py.float_div x y).
Proof. intros a. unfold Py.float_div. destruct (_ =? _)%float; discriminate. Qed.

Lemma never_fails_time x : never_fails x time_time.
Proof. intros s s'. discriminate. Qed.

Create HintDb reads discriminated.
#[local] Hint Resolve reads_only_ret reads_only_raise reads_only_lift reads_only_lift_of
  reads_only_gets : reads.
Create HintDb clean discriminated.
#[local] Hint Resolve never_fails_ret never_fails_lift never_fails_lift_of never_fails_gets
  never_fails_modify no_assertion_index no_assertion_store no_assertion_dict
  no_assertion_float_of_int no_assertion_int_of_float no_assertion_Ok no_assertion_to_bytes
  no_assertion_float_div : clean.

Ltac reads :=
  repeat match goal with
         | |- forall _, _ => intro
         | |- reads_only (bind _ _) => apply reads_only_bind
         | |- reads_only (ret _) => apply reads_only_ret
         | |- reads_only (raise _) => apply reads_only_raise
         | |- reads_only (lift _) => apply reads_only_lift
         | |- reads_only (gets _) => apply reads_only_gets
         | |- reads_only (fun s => lift _ s) => apply reads_only_lift_of
         | |- reads_only (match ?x with _ => _ end) => destruct x
         end.

Ltac clean :=
  repeat match goal with
         | |- forall _, _ => intro
         | |- never_fails _ (bind _ _) => apply never_fails_bind
         | |- never_fails _ (ret _) => apply never_fails_ret
         | |- never_fails _ (raise _) => apply never_fails_raise; discriminate
         | |- never_fails _ (lift _) => apply never_fails_lift
         | |- never_fails _ (gets _) => apply never_fails_gets
         | |- never_fails _ (modify _) => apply never_fails_modify
         | |- never_fails _ (time_sleep _) => apply never_fails_ret
         | |- never_fails _ time_time => apply never_fails_time
         | |- never_fails _ (assert_that _ _) => apply never_fails_assert_that; discriminate
         | |- never_fails _ (fun s => lift _ s) => apply never_fails_lift_of
         | |- never_fails _ (match ?x with _ => _ end) => destruct x
         | |- no_assertion (Py.rbind _ _) => apply no_assertion_rbind
         | |- no_assertion (Py.Err _) => apply no_assertion_Err; discriminate
         | |- no_assertion (match ?x with _ => _ end) => destruct x
         | |- no_assertion _ => solve [auto with clean]
         end.

Lemma um_from_encoder_value_reads channel e : reads_only (_um_from_encoder_value channel e).
Proof. unfold _um_from_encoder_value, internal_channel. reads. Qed.

Lemma encoder_value_from_um_reads channel um : reads_only (_encoder_value_from_um channel um).
Proof. unfold _encoder_value_from_um, internal_channel. reads. Qed.

Lemma um_from_encoder_value_clean x channel e : never_fails x (_um_from_encoder_value channel e).
Proof. unfold _um_from_encoder_value, internal_channel, Py.int_mul_float. clean. Qed.

Lemma encoder_value_from_um_clean x channel um : never_fails x (_encoder_value_from_um channel um).
Proof. unfold _encoder_value_from_um, internal_channel. clean. Qed.

Lemma unread_budget s : (unread s < poll_budget s)%nat.
Proof. unfold unread, poll_budget. destruct (in_buffer (port s)); lia. Qed.

Lemma finish_move_spec channel verbose s i p :
  Py.dict_zip_get (channels s) (_internal_channels s) channel = Py.Ok i ->
  _pending_encoder_value s !! i = Some (Some p) ->
  match _finish_move channel verbose s with
  | Return r s' =>
      exists enc um s1,
        r = Some (enc, um) /\ polled s s1 /\ last_reading s1 = Some enc
        /\ (enc = p
            \/ ((S (clock_reads s) < clock_reads s1)%nat
                /\ (wall_clock s (clock_reads s) + 6
                    <? wall_clock s (pred (clock_reads s1)))%float = true))
        /\ (i < length (_current_encoder_value s))%nat
        /\ s' = set_pending (<[i := None]> (_pending_encoder_value s))
                  (set_current (<[i := Some enc]> (_current_encoder_value s)) s1)
  | Raise e s' =>
      polled s s'
      \/ ((forall a, e <> Py.AssertionError a)
          /\ exists enc s1,
               polled s s1
               /\ s' = set_current (<[i := Some enc]> (_current_encoder_value s)) s1)
  | Blocked s' => polled s s'
  | Spent => False
  end.
Proof.
  intros Hd Hp.
  unfold _finish_move, assert_channel, internal_channel, pending_at, Py.index. munfold.
  mcase (Py.contains (channels s) channel); [|left; apply polled_refl].
  rewrite get_encoder_value_outcome.
  destruct (query_outcome channel s) as [v s1|e s1|s1|] eqn:Hq;
    [| left | | exact (query_outcome_not_spent _ _ Hq)];
    try (apply (query_outcome_polled channel); rewrite Hq; reflexivity).
  assert (P1 : polled s s1) by (apply (query_outcome_polled channel); rewrite Hq; reflexivity).
  pose proof (query_outcome_reading _ _ _ _ Hq) as L1.
  assert (C1 : clock_reads s1 = clock_reads s)
    by (apply (query_outcome_clock channel); rewrite Hq; reflexivity).
  destruct (polled_clock _ _ P1) as (W1 & _).
  set (st := set_clock_reads (S (clock_reads s1)) s1).
  assert (Pt : polled s st) by (eapply polled_trans; [exact P1|apply polled_tick]).
  destruct (polled_fields _ _ Pt) as (F1 & F2 & F3 & F4).
  pose proof (poll_spec channel (wall_clock s1 (clock_reads s1) + 6)%float i
                (poll_budget st) v st) as HP.
  rewrite F1, F2, F3 in HP. specialize (HP Hd (unread_budget st) L1).
  destruct (poll (poll_budget st) channel (wall_clock s1 (clock_reads s1) + 6)%float v st)
    as [enc s2|e s2|s2|];
    [| left; exact (polled_trans _ _ _ Pt HP) | exact (polled_trans _ _ _ Pt HP) | exact HP].
  destruct HP as (P2 & L2 & p' & Hp' & Hv).
  assert (p' = p) as -> by congruence.
  pose proof (polled_trans _ _ _ Pt P2) as P12.
  destruct (polled_fields _ _ P12) as (G1 & G2 & G3 & G4).
  rewrite G1, G2, Hd, G4.
  unfold Py.store.
  mcase (i <? length (_current_encoder_value s))%nat; [|left; exact P12].
  pose proof (um_from_encoder_value_reads channel enc
                (set_current (<[i := Some enc]> (_current_encoder_value s)) s2)) as [[um Hu]|[e Hu]];
    rewrite Hu; msimpl.
  - rewrite G1, G2, Hd. msimpl. rewrite G3.
    assert (Hlt : (i <? length (_pending_encoder_value s))%nat = true)
      by (apply Nat.ltb_lt; eapply lookup_lt_Some; eassumption).
    rewrite Hlt. msimpl. exists enc, um, s2.
    split; [reflexivity|]. split; [exact P12|]. split; [exact L2|].
    split.
    { destruct Hv as [Hv|[Hc Hv]]; [left; assumption|right].
      cbn in Hc, Hv. rewrite W1, C1 in Hv. split; [lia|exact Hv]. }
    split; [apply Nat.ltb_lt; assumption|reflexivity].
  - right. split.
    + intros a Ha. subst e.
      exact (um_from_encoder_value_clean a channel enc _ _ Hu).
    + exists enc, s2. split; [exact P12|reflexivity].
Qed.

Lemma to_bytes_channel (i : nat) : (i < 256)%nat -> Py.to_bytes (Z.of_nat i) 1 false = Py.Ok [Z.of_nat i].
Proof.
  intros H. unfold Py.to_bytes.
  replace (8 * Z.of_nat 1) with 8 by reflexivity.
  destruct (0 <=? Z.of_nat i) eqn:E1; [|lia].
  destruct (Z.of_nat i <? 2 ^ 8) eqn:E2; [|lia].
  cbn [andb Py.le_digits]. rewrite Z.mod_small by lia. reflexivity.
Qed.

Lemma from_bytes_signed_int32 b0 b1 b2 b3 :
  Py.from_bytes_signed [b0; b1; b2; b3] = int32_le b0 b1 b2 b3.
Proof.
  unfold Py.from_bytes_signed, int32_le. cbn [length Py.le_value].
  replace (8 * Z.of_nat 4) with 32 by reflexivity.
  replace (b0 + 256 * (b1 + 256 * (b2 + 256 * (b3 + 256 * 0))))
    with (b0 + 2 ^ 8 * b1 + 2 ^ 16 * b2 + 2 ^ 24 * b3) by lia.
  reflexivity.
Qed.

Lemma query_echo s channel verbose i name r0 r1 r2 r3 r4 r5 r6 r7 r8 r9 r10 r11 p :
  Py.contains (channels s) channel = true ->
  Py.dict_zip_get (channels s) (_internal_channels s) channel = Py.Ok i ->
  (i < 256)%nat ->
  stages s !! i = Some (Some name) ->
  serial_read 12 (serial_write (query_frame [Z.of_nat i]) (port s))
    = Some ([r0; r1; r2; r3; r4; r5; r6; r7; r8; r9; r10; r11], p) ->
  in_buffer p = [] ->
  _get_encoder_value channel verbose s =
    if bool_decide (r6 = Z.of_nat i)
    then Return (int32_le r8 r9 r10 r11) (set_port p s)
    else Raise (Py.AssertionError Py.ProtocolMismatch) (set_port p s).
Proof.
  intros Hc Hd Hi Hs Hr Hb.
  rewrite get_encoder_value_outcome. unfold query_outcome.
  rewrite Hc, Hd, (to_bytes_channel i Hi), Hs. cbv zeta. rewrite Hr, Hb.
  cbn [length Nat.eqb].
  unfold Py.slice, Py.suffix. cbn [length Nat.sub drop take].
  rewrite from_bytes_signed_int32.
  repeat case_bool_decide; congruence.
Qed.

Lemma never_fails_assert_channel x channel :
  x <> Py.ChannelNotAvailable -> never_fails x (assert_channel channel).
Proof. intros H s. apply never_fails_assert_that, H. Qed.

Lemma get_encoder_value_in_range channel verbose :
  never_fails Py.OutOfRange (_get_encoder_value channel verbose).
Proof.
  intros s s'. rewrite get_encoder_value_outcome. unfold query_outcome.
  repeat match goal with
         | |- context [match ?x with _ => _ end] => destruct x eqn:?
         end; try discriminate.
  all: intros [= -> _];
    match goal with
    | H : Py.dict_zip_get _ _ _ = _ |- _ => exact (no_assertion_dict _ _ _ _ H)
    | H : Py.to_bytes _ _ _ = _ |- _ => exact (no_assertion_to_bytes _ _ _ _ H)
    end.
Qed.

Ltac in_range lemmas :=
  clean;
  try (apply never_fails_assert_channel; discriminate);
  auto using get_encoder_value_in_range, um_from_encoder_value_clean,
    encoder_value_from_um_clean.

Lemma poll_in_range budget channel timeout :
  forall cur, never_fails Py.OutOfRange (poll budget channel timeout cur).
Proof.
  induction budget as [|b IH]; intros cur; cbn [poll];
    unfold internal_channel, pending_at; in_range tt.
  intros ? ?; discriminate.
Qed.

Lemma finish_move_in_range channel verbose :
  never_fails Py.OutOfRange (_finish_move channel verbose).
Proof.
  unfold _finish_move, internal_channel, pending_at. in_range tt.
  intros s s'. apply poll_in_range.
Qed.

Lemma send_in_range cmd channel n : never_fails Py.OutOfRange (_send cmd channel n).
Proof.
  unfold _send, internal_channel. in_range tt.
  all: intros ? ?; destruct (serial_read _ _) as [[]|]; discriminate.
Qed.

Lemma move_to_encoder_value_in_range channel e block :
  never_fails Py.OutOfRange (_move_to_encoder_value channel e block).
Proof.
  unfold _move_to_encoder_value, internal_channel, pending_at. in_range tt.
  all: try apply finish_move_in_range; try apply send_in_range.
Qed.

Lemma get_position_um_in_range channel verbose :
  never_fails Py.OutOfRange (get_position_um channel verbose).
Proof. unfold get_position_um. in_range tt. Qed.

(** The guard, by the distance of the target from the reference value. *)
Lemma check_min_motion_spec move_um channel i r target s :
  Py.dict_zip_get (channels s) (_internal_channels s) channel = Py.Ok i ->
  reference_encoder i s = Some r ->
  check_min_motion_body move_um channel target s =
    if target =? r then Return false s
    else if Z.abs (target - r) <=? _min_encoder_motion s
         then (run move_um channel 10%float true true false then ret true) s
         else Return true s.
Proof.
  intros Hd Hr. unfold reference_encoder in Hr.
  unfold check_min_motion_body, internal_channel, pending_at, current_at, Py.index.
  munfold. mrew.
  destruct (_pending_encoder_value s !! i) as [pending|] eqn:Hp; [|discriminate]. mrew.
  assert (Hcmp : forall o : option Z, o = Some r ->
            bool_decide (Some target = o) = (target =? r)).
  { intros o ->. case_bool_decide as Heq.
    - injection Heq as ->. symmetry. apply Z.eqb_refl.
    - symmetry. apply Z.eqb_neq. congruence. }
  destruct pending as [p|]; msimpl.
  - destruct (Py.int_truthy p) eqn:Ht.
    + injection Hr as ->. mrew. rewrite (Hcmp _ eq_refl).
      destruct (target =? r); [reflexivity|]. mrew.
      destruct (Z.abs (target - r) <=? _min_encoder_motion s); [|reflexivity].
      destruct (move_um channel 10%float true true false s); reflexivity.
    + destruct (_current_encoder_value s !! i) as [current|] eqn:Hc;
        rewrite ?Hc in Hr; [|discriminate].
      subst current. mrew. rewrite (Hcmp _ eq_refl).
      destruct (target =? r); [reflexivity|]. mrew.
      destruct (Z.abs (target - r) <=? _min_encoder_motion s); [|reflexivity].
      destruct (move_um channel 10%float true true false s); reflexivity.
  - destruct (_current_encoder_value s !! i) as [current|] eqn:Hc;
      rewrite ?Hc in Hr; [|discriminate].
    subst current. mrew. rewrite (Hcmp _ eq_refl).
    destruct (target =? r); [reflexivity|]. mrew.
    destruct (Z.abs (target - r) <=? _min_encoder_motion s); [|reflexivity].
    destruct (move_um channel 10%float true true false s); reflexivity.
Qed.

Lemma target_encoder_reads channel um relative : reads_only (target_encoder channel um relative).
Proof.
  unfold target_encoder, internal_channel, pending_at, current_at. reads.
  all: apply encoder_value_from_um_reads.
Qed.

Lemma within_limits_reads channel target : reads_only (within_limits channel target).
Proof.
  unfold within_limits, internal_channel, lowest_scan_at, highest_scan_at,
    lower_limit_at, upper_limit_at, reverse_at, assert_that.
  reads. all: apply um_from_encoder_value_reads.
Qed.

(** Without a nudge, legalizing a move leaves the state as it was. *)
Lemma legalize_without_nudge move_um channel um relative verbose i r t s :
  Py.dict_zip_get (channels s) (_internal_channels s) channel = Py.Ok i ->
  reference_encoder i s = Some r ->
  target_encoder channel um relative s = Return t s ->
  t = r \/ _min_encoder_motion s < Z.abs (t - r) ->
  (exists legal, legalize_move_um_body move_um channel um relative verbose s = Return legal s)
  \/ (exists e, legalize_move_um_body move_um channel um relative verbose s = Raise e s).
Proof.
  intros Hd Hr Ht Hfar.
  unfold legalize_move_um_body, assert_channel. munfold.
  destruct (Py.contains (channels s) channel); [|right; eauto].
  rewrite Ht, (check_min_motion_spec _ _ _ _ _ _ Hd Hr).
  destruct Hfar as [->|Hfar].
  - rewrite Z.eqb_refl. cbn. left. eauto.
  - destruct (t =? r) eqn:E; [cbn; left; eauto|].
    destruct (Z.abs (t - r) <=? _min_encoder_motion s) eqn:E'; [lia|]. cbn.
    destruct (within_limits_reads channel t s) as [[legal ->]|[e ->]]; [left|right]; eauto.
Qed.

(** ** Out-of-range requests *)

(** C2, as amended.  A move request that is rejected as out of range, and
    whose target is either the reference encoder value itself or more than
    [_min_encoder_motion] counts away from it (so that the guard asks for no
    nudge), is rejected with the state as it was: nothing was written to the
    device, and the current and pending encoder values are unchanged. *)
Theorem out_of_range_rejection_is_clean depth channel um relative block verbose i r t s s' :
  Py.dict_zip_get (channels s) (_internal_channels s) channel = Py.Ok i ->
  reference_encoder i s = Some r ->
  target_encoder channel um relative s = Return t s ->
  t = r \/ _min_encoder_motion s < Z.abs (t - r) ->
  move_um_at (S depth) channel um relative block verbose s
    = Raise (Py.AssertionError Py.OutOfRange) s' ->
  s' = s.
Proof.
  intros Hd Hr Ht Hfar H.
  cbn [move_um_at] in H. unfold move_um_body in H.
  unfold bind at 1 in H.
  unfold assert_channel, assert_that in H.
  destruct (Py.contains (channels s) channel); [|discriminate].
  cbn [ret] in H. unfold bind at 1 in H.
  destruct (legalize_without_nudge (move_um_at depth) channel um relative verbose
              i r t s Hd Hr Ht Hfar) as [[legal E]|[e E]]; rewrite E in H.
  - exfalso. revert H.
    match goal with
    | |- ?m s = _ -> False => enough (NF : never_fails Py.OutOfRange m) by apply NF
    end.
    in_range tt.
    all: auto using get_position_um_in_range, move_to_encoder_value_in_range,
           finish_move_in_range.
  - congruence.
Qed.

(** ** One move at a time *)

Lemma polled_move_frames s s' : polled s s' -> move_frames s' = move_frames s.
Proof.
  intros (_ & _ & queries & W & F). unfold move_frames. rewrite W, filter_app.
  rewrite <- (app_nil_r (filter _ (written (port s)))) at 2. f_equal.
  clear W. induction F as [|f l Hf _ IH]; [reflexivity|].
  rewrite filter_cons_False; [exact IH|]. rewrite Hf. discriminate.
Qed.

Lemma finish_move_idle channel verbose s i :
  Py.contains (channels s) channel = true ->
  Py.dict_zip_get (channels s) (_internal_channels s) channel = Py.Ok i ->
  _pending_encoder_value s !! i = Some None ->
  _finish_move channel verbose s = Return None s.
Proof.
  intros Hc Hd Hp.
  unfold _finish_move, assert_channel, internal_channel, pending_at, Py.index. munfold.
  mrew. reflexivity.
Qed.



Lemma send_command_outcome channel i name cmd s :
  Py.dict_zip_get (channels s) (_internal_channels s) channel = Py.Ok i ->
  stages s !! i = Some (Some name) ->
  _send cmd channel None s =
    if (length (in_buffer (port s) ++ hd [] (replies (port s))) =? 0)%nat
    then Return None (set_port (serial_write cmd (port s)) s)
    else Raise (Py.AssertionError Py.LinkDesync) (set_port (serial_write cmd (port s)) s).
Proof.
  intros Hd Hs. unfold _send, internal_channel, serial_inWaiting, Py.index. munfold. mrew.
  destruct (length _ =? 0)%nat; reflexivity.
Qed.

Lemma to_bytes_int32 n :
  - 2 ^ 31 <= n < 2 ^ 31 ->
  exists b0 b1 b2 b3,
    Py.to_bytes n 4 true = Py.Ok [b0; b1; b2; b3]
    /\ 0 <= b0 < 256 /\ 0 <= b1 < 256 /\ 0 <= b2 < 256 /\ 0 <= b3 < 256
    /\ int32_le b0 b1 b2 b3 = n.
Proof.
  intros Hn. unfold Py.to_bytes.
  replace (8 * Z.of_nat 4) with 32 by reflexivity.
  replace (32 - 1) with 31 by reflexivity.
  destruct (- 2 ^ 31 <=? n) eqn:E1; [|lia]. destruct (n <? 2 ^ 31) eqn:E2; [|lia].
  cbn [andb Py.le_digits].
  set (m := n mod 2 ^ 32).
  assert (Hm : 0 <= m < 2 ^ 32) by (apply Z.mod_pos_bound; lia).
  assert (Hmn : m = if n <? 0 then n + 2 ^ 32 else n).
  { subst m. destruct (n <? 0) eqn:E3.
    - symmetry. apply (Z.mod_unique n (2 ^ 32) (-1)); lia.
    - apply Z.mod_small. lia. }
  exists (m mod 256), (m / 256 mod 256), (m / 256 / 256 mod 256), (m / 256 / 256 / 256 mod 256).
  split; [reflexivity|].
  repeat (split; [apply Z.mod_pos_bound; lia|]).
  unfold int32_le.
  pose proof (Z.div_mod m 256 ltac:(lia)) as D0.
  pose proof (Z.div_mod (m / 256) 256 ltac:(lia)) as D1.
  pose proof (Z.div_mod (m / 256 / 256) 256 ltac:(lia)) as D2.
  assert (D3 : m / 256 / 256 / 256 mod 256 = m / 256 / 256 / 256).
  { apply Z.mod_small. split.
    - repeat apply Z.div_pos; lia.
    - rewrite !Z.div_div by lia. apply Z.div_lt_upper_bound; lia. }
  pose proof (Z.div_mod (m / 256 / 256 / 256) 256 ltac:(lia)) as D3'.
  assert (Hu : m mod 256 + 2 ^ 8 * (m / 256 mod 256) + 2 ^ 16 * (m / 256 / 256 mod 256)
               + 2 ^ 24 * (m / 256 / 256 / 256 mod 256) = m) by lia.
  rewrite Hu. destruct (n <? 0) eqn:E3; subst m; rewrite Hmn.
  - destruct (n + 2 ^ 32 <? 2 ^ 31) eqn:E4; lia.
  - destruct (n <? 2 ^ 31) eqn:E4; lia.
Qed.

Lemma move_to_encoder_value_idle channel i name n block s :
  Py.contains (channels s) channel = true ->
  Py.dict_zip_get (channels s) (_internal_channels s) channel = Py.Ok i ->
  stages s !! i = Some (Some name) ->
  _pending_encoder_value s !! i = Some None ->
  _move_to_encoder_value channel n block s =
    match Py.to_bytes n 4 true with
    | Py.Err e => Raise e s
    | Py.Ok eb =>
        match Py.to_bytes (Z.of_nat i) 2 false with
        | Py.Err e => Raise e s
        | Py.Ok cb =>
            let s1 := set_port (serial_write (move_frame cb eb) (port s)) s in
            if (length (in_buffer (port s) ++ hd [] (replies (port s))) =? 0)%nat
            then
              let s2 := set_pending (<[i := Some n]> (_pending_encoder_value s)) s1 in
              if block then (run _finish_move channel false then ret tt) s2
              else Return tt s2
            else Raise (Py.AssertionError Py.LinkDesync) s1
        end
    end.
Proof.
  intros Hc Hd Hs Hp.
  assert (Hlt : (i <? length (_pending_encoder_value s))%nat = true)
    by (apply Nat.ltb_lt; eapply lookup_lt_Some; eassumption).
  unfold _move_to_encoder_value, assert_channel, internal_channel, pending_at, Py.index.
  munfold. mrew.
  destruct (Py.to_bytes n 4 true) as [eb|]; mrew; [|reflexivity].
  destruct (Py.to_bytes (Z.of_nat i) 2 false) as [cb|]; mrew; [|reflexivity].
  rewrite (send_command_outcome _ _ _ _ _ Hd Hs). cbv zeta.
  destruct (length _ =? 0)%nat; [|reflexivity]. msimpl. rewrite Hd. msimpl.
  unfold Py.store. rewrite Hlt. msimpl.
  destruct block; reflexivity.
Qed.

(** ** The wait on a device that answers *)









(** ** The echo check of a position query *)

Lemma finish_move_assertion_keeps_current channel verbose s a s' :
  _finish_move channel verbose s = Raise (Py.AssertionError a) s' ->
  _current_encoder_value s' = _current_encoder_value s.
Proof.
  intros H.
  destruct (Py.contains (channels s) channel) eqn:Hc;
    [|unfold _finish_move, assert_channel in H; munfold; rewrite Hc in H;
      injection H as _ <-; reflexivity].
  destruct (Py.dict_zip_get (channels s) (_internal_channels s) channel) as [i|e] eqn:Hd;
    [|unfold _finish_move, assert_channel, internal_channel in H; munfold;
      rewrite Hc in H; msimpl; rewrite Hd in H; injection H as _ <-; reflexivity].
  destruct (_pending_encoder_value s !! i) as [[p|]|] eqn:Hp.
  - pose proof (finish_move_spec channel verbose s i p Hd Hp) as HF. rewrite H in HF.
    destruct HF as [P|(Hn & _)]; [|exfalso; exact (Hn a eq_refl)].
    apply (polled_fields _ _ P).
  - rewrite (finish_move_idle _ _ _ _ Hc Hd Hp) in H. discriminate.
  - unfold _finish_move, assert_channel, internal_channel, pending_at, Py.index in H.
    munfold. rewrite Hc in H. msimpl. rewrite Hd in H. msimpl. rewrite Hp in H.
    injection H as _ <-. reflexivity.
Qed.

(** C8.  A position query on a configured channel whose 12-byte response is
    [r0 ... r11]: when byte 6 is not the internal index of the channel the
    query fails the echo assertion and the current encoder values are as
    before, also when the query is made by [_finish_move]; when it is, the
    query returns bytes 8 to 11 read as a little-endian signed 32-bit
    integer. *)
Theorem position_query_checks_echo s channel verbose i name
  r0 r1 r2 r3 r4 r5 r6 r7 r8 r9 r10 r11 p :
  Py.contains (channels s) channel = true ->
  Py.dict_zip_get (channels s) (_internal_channels s) channel = Py.Ok i ->
  (i < 256)%nat ->
  stages s !! i = Some (Some name) ->
  serial_read 12 (serial_write (query_frame [Z.of_nat i]) (port s))
    = Some ([r0; r1; r2; r3; r4; r5; r6; r7; r8; r9; r10; r11], p) ->
  in_buffer p = [] ->
  (r6 <> Z.of_nat i ->
     exists s', _get_encoder_value channel verbose s
                  = Raise (Py.AssertionError Py.ProtocolMismatch) s'
                /\ _current_encoder_value s' = _current_encoder_value s)
  /\ (r6 = Z.of_nat i ->
        _get_encoder_value channel verbose s
          = Return (int32_le r8 r9 r10 r11) (set_port p s))
  /\ (forall v s', _finish_move channel v s
                     = Raise (Py.AssertionError Py.ProtocolMismatch) s' ->
                   _current_encoder_value s' = _current_encoder_value s).
Proof.
  intros Hc Hd Hi Hs Hr Hb.
  pose proof (query_echo s channel verbose i name r0 r1 r2 r3 r4 r5 r6 r7 r8 r9 r10 r11 p
                Hc Hd Hi Hs Hr Hb) as E.
  split; [|split].
  - intros Hne. rewrite bool_decide_false in E by assumption.
    exists (set_port p s). split; [exact E|reflexivity].
  - intros He. rewrite bool_decide_true in E by assumption. exact E.
  - intros v s'. apply finish_move_assertion_keeps_current.
Qed.

(** ** Truth tests on numbers *)

(** C9.  On a channel whose pending target is the encoder value 0, a
    relative move is legalized as if no move were outstanding: the target is
    the converted request plus the current encoder value, and the guard
    measures the target against the current encoder value. *)
Theorem pending_zero_counts_as_idle move_um s channel i c :
  Py.dict_zip_get (channels s) (_internal_channels s) channel = Py.Ok i ->
  _pending_encoder_value s !! i = Some (Some 0) ->
  _current_encoder_value s !! i = Some (Some c) ->
  (forall um,
     target_encoder channel um true s
       = (let* e := _encoder_value_from_um channel um in ret (e + c)) s)
  /\ (forall target,
        check_min_motion_body move_um channel target s =
          if target =? c then Return false s
          else if Z.abs (target - c) <=? _min_encoder_motion s
               then (run move_um channel 10%float true true false then ret true) s
               else Return true s).
Proof.
  intros Hd Hp Hc. split.
  - intros um.
    unfold target_encoder, internal_channel, pending_at, current_at, Py.index. munfold.
    destruct (encoder_value_from_um_reads channel um s) as [[e ->]|[e ->]]; [|reflexivity].
    mrew. change (Py.int_truthy 0) with false. mrew. reflexivity.
  - intros target. apply check_min_motion_spec with (i := i); [exact Hd|].
    unfold reference_encoder. rewrite Hp, Hc. reflexivity.
Qed.


(** ** The theorems at work on the bench *)

(** An absolute move to the upper limit plus one conversion step
    (12700.2116667 um) from encoder value 0 is rejected with the state as
    it was. *)
Lemma out_of_range_rejection_is_clean_witness :
  Py.dict_zip_get (channels (one_axis false 0 [])) (_internal_channels (one_axis false 0 [])) 1
    = Py.Ok 0%nat
  /\ reference_encoder 0 (one_axis false 0 []) = Some 0
  /\ target_encoder 1 0x1.8ce1b17e4f913p+13%float false (one_axis false 0 [])
     = Return 60000 (one_axis false 0 [])
  /\ (60000 = 0 \/ _min_encoder_motion (one_axis false 0 []) < Z.abs (60000 - 0))
  /\ move_um 1 0x1.8ce1b17e4f913p+13%float false true false (one_axis false 0 [])
     = Raise (Py.AssertionError Py.OutOfRange) (one_axis false 0 []).
Proof.
  assert (H1 : Py.dict_zip_get (channels (one_axis false 0 []))
                 (_internal_channels (one_axis false 0 [])) 1 = Py.Ok 0%nat)
    by (vm_compute; reflexivity).
  assert (H2 : reference_encoder 0 (one_axis false 0 []) = Some 0)
    by (vm_compute; reflexivity).
  assert (H3 : target_encoder 1 0x1.8ce1b17e4f913p+13%float false (one_axis false 0 [])
               = Return 60000 (one_axis false 0 []))
    by (vm_compute; reflexivity).
  assert (H4 : 60000 = 0 \/ _min_encoder_motion (one_axis false 0 []) < Z.abs (60000 - 0))
    by (right; vm_compute; reflexivity).
  assert (H5 : exists s', move_um_at (S 332) 1 0x1.8ce1b17e4f913p+13%float false true false
                            (one_axis false 0 [])
                          = Raise (Py.AssertionError Py.OutOfRange) s')
    by (eexists; vm_compute; reflexivity).
  destruct H5 as [s' H5].
  split; [exact H1|]. split; [exact H2|]. split; [exact H3|]. split; [exact H4|].
  change move_um with (move_um_at (S 332)). rewrite H5. f_equal.
  exact (out_of_range_rejection_is_clean 332 1 _ false true false 0%nat 0 60000 _ s'
           H1 H2 H3 H4 H5).
Defined.

(** C2, as stated, fails.  The stage is at encoder value -59999 and an
    absolute move to -12700.3 um is requested: the target, -60001, is two
    counts away, so the guard first nudges the stage: a move command goes
    out and the current encoder value becomes -59952; only then is the
    request rejected as out of range. *)
Lemma rejection_after_a_nudge :
  ~ rejected_before_any_write (one_axis false (-59999) [[]; position_reply 0 (-59952)])
      1 (-0x1.8ce2666666666p+13)%float false true false.
Proof.
  intros H.
  assert (E : exists s',
             move_um 1 (-0x1.8ce2666666666p+13)%float false true false
               (one_axis false (-59999) [[]; position_reply 0 (-59952)])
             = Raise (Py.AssertionError Py.OutOfRange) s'
             /\ _current_encoder_value s' = [Some (-59952); None; None])
    by (eexists; split; vm_compute; reflexivity).
  destruct E as (s' & E & C).
  destruct (H s' E) as (_ & C' & _). rewrite C in C'. vm_compute in C'. discriminate.
Qed.


(** A query on channel 1 answered with the encoder value 1234. *)
Lemma position_query_checks_echo_witness :
  Py.contains (channels (one_axis false 0 [position_reply 0 1234])) 1 = true
  /\ stages (one_axis false 0 [position_reply 0 1234]) !! 0%nat = Some (Some "ZFM2020"%string)
  /\ _get_encoder_value 1 false (one_axis false 0 [position_reply 0 1234])
     = Return 1234
         (set_port {| written := [[10; 4; 0; 0; 0; 0]; [10; 4; 0; 0; 0; 0]];
                      received := [position_reply 0 0; position_reply 0 1234];
                      in_buffer := []; replies := [] |}
            (one_axis false 0 [position_reply 0 1234])).
Proof.
  split; [vm_compute; reflexivity|]. split; [vm_compute; reflexivity|].
  refine (proj1 (proj2 (position_query_checks_echo
            (one_axis false 0 [position_reply 0 1234]) 1 false 0%nat "ZFM2020"%string
            0 0 0 0 0 0 0 0 210 4 0 0 _ _ _ _ _ _ _)) _);
    try (vm_compute; reflexivity).
  lia.
Defined.

(** The pending target of [homing] is 0 and the stage is at 40: a relative
    move of 10 um is aimed at 47 + 40, not at 47 + 0. *)
Lemma pending_zero_counts_as_idle_witness :
  Py.dict_zip_get (channels homing) (_internal_channels homing) 1 = Py.Ok 0%nat
  /\ _pending_encoder_value homing !! 0%nat = Some (Some 0)
  /\ _current_encoder_value homing !! 0%nat = Some (Some 40)
  /\ target_encoder 1 10%float true homing = Return 87 homing.
Proof.
  assert (H1 : Py.dict_zip_get (channels homing) (_internal_channels homing) 1 = Py.Ok 0%nat)
    by (vm_compute; reflexivity).
  assert (H2 : _pending_encoder_value homing !! 0%nat = Some (Some 0))
    by (vm_compute; reflexivity).
  assert (H3 : _current_encoder_value homing !! 0%nat = Some (Some 40))
    by (vm_compute; reflexivity).
  split; [exact H1|]. split; [exact H2|]. split; [exact H3|].
  rewrite (proj1 (pending_zero_counts_as_idle move_um homing 1 0%nat 40 H1 H2 H3) 10%float).
  vm_compute. reflexivity.
Defined.

(** ** Where the code departs from its documentation *)

(** C1.  The stage is at encoder value 0 and an absolute move to 1.1 um is
    legalized: the target is 5 counts away, which is the documented minimum
    motion, and the guard still nudges: a move command to encoder value 47
    goes out and the stage is left there. *)
Theorem guard_nudges_at_five_counts :
  target_encoder 1 0x1.199999999999ap+0%float false
      (one_axis false 0 [[]; position_reply 0 47])
    = Return 5 (one_axis false 0 [[]; position_reply 0 47])
  /\ reference_encoder 0 (one_axis false 0 [[]; position_reply 0 47]) = Some 0
  /\ exists s',
       legalize_move_um 1 0x1.199999999999ap+0%float false false
           (one_axis false 0 [[]; position_reply 0 47])
         = Return (Some 0x1.0eeef1bac2df1p+0%float) s'
       /\ move_frames s' = [[83; 4; 6; 0; 0; 0; 0; 0; 47; 0; 0; 0]]
       /\ _current_encoder_value s' = [Some 47; None; None].
Proof.
  split; [vm_compute; reflexivity|]. split; [vm_compute; reflexivity|].
  eexists. split; [vm_compute; reflexivity|]. split; vm_compute; reflexivity.
Qed.

(** C4.  Channels 1 and 2 are configured.  Setting the lower scan limit of
    channel 1 to 100 um succeeds and rebinds the attribute to the number:
    the lowest scan point of channel 2, -12700 um before, can no longer be
    read.  Setting the upper scan limit fails with TypeError after the
    attribute has been rebound. *)
Theorem scan_limit_replaces_the_list :
  lowest_scan_at 1 two_axes = Return (Some (-12700)%float) two_axes
  /\ (exists s',
        set_stage_limit_um 1 true (Some 100%float) two_axes = Return 100%float s'
        /\ _stage_lowest_scan_point_um s' = Scalar 100
        /\ lowest_scan_at 0 s' = Raise Py.TypeError s'
        /\ lowest_scan_at 1 s' = Raise Py.TypeError s')
  /\ (exists s',
        set_stage_limit_um 1 false (Some 100%float) two_axes = Raise Py.TypeError s'
        /\ _stage_highest_scan_point_um s' = Scalar 100).
Proof.
  split; [vm_compute; reflexivity|]. split.
  - eexists. split; [vm_compute; reflexivity|].
    split; [vm_compute; reflexivity|]. split; vm_compute; reflexivity.
  - eexists. split; vm_compute; reflexivity.
Qed.

(** C5.  A retract point of 100 um lies between the scan points -12700 and
    12700 of a fresh axis and is refused: on the axis that is not reversed
    by an AttributeError raised while the message of the failed assertion
    is built, on the reversed axis by the assertion itself. *)
Theorem retract_point_inside_is_refused :
  lowest_scan_at 0 (one_axis false 0 []) = Return (Some (-12700)%float) (one_axis false 0 [])
  /\ highest_scan_at 0 (one_axis false 0 []) = Return (Some 12700%float) (one_axis false 0 [])
  /\ set_retract_point_um 1 (Some 100%float) false false (one_axis false 0 [])
     = Raise Py.AttributeError (one_axis false 0 [])
  /\ lowest_scan_at 0 (one_axis true 0 []) = Return (Some 12700%float) (one_axis true 0 [])
  /\ highest_scan_at 0 (one_axis true 0 []) = Return (Some (-12700)%float) (one_axis true 0 [])
  /\ set_retract_point_um 1 (Some 100%float) false false (one_axis true 0 [])
     = Raise (Py.AssertionError Py.OutOfRange) (one_axis true 0 []).
Proof.
  split; [vm_compute; reflexivity|]. split; [vm_compute; reflexivity|].
  split; [vm_compute; reflexivity|]. split; [vm_compute; reflexivity|].
  split; vm_compute; reflexivity.
Qed.

(** C6.  The stage is at encoder value 100 and the encoder target of 0 um
    is 0: [move_zero] returns [None] and leaves the controller and the
    port as they were; no move command is written. *)
Theorem move_zero_moves_nothing :
  _current_encoder_value (one_axis false 100 []) = [Some 100; None; None]
  /\ _encoder_value_from_um 1 0%float (one_axis false 100 []) = Return 0 (one_axis false 100 [])
  /\ move_zero 1 true (one_axis false 100 []) = Return None (one_axis false 100 [])
  /\ move_frames (one_axis false 100 []) = [].
Proof.
  split; [vm_compute; reflexivity|]. split; [vm_compute; reflexivity|].
  split; vm_compute; reflexivity.
Qed.

(** ** The unit conversions *)


Lemma um_from_encoder_value_pure channel i conv reversed n s :
  Py.dict_zip_get (channels s) (_internal_channels s) channel = Py.Ok i ->
  _stage_conversion_um s !! i = Some (Some conv) ->
  reverse s !! i = Some reversed ->
  _um_from_encoder_value channel n s = lift (um_of conv reversed n) s.
Proof.
  intros Hd Hc Hr.
  unfold _um_from_encoder_value, um_of, internal_channel, Py.int_mul_float, Py.index.
  munfold. mrew.
  destruct (Py.float_of_int n); mrew; [|reflexivity].
  destruct reversed; reflexivity.
Qed.

Lemma encoder_value_from_um_pure channel i conv reversed um s :
  Py.dict_zip_get (channels s) (_internal_channels s) channel = Py.Ok i ->
  _stage_conversion_um s !! i = Some (Some conv) ->
  reverse s !! i = Some reversed ->
  _encoder_value_from_um channel um s = lift (encoder_of conv reversed um) s.
Proof.
  intros Hd Hc Hr.
  unfold _encoder_value_from_um, encoder_of, internal_channel, Py.index.
  munfold. mrew.
  destruct (Py.float_div um conv); mrew; [|reflexivity].
  destruct (Py.int_of_float a); mrew; [|reflexivity].
  rewrite Z.add_0_r. reflexivity.
Qed.

(** [x + 0] is never the negative zero. *)
Lemma add_zero_not_negative_zero (x : float) : Prim2SF (x + 0) <> S754_zero true.
Proof.
  rewrite add_spec. change (Prim2SF 0) with (S754_zero false).
  destruct (Prim2SF x) as [[]|[]| |]; cbn; discriminate.
Qed.

(** [int(x)] drops the fraction of [x] and keeps its sign. *)
Lemma int_of_float_truncates x t y :
  Py.int_of_float x = Py.Ok t ->
  exact x = Some y ->
  (inject_Z (Z.abs t) <= Qabs y)%Q /\ (Qabs y < inject_Z (Z.abs t) + 1)%Q
  /\ (0 <= inject_Z t * y)%Q.
Proof.
  unfold Py.int_of_float, exact.
  destruct (Prim2SF x) as [sg|sg| |sg m e]; try discriminate.
  - intros [= <-] [= <-]. cbn. split; [discriminate|]. split; [reflexivity|discriminate].
  - intros [= <-] [= <-].
    destruct (0 <=? e) eqn:He.
    + apply Z.leb_le in He. rewrite Z.shiftl_mul_pow2 by assumption.
      assert (0 < 2 ^ e) by (apply Z.pow_pos_nonneg; lia).
      assert (Hy : Qabs (inject_Z ((if sg then Z.neg m else Z.pos m) * 2 ^ e))
                   = inject_Z (Z.pos m * 2 ^ e)).
      { unfold Qabs, inject_Z. f_equal. destruct sg; lia. }
      rewrite Hy.
      assert (Ht : Z.abs (if sg then - (Z.pos m * 2 ^ e) else Z.pos m * 2 ^ e)
                   = Z.pos m * 2 ^ e) by (destruct sg; lia).
      rewrite Ht. split; [apply Qle_refl|]. split.
      * rewrite <- (Qplus_0_r (inject_Z _)) at 1. apply Qplus_lt_r. reflexivity.
      * rewrite <- inject_Z_mult. change 0%Q with (inject_Z 0). rewrite <- Zle_Qle.
        destruct sg; nia.
    + apply Z.leb_gt in He. rewrite Z.shiftr_div_pow2 by lia.
      set (k := 2 ^ (- e)) in *.
      assert (Hk : 0 < k) by (apply Z.pow_pos_nonneg; lia).
      assert (Hpos : Z.pos (Z.to_pos k) = k) by (apply Z2Pos.id; assumption).
      assert (Hq : 0 <= Z.pos m / k) by (apply Z.div_pos; lia).
      assert (Ht : Z.abs (if sg then - (Z.pos m / k) else Z.pos m / k) = Z.pos m / k)
        by (destruct sg; lia).
      rewrite Ht.
      assert (Hy : Qabs (Qmake (if sg then Z.neg m else Z.pos m) (Z.to_pos k))
                   = Qmake (Z.pos m) (Z.to_pos k)).
      { unfold Qabs. f_equal. destruct sg; reflexivity. }
      rewrite Hy.
      pose proof (Z.mul_div_le (Z.pos m) k Hk).
      pose proof (Z.mul_succ_div_gt (Z.pos m) k Hk).
      split; [|split].
      * unfold Qle. cbn [Qnum Qden inject_Z]. rewrite Hpos. lia.
      * unfold Qlt, Qplus. cbn [Qnum Qden inject_Z]. rewrite Hpos. lia.
      * unfold Qle, Qmult. cbn [Qnum Qden inject_Z].
        destruct sg; nia.
Qed.

Lemma all_from_spec f : forall count lo n,
  all_from f lo count = true -> lo <= n < lo + Z.of_nat count -> f n = true.
Proof.
  induction count as [|k IH]; intros lo n H Hn; [lia|].
  cbn [all_from] in H. apply andb_true_iff in H as [H0 H1].
  destruct (Z.eq_dec n lo) as [->|Hne]; [assumption|].
  apply (IH (lo + 1)); [assumption|lia].
Qed.

Lemma binary_round_aux_opp s m e l :
  binary_round_aux prec emax (negb s) m e l = SFopp (binary_round_aux prec emax s m e l).
Proof.
  unfold binary_round_aux.
  destruct (shr_fexp prec emax m e l) as [mrs e1].
  destruct (shr_fexp prec emax _ e1 loc_Exact) as [mrs' e2].
  destruct (shr_m mrs'); [reflexivity| |reflexivity].
  destruct (e2 <=? emax - prec); reflexivity.
Qed.

Lemma SF2Prim_opp_round m e :
  SF2Prim (binary_round prec emax true m e) = (- SF2Prim (binary_round prec emax false m e))%float.
Proof.
  unfold binary_round.
  destruct (shl_align m e _) as [mz ez].
  change true with (negb false). rewrite binary_round_aux_opp.
  unfold binary_round_aux.
  destruct (shr_fexp prec emax (Z.pos mz) ez loc_Exact) as [mrs e1].
  destruct (shr_fexp prec emax _ e1 loc_Exact) as [mrs' e2].
  destruct (shr_m mrs'); [reflexivity| |reflexivity].
  destruct (e2 <=? emax - prec); reflexivity.
Qed.

Lemma float_of_nat_fast n :
  0 <= n < 2 ^ 63 ->
  SF2Prim (binary_normalize prec emax n 0 false) = of_uint63 (Uint63.of_Z n).
Proof.
  intros Hn. rewrite <- (SF2Prim_Prim2SF (of_uint63 (Uint63.of_Z n))).
  rewrite of_uint63_spec, Uint63.of_Z_spec.
  rewrite Z.mod_small; [reflexivity|]. exact Hn.
Qed.

Lemma float_of_int_fast n :
  - 2 ^ 63 < n < 2 ^ 63 ->
  Py.float_of_int n =
    if is_infinity (fast_float n) then Py.Err Py.OverflowError else Py.Ok (fast_float n).
Proof.
  intros Hn. unfold Py.float_of_int, fast_float.
  destruct (n <? 0) eqn:E.
  - apply Z.ltb_lt in E. destruct n as [|p|p]; try lia.
    cbn [binary_normalize]. rewrite SF2Prim_opp_round.
    change (binary_round prec emax false p 0) with (binary_normalize prec emax (Z.pos p) 0 false).
    rewrite float_of_nat_fast by lia. reflexivity.
  - apply Z.ltb_ge in E. rewrite float_of_nat_fast by lia. reflexivity.
Qed.

Lemma um_of_fast reversed n :
  - 2 ^ 63 < n < 2 ^ 63 ->
  is_infinity (fast_float n) = false ->
  um_of step_um reversed n = Py.Ok (um_fast reversed n).
Proof.
  intros Hn Hi. unfold um_of. rewrite (float_of_int_fast n Hn), Hi. reflexivity.
Qed.

Lemma exact_finite x :
  is_nan x = false -> is_infinity x = false -> exists q, exact x = Some q.
Proof.
  intros Hn Hi. unfold exact, Prim2SF. rewrite Hn, Hi.
  destruct (PrimFloat.is_zero x); [eauto|].
  destruct (Z.frexp x) as [r ex].
  destruct (shr_fexp _ _ _ _ _) as [sh e'].
  destruct (shr_m sh); eauto.
Qed.

Lemma apart_self x bound :
  is_nan x = false -> is_infinity x = false -> (0 <= bound)%Q ->
  apart_at_most x x bound = true.
Proof.
  intros Hn Hi Hb. unfold apart_at_most.
  destruct (exact_finite x Hn Hi) as [q ->].
  apply Qle_bool_iff.
  assert (E : (Qabs (q - q) == 0)%Q).
  { rewrite (Qabs_wd (q - q) 0); [reflexivity|]. ring. }
  rewrite E. exact Hb.
Qed.

Lemma near_fast_sound reversed n :
  - 2 ^ 63 < n < 2 ^ 63 -> near_fast reversed n = true -> near reversed n = true.
Proof.
  intros Hn H. unfold near_fast in H. unfold near.
  apply andb_true_iff in H as [Hi H]. apply negb_true_iff in Hi.
  rewrite (um_of_fast reversed n Hn Hi).
  unfold encoder_of, Py.float_div. change (step_um =? 0)%float with false. cbn [Py.rbind].
  cbv zeta in H.
  destruct (Py.int_of_float (um_fast reversed n / step_um)) as [t|]; [|discriminate].
  cbn [Py.rbind].
  remember (if reversed then - t else t) as e eqn:Heq. clear Heq.
  destruct (e =? n) eqn:E.
  - apply Z.eqb_eq in E. subst e. rewrite (um_of_fast reversed n Hn Hi).
    cbn [orb andb].
    apply andb_true_iff in H as [H1 H2].
    apply negb_true_iff in H1. apply negb_true_iff in H2.
    apply apart_self; [assumption|assumption|]. discriminate.
  - apply andb_true_iff in H as [H H3]. apply andb_true_iff in H as [H1 H2].
    apply negb_true_iff in H2.
    assert (He : - 2 ^ 63 < e < 2 ^ 63).
    { apply Z.eqb_eq in H1. rewrite H1. destruct n; cbn [Z.sgn]; lia. }
    rewrite (um_of_fast reversed e He H2), H1, H3. rewrite orb_true_r. reflexivity.
Qed.

Lemma near_travel reversed n :
  - travel_counts <= n <= travel_counts -> near reversed n = true.
Proof.
  intros Hn. unfold travel_counts in Hn. apply near_fast_sound; [lia|].
  apply (all_from_spec _ (Z.to_nat 120001) (-60000)); [|lia].
  destruct reversed; vm_compute; reflexivity.
Qed.

(** ** The round trip of every position of the travel *)

Lemma pow2_pos e : (0 < pow2 e)%R.
Proof. apply powerRZ_lt. lra. Qed.

Lemma pow2_add a b : pow2 (a + b) = (pow2 a * pow2 b)%R.
Proof. apply powerRZ_add. lra. Qed.

Lemma pow2_Z k : 0 <= k -> pow2 k = IZR (2 ^ k).
Proof.
  intros Hk. unfold pow2. rewrite <- (Z2Nat.id k) by assumption.
  rewrite <- pow_powerRZ, pow_IZR. reflexivity.
Qed.

Lemma pow2_le a b : a <= b -> (pow2 a <= pow2 b)%R.
Proof.
  intros H. replace b with (a + (b - a)) by lia.
  rewrite pow2_add, (pow2_Z (b - a)) by lia.
  assert (1 <= 2 ^ (b - a)) by (apply Z.lt_pred_le, Z.pow_pos_nonneg; lia).
  apply IZR_le in H0. pose proof (pow2_pos a).
  rewrite <- (Rmult_1_r (pow2 a)) at 1. apply Rmult_le_compat_l; lra.
Qed.

Lemma pow2_lt_inv a b : (pow2 a < pow2 b)%R -> a < b.
Proof.
  intros H. destruct (Z_lt_le_dec a b) as [|Hle]; [assumption|].
  apply pow2_le in Hle. lra.
Qed.

Lemma scaled_shift m e k : 0 <= k -> scaled (m * 2 ^ k) e = scaled m (e + k).
Proof.
  intros Hk. unfold scaled. rewrite mult_IZR, (Z.add_comm e k), pow2_add, (pow2_Z k) by assumption.
  ring.
Qed.

Lemma scaled_le m m' e : m <= m' -> (scaled m e <= scaled m' e)%R.
Proof.
  intros H. apply IZR_le in H. unfold scaled. pose proof (pow2_pos e).
  apply Rmult_le_compat_r; lra.
Qed.

Lemma scaled_lt m m' e : m < m' -> (scaled m e < scaled m' e)%R.
Proof.
  intros H. apply IZR_lt in H. unfold scaled. pose proof (pow2_pos e).
  apply Rmult_lt_compat_r; lra.
Qed.

Lemma scaled_succ m e : scaled (m + 1) e = (scaled m e + pow2 e)%R.
Proof. unfold scaled. rewrite plus_IZR. ring. Qed.

Lemma digits2_size p : digits2_pos p = Pos.size p.
Proof. induction p; cbn; congruence. Qed.

Lemma digits_bounds p : 2 ^ (Z.pos (digits2_pos p) - 1) <= Z.pos p < 2 ^ Z.pos (digits2_pos p).
Proof.
  rewrite digits2_size. split.
  - pose proof (Pos.size_le p) as H.
    assert (E : 2 ^ Z.pos (Pos.size p) = 2 * 2 ^ (Z.pos (Pos.size p) - 1)).
    { rewrite <- Z.pow_succ_r by lia. f_equal. lia. }
    assert (H' : Z.pos (2 ^ Pos.size p) <= Z.pos p~0) by exact H.
    rewrite Pos2Z.inj_pow in H'. change (Z.pos 2) with 2 in H'. rewrite E in H'. lia.
  - pose proof (Pos.size_gt p) as H.
    assert (H' : Z.pos p < Z.pos (2 ^ Pos.size p)) by exact H.
    rewrite Pos2Z.inj_pow in H'. exact H'.
Qed.

(** A positive mantissa below [2^D] at exponent [e] has at most [D - e] digits. *)
Lemma digits_le p e D : (scaled (Z.pos p) e < pow2 D)%R -> Z.pos (digits2_pos p) + e <= D.
Proof.
  intros H. pose proof (digits_bounds p) as [Hlo _].
  set (d := Z.pos (digits2_pos p)) in *.
  assert (Hd : 0 <= d - 1) by (subst d; lia).
  assert (H1 : (pow2 (d - 1 + e) <= scaled (Z.pos p) e)%R).
  { rewrite pow2_add, (pow2_Z (d - 1)) by assumption. apply IZR_le in Hlo.
    unfold scaled. pose proof (pow2_pos e). apply Rmult_le_compat_r; lra. }
  assert (d - 1 + e < D) by (apply pow2_lt_inv; lra). lia.
Qed.

(** ** The rounding of [SpecFloat], in integers *)

Lemma shr_m_of_loc m l : shr_m (shr_record_of_loc m l) = m.
Proof. destruct l as [|[]]; reflexivity. Qed.

Lemma shr_m_shr_1 mrs : 0 <= shr_m mrs -> shr_m (shr_1 mrs) = shr_m mrs / 2.
Proof.
  destruct mrs as [m r s]. cbn [shr_m]. intros Hm.
  rewrite <- Z.div2_div.
  destruct m as [|[p|p|]|p]; try reflexivity. lia.
Qed.

Lemma shr_m_iter p : forall mrs,
  0 <= shr_m mrs -> shr_m (SpecFloat.iter_pos shr_1 p mrs) = shr_m mrs / 2 ^ Z.pos p.
Proof.
  induction p as [p IH|p IH|]; intros mrs Hm; cbn [SpecFloat.iter_pos].
  - assert (H1 : 0 <= shr_m (shr_1 mrs)) by (rewrite shr_m_shr_1 by assumption; apply Z.div_pos; lia).
    assert (H2 : 0 <= shr_m (SpecFloat.iter_pos shr_1 p (shr_1 mrs)))
      by (rewrite IH by assumption; apply Z.div_pos; [assumption|apply Z.pow_pos_nonneg; lia]).
    rewrite IH, IH, shr_m_shr_1 by assumption.
    rewrite !Z.div_div by (first [apply Z.pow_pos_nonneg; lia | apply Z.pow_nonzero; lia | lia]).
    f_equal.
    assert (E : 2 ^ Z.pos p~1 = 2 * (2 ^ Z.pos p * 2 ^ Z.pos p)).
    { rewrite <- Z.pow_add_r, <- Z.pow_succ_r by lia. f_equal. lia. }
    rewrite E. ring.
  - assert (H2 : 0 <= shr_m (SpecFloat.iter_pos shr_1 p mrs))
      by (rewrite IH by assumption; apply Z.div_pos; [assumption|apply Z.pow_pos_nonneg; lia]).
    rewrite IH, IH by assumption.
    rewrite Z.div_div by (first [apply Z.pow_pos_nonneg; lia | apply Z.pow_nonzero; lia | lia]).
    f_equal. rewrite <- Z.pow_add_r by lia. f_equal. lia.
  - rewrite shr_m_shr_1 by assumption. reflexivity.
Qed.

Lemma shr_fexp_spec m e l mrs e' :
  0 <= m ->
  shr_fexp prec emax m e l = (mrs, e') ->
  e' = Z.max e (fexp prec emax (Zdigits2 m + e))
  /\ shr_m mrs = m / 2 ^ (e' - e).
Proof.
  intros Hm. unfold shr_fexp, shr.
  destruct (fexp prec emax (Zdigits2 m + e) - e) as [|p|p] eqn:E; intros [= <- <-].
  - split; [lia|]. rewrite shr_m_of_loc. replace (e - e) with 0 by lia.
    rewrite Z.pow_0_r, Z.div_1_r. reflexivity.
  - split; [lia|]. rewrite shr_m_iter by (rewrite shr_m_of_loc; assumption).
    rewrite shr_m_of_loc. f_equal. f_equal. lia.
  - split; [lia|]. rewrite shr_m_of_loc. replace (e - e) with 0 by lia.
    rewrite Z.pow_0_r, Z.div_1_r. reflexivity.
Qed.

Lemma round_nearest_even_cases m l :
  round_nearest_even m l = m \/ round_nearest_even m l = m + 1.
Proof.
  unfold round_nearest_even. destruct l as [|[]]; auto.
  destruct (Z.even m); auto.
Qed.

(** [binary_round_aux], step by step. *)
Lemma binary_round_aux_cases s m e l :
  0 <= m ->
  exists m1 e1 mr e2 m2,
    e1 = Z.max e (fexp prec emax (Zdigits2 m + e))
    /\ m1 = m / 2 ^ (e1 - e)
    /\ (mr = m1 \/ mr = m1 + 1)
    /\ e2 = Z.max e1 (fexp prec emax (Zdigits2 mr + e1))
    /\ m2 = mr / 2 ^ (e2 - e1)
    /\ binary_round_aux prec emax s m e l =
         match m2 with
         | Z0 => S754_zero s
         | Z.pos p => if e2 <=? emax - prec then S754_finite s p e2 else S754_infinity s
         | Z.neg _ => S754_nan
         end.
Proof.
  intros Hm. unfold binary_round_aux.
  destruct (shr_fexp prec emax m e l) as [mrs e1] eqn:E1.
  destruct (shr_fexp_spec _ _ _ _ _ Hm E1) as [He1 Hm1].
  set (mr := round_nearest_even (shr_m mrs) (loc_of_shr_record mrs)).
  assert (Hm1' : 0 <= shr_m mrs)
    by (rewrite Hm1; apply Z.div_pos; [assumption|apply Z.pow_pos_nonneg; lia]).
  assert (Hmr : 0 <= mr)
    by (subst mr; destruct (round_nearest_even_cases (shr_m mrs) (loc_of_shr_record mrs))
          as [-> | ->]; lia).
  destruct (shr_fexp prec emax mr e1 loc_Exact) as [mrs' e2] eqn:E2.
  destruct (shr_fexp_spec _ _ _ _ _ Hmr E2) as [He2 Hm2].
  exists (shr_m mrs), e1, mr, e2, (shr_m mrs').
  repeat split; try assumption.
  apply round_nearest_even_cases.
Qed.

(** ** The rounding of [SpecFloat], in real numbers *)

Lemma fexp_mono a b : a <= b -> fexp prec emax a <= fexp prec emax b.
Proof. unfold fexp, SpecFloat.emin, prec, emax. lia. Qed.

Lemma digits_le_Z m e D :
  0 <= m -> e <= D -> (scaled m e < pow2 D)%R -> Zdigits2 m + e <= D.
Proof.
  intros Hm He H. destruct m as [|p|p]; [cbn; lia| |lia].
  cbn [Zdigits2]. apply digits_le. exact H.
Qed.

Lemma div_pow2_bracket m k e :
  0 <= m -> 0 <= k ->
  (scaled (m / 2 ^ k) (e + k) <= scaled m e < scaled (m / 2 ^ k) (e + k) + pow2 (e + k))%R.
Proof.
  intros Hm Hk.
  assert (Hp : 0 < 2 ^ k) by (apply Z.pow_pos_nonneg; lia).
  pose proof (Z.mul_div_le m (2 ^ k) Hp).
  pose proof (Z.mul_succ_div_gt m (2 ^ k) Hp).
  rewrite <- scaled_succ, <- !scaled_shift by assumption.
  split; [apply scaled_le|apply scaled_lt]; lia.
Qed.

(** [binary_round_aux] on a number [x] located between [m * 2^e] and
    [(m + 1) * 2^e] and below [2^D]: the result is a zero or a finite
    float of the given sign, less than [2 * 2^E] away from [x]. *)
Lemma round_aux_error s m e l (x : R) E0 D :
  0 <= m -> e <= E0 ->
  (scaled m e <= x <= scaled (m + 1) e)%R ->
  (x < pow2 D)%R ->
  Z.max E0 (fexp prec emax (D + 1)) < D ->
  Z.max E0 (fexp prec emax (D + 1)) <= emax - prec ->
  rounded s (Z.max E0 (fexp prec emax (D + 1))) (binary_round_aux prec emax s m e l)
  /\ (Rabs (mag (binary_round_aux prec emax s m e l) - x)
      <= 2 * pow2 (Z.max E0 (fexp prec emax (D + 1))))%R.
Proof.
  intros Hm He Hx HD HE HE'.
  set (E := Z.max E0 (fexp prec emax (D + 1))) in *.
  destruct (binary_round_aux_cases s m e l Hm)
    as (m1 & e1 & mr & e2 & m2 & He1 & Hm1 & Hmr & He2 & Hm2 & ->).
  pose proof (fexp_mono D (D + 1) ltac:(lia)) as HfD.
  assert (Hd1 : Zdigits2 m + e <= D) by (apply digits_le_Z; [assumption|lia|lra]).
  pose proof (fexp_mono _ _ Hd1) as Hf1.
  assert (He1' : e1 <= E) by lia.
  assert (Hk1 : 0 <= e1 - e) by lia.
  pose proof (div_pow2_bracket m (e1 - e) e Hm Hk1) as B1.
  replace (e + (e1 - e)) with e1 in B1 by lia. rewrite <- Hm1 in B1.
  assert (Hm1' : 0 <= m1)
    by (rewrite Hm1; apply Z.div_pos; [assumption|apply Z.pow_pos_nonneg; lia]).
  assert (Hmr' : 0 <= mr) by lia.
  assert (Bx : (scaled m1 e1 <= x <= scaled m1 e1 + pow2 e1)%R).
  { destruct B1 as [B1 B1']. split; [lra|].
    assert (m + 1 <= (m1 + 1) * 2 ^ (e1 - e)).
    { rewrite Hm1.
      pose proof (Z.mul_succ_div_gt m (2 ^ (e1 - e)) ltac:(apply Z.pow_pos_nonneg; lia)).
      lia. }
    apply (scaled_le _ _ e) in H. rewrite scaled_shift in H by assumption.
    replace (e + (e1 - e)) with e1 in H by lia. rewrite (scaled_succ m1 e1) in H. lra. }
  assert (Br : (scaled m1 e1 <= scaled mr e1 <= scaled m1 e1 + pow2 e1)%R).
  { destruct Hmr as [-> | ->]; rewrite ?scaled_succ; pose proof (pow2_pos e1); lra. }
  pose proof (pow2_le e1 E He1') as P1.
  pose proof (pow2_le E D ltac:(lia)) as P2.
  assert (Hd2 : Zdigits2 mr + e1 <= D + 1).
  { apply digits_le_Z; [assumption|lia|].
    replace (D + 1) with (1 + D) by lia. rewrite pow2_add.
    change (pow2 1) with (2 * 1)%R. lra. }
  pose proof (fexp_mono _ _ Hd2) as Hf2.
  assert (He2' : e2 <= E) by lia.
  assert (Hk2 : 0 <= e2 - e1) by lia.
  pose proof (div_pow2_bracket mr (e2 - e1) e1 Hmr' Hk2) as B2.
  replace (e1 + (e2 - e1)) with e2 in B2 by lia. rewrite <- Hm2 in B2.
  pose proof (pow2_le e2 E He2') as P3.
  assert (Hm2' : 0 <= m2)
    by (rewrite Hm2; apply Z.div_pos; [assumption|apply Z.pow_pos_nonneg; lia]).
  assert (Hle : (e2 <=? emax - prec) = true) by (apply Z.leb_le; lia).
  destruct m2 as [|p|p]; [| |lia].
  - split; [reflexivity|]. cbn [mag].
    assert (Z0 : scaled 0 e2 = 0%R) by (unfold scaled; apply Rmult_0_l).
    rewrite Z0 in B2. apply Rabs_le. lra.
  - rewrite Hle. split; [split; [reflexivity|exact He2']|]. cbn [mag].
    apply Rabs_le. lra.
Qed.

Lemma scaled_mul a e b f : scaled (a * b) (e + f) = (scaled a e * scaled b f)%R.
Proof. unfold scaled. rewrite mult_IZR, pow2_add. ring. Qed.

Lemma scaled_pos p e : (0 < scaled (Z.pos p) e)%R.
Proof.
  unfold scaled. apply Rmult_lt_0_compat; [apply IZR_lt; lia|apply pow2_pos].
Qed.

(** The quotient of two finite floats. *)
Lemma SFdiv_error sx mx ex sy my ey E0 D :
  fexp prec emax (Zdigits2 (Z.pos mx) + ex - (Zdigits2 (Z.pos my) + ey)) <= E0 ->
  (scaled (Z.pos mx) ex < pow2 D * scaled (Z.pos my) ey)%R ->
  Z.max E0 (fexp prec emax (D + 1)) < D ->
  Z.max E0 (fexp prec emax (D + 1)) <= emax - prec ->
  rounded (xorb sx sy) (Z.max E0 (fexp prec emax (D + 1)))
    (SFdiv prec emax (S754_finite sx mx ex) (S754_finite sy my ey))
  /\ (Rabs (mag (SFdiv prec emax (S754_finite sx mx ex) (S754_finite sy my ey))
            - scaled (Z.pos mx) ex / scaled (Z.pos my) ey)
      <= 2 * pow2 (Z.max E0 (fexp prec emax (D + 1))))%R.
Proof.
  intros HE0 HD HE HE'.
  cbn [SFdiv]. unfold SFdiv_core_binary.
  set (e' := Z.min _ (ex - ey)).
  assert (He' : e' <= E0) by (subst e'; lia).
  assert (Hs : 0 <= ex - ey - e') by (subst e'; lia).
  set (m' := match ex - ey - e' with 0 => Z.pos mx | Z.pos _ => _ | Z.neg _ => 0 end).
  assert (Hm' : m' = Z.pos mx * 2 ^ (ex - ey - e')).
  { subst m'. destruct (ex - ey - e') as [|k|k] eqn:Ek; [cbn; lia| |lia].
    rewrite Z.shiftl_mul_pow2 by lia. reflexivity. }
  clearbody m'.
  pose proof (Z_div_mod m' (Z.pos my) ltac:(lia)) as Hdm.
  destruct (Z.div_eucl m' (Z.pos my)) as [q r]. destruct Hdm as [Hq Hr].
  pose proof (scaled_pos mx ex) as Px. pose proof (scaled_pos my ey) as Py.
  set (X := (scaled (Z.pos mx) ex / scaled (Z.pos my) ey)%R).
  assert (HX : (X * scaled (Z.pos my) ey = scaled (Z.pos mx) ex)%R)
    by (subst X; field; lra).
  assert (Hq0 : 0 <= q) by nia.
  assert (Hnum : scaled m' (e' + ey) = scaled (Z.pos mx) ex).
  { rewrite Hm', scaled_shift by assumption. f_equal. lia. }
  assert (Hlo : (scaled q e' <= X)%R).
  { apply (Rmult_le_reg_r (scaled (Z.pos my) ey)); [assumption|].
    rewrite HX, <- scaled_mul, <- Hnum. apply scaled_le. nia. }
  assert (Hhi : (X <= scaled (q + 1) e')%R).
  { apply (Rmult_le_reg_r (scaled (Z.pos my) ey)); [assumption|].
    rewrite HX, <- scaled_mul, <- Hnum. apply scaled_le. nia. }
  assert (HXD : (X < pow2 D)%R).
  { apply (Rmult_lt_reg_r (scaled (Z.pos my) ey)); [assumption|]. rewrite HX. exact HD. }
  apply (round_aux_error _ q e' _ X E0 D); auto.
Qed.

(** The product of two finite floats. *)
Lemma SFmul_error sx mx ex sy my ey E0 D :
  ex + ey <= E0 ->
  (scaled (Z.pos mx) ex * scaled (Z.pos my) ey < pow2 D)%R ->
  Z.max E0 (fexp prec emax (D + 1)) < D ->
  Z.max E0 (fexp prec emax (D + 1)) <= emax - prec ->
  rounded (xorb sx sy) (Z.max E0 (fexp prec emax (D + 1)))
    (SFmul prec emax (S754_finite sx mx ex) (S754_finite sy my ey))
  /\ (Rabs (mag (SFmul prec emax (S754_finite sx mx ex) (S754_finite sy my ey))
            - scaled (Z.pos mx) ex * scaled (Z.pos my) ey)
      <= 2 * pow2 (Z.max E0 (fexp prec emax (D + 1))))%R.
Proof.
  intros HE0 HD HE HE'. cbn [SFmul].
  rewrite <- scaled_mul in *. rewrite <- Pos2Z.inj_mul in *.
  apply (round_aux_error _ _ _ _ _ E0 D); auto; [lia|].
  split; [apply Rle_refl|apply scaled_le; lia].
Qed.

(** The float of a positive integer. *)
Lemma binary_round_error s p D :
  (IZR (Z.pos p) < pow2 D)%R ->
  fexp prec emax (D + 1) < D ->
  fexp prec emax (D + 1) <= emax - prec ->
  rounded s (fexp prec emax (D + 1)) (binary_round prec emax s p 0)
  /\ (Rabs (mag (binary_round prec emax s p 0) - IZR (Z.pos p))
      <= 2 * pow2 (fexp prec emax (D + 1)))%R.
Proof.
  intros HD HE HE'. unfold binary_round.
  assert (Hs : scaled (Z.pos p) 0 = IZR (Z.pos p)).
  { unfold scaled, pow2. cbn [powerRZ]. ring. }
  assert (Hd : Z.pos (digits2_pos p) + 0 <= D).
  { apply digits_le. rewrite Hs. exact HD. }
  pose proof (fexp_mono _ _ Hd) as Hf.
  pose proof (fexp_mono D (D + 1) ltac:(lia)) as Hf'.
  set (f := fexp prec emax (Z.pos (digits2_pos p) + 0)) in *.
  assert (Hal : exists mz ez, shl_align p 0 f = (mz, ez) /\ ez <= f
                              /\ scaled (Z.pos mz) ez = IZR (Z.pos p)).
  { unfold shl_align. destruct (f - 0) as [|k|k] eqn:Ek.
    - exists p, 0. split; [reflexivity|]. split; [lia|exact Hs].
    - exists p, 0. split; [reflexivity|]. split; [lia|exact Hs].
    - exists (Pos.iter xO p k), f. split; [reflexivity|]. split; [lia|].
      change (Pos.iter xO p k) with (shift_pos k p).
      rewrite shift_pos_correct, Z.pow_pos_fold, Z.mul_comm.
      rewrite scaled_shift by lia. rewrite <- Hs. f_equal. lia. }
  destruct Hal as (mz & ez & -> & Hez & Hv).
  replace (fexp prec emax (D + 1)) with (Z.max (fexp prec emax D) (fexp prec emax (D + 1)))
    by lia.
  rewrite <- Hv.
  apply (round_aux_error _ _ _ _ _ (fexp prec emax D) D); try lia.
  - split; [apply Rle_refl|apply scaled_le; lia].
  - rewrite Hv. exact HD.
Qed.

(** ** The conversions on real numbers *)

Lemma realv_rounded s E y :
  rounded s E y -> realv y = if s then (- mag y)%R else mag y.
Proof.
  destruct y as [s'|s'| |s' m e]; cbn; try tauto.
  - intros _. destruct s; lra.
  - intros [-> _]. reflexivity.
Qed.

Lemma mag_nonneg y : (0 <= mag y)%R.
Proof.
  destruct y as [s'|s'| |s' m e]; cbn; try lra.
  pose proof (scaled_pos m e). lra.
Qed.

Lemma pow2_neg k : 0 <= k -> pow2 (- k) = (/ IZR (2 ^ k))%R.
Proof.
  intros Hk. pose proof (pow2_add (- k) k) as H.
  replace (- k + k) with 0 in H by lia. change (pow2 0) with 1%R in H.
  rewrite <- (pow2_Z k Hk). pose proof (pow2_pos k).
  apply (Rmult_eq_reg_r (pow2 k)); [|lra]. rewrite <- H. field. lra.
Qed.

Lemma scaled_0 n : scaled n 0 = IZR n.
Proof. unfold scaled. change (pow2 0) with 1%R. ring. Qed.

Lemma Prim2SF_step : Prim2SF step_um = S754_finite false 7626096569973941 (-55).
Proof. vm_compute. reflexivity. Qed.

(** The conversion step as a real number. *)
Lemma step_real :
  scaled 7626096569973941 (-55) = (7626096569973941 / 36028797018963968)%R.
Proof.
  unfold scaled. change (-55) with (Z.opp 55). rewrite (pow2_neg 55) by lia. reflexivity.
Qed.

Lemma is_infinity_spec x :
  is_infinity x = match Prim2SF x with S754_infinity _ => true | _ => false end.
Proof.
  unfold is_infinity. rewrite FloatAxioms.eqb_spec, FloatAxioms.abs_spec.
  change (Prim2SF PrimFloat.infinity) with (S754_infinity false).
  destruct (Prim2SF x) as [[]|[]| |[] m e]; reflexivity.
Qed.

(** [um / step_um] for a finite [um] below 12701. *)
Lemma div_step_error um sx mx ex :
  Prim2SF um = S754_finite sx mx ex ->
  (scaled (Z.pos mx) ex <= 12701)%R ->
  rounded sx (-36) (Prim2SF (um / step_um))
  /\ (Rabs (mag (Prim2SF (um / step_um))
            - scaled (Z.pos mx) ex / (7626096569973941 / 36028797018963968))
      <= 2 * pow2 (-36))%R.
Proof.
  intros Hum Hb. rewrite div_spec, Hum, Prim2SF_step. rewrite <- step_real.
  replace sx with (xorb sx false) at 1 by apply xorb_false_r.
  change (-36) with (Z.max (-37) (fexp prec emax (16 + 1))).
  apply SFdiv_error.
  - assert (Hd : Z.pos (digits2_pos mx) + ex <= 14).
    { apply digits_le. rewrite (pow2_Z 14) by lia. change (2 ^ 14) with 16384. lra. }
    change (Zdigits2 (Z.pos 7626096569973941)) with 53. cbn [Zdigits2].
    unfold fexp, SpecFloat.emin, prec, emax. lia.
  - rewrite step_real, (pow2_Z 16) by lia. change (2 ^ 16) with 65536. lra.
  - vm_compute. reflexivity.
  - vm_compute. discriminate.
Qed.

(** [int(x)] for a zero or finite [x]: the integer part of the magnitude,
    with the sign of [x]. *)
Lemma int_of_float_real x s E :
  rounded s E (Prim2SF x) ->
  exists a, Py.int_of_float x = Py.Ok (if s then - a else a) /\ 0 <= a
            /\ (IZR a <= mag (Prim2SF x) < IZR a + 1)%R.
Proof.
  unfold Py.int_of_float. destruct (Prim2SF x) as [s'|s'| |s' m e]; cbn [rounded mag]; try tauto.
  - intros _. exists 0. split; [destruct s; reflexivity|]. split; [lia|]. lra.
  - intros [-> _]. destruct (0 <=? e) eqn:He.
    + apply Z.leb_le in He. exists (Z.pos m * 2 ^ e).
      rewrite Z.shiftl_mul_pow2 by assumption. split; [reflexivity|].
      split; [apply Z.mul_nonneg_nonneg; [lia|apply Z.pow_nonneg; lia]|].
      rewrite <- scaled_0, scaled_shift by assumption. rewrite Z.add_0_l. lra.
    + apply Z.leb_gt in He. exists (Z.pos m / 2 ^ (- e)).
      rewrite Z.shiftr_div_pow2 by lia. split; [reflexivity|].
      split; [apply Z.div_pos; [lia|apply Z.pow_pos_nonneg; lia]|].
      pose proof (div_pow2_bracket (Z.pos m) (- e) e ltac:(lia) ltac:(lia)) as B.
      replace (e + - e) with 0 in B by lia. rewrite scaled_0 in B.
      change (pow2 0) with 1%R in B. lra.
Qed.

Lemma Prim2SF_of_nat k :
  0 <= k < 2 ^ 63 ->
  Prim2SF (of_uint63 (Uint63.of_Z k)) = binary_normalize prec emax k 0 false.
Proof.
  intros Hk. rewrite of_uint63_spec, Uint63.of_Z_spec.
  rewrite Z.mod_small; [reflexivity|exact Hk].
Qed.

(** [float(n)] for an [n] of less than 17 bits. *)
Lemma float_of_int_real n :
  Z.abs n < 2 ^ 16 ->
  exists f, Py.float_of_int n = Py.Ok f
            /\ rounded (n <? 0) (-36) (Prim2SF f)
            /\ (Rabs (mag (Prim2SF f) - IZR (Z.abs n)) <= 2 * pow2 (-36))%R.
Proof.
  intros Hn.
  assert (Hpos : forall s p, Z.pos p < 2 ^ 16 ->
            rounded s (-36) (binary_round prec emax s p 0)
            /\ (Rabs (mag (binary_round prec emax s p 0) - IZR (Z.pos p))
                <= 2 * pow2 (-36))%R).
  { intros s p Hp. change (-36) with (fexp prec emax (16 + 1)).
    apply binary_round_error.
    - rewrite (pow2_Z 16) by lia. apply IZR_lt. exact Hp.
    - vm_compute. reflexivity.
    - vm_compute. discriminate. }
  assert (Hf : rounded (n <? 0) (-36) (Prim2SF (fast_float n))
               /\ (Rabs (mag (Prim2SF (fast_float n)) - IZR (Z.abs n)) <= 2 * pow2 (-36))%R).
  { unfold fast_float. destruct n as [|p|p].
    - change (Z.abs 0) with 0. change (0 <? 0) with false. cbv iota. rewrite Prim2SF_of_nat by lia. cbn [binary_normalize rounded mag].
      split; [reflexivity|]. pose proof (pow2_pos (-36)). apply Rabs_le. lra.
    - change (Z.abs (Z.pos p)) with (Z.pos p) in *. change (Z.pos p <? 0) with false.
      cbv iota. rewrite Prim2SF_of_nat by lia. cbn [binary_normalize].
      apply Hpos. exact Hn.
    - change (Z.abs (Z.neg p)) with (Z.pos p) in *. change (Z.neg p <? 0) with true.
      change (- Z.neg p) with (Z.pos p). cbv iota. rewrite opp_spec, Prim2SF_of_nat by lia.
      cbn [binary_normalize]. destruct (Hpos false p Hn) as [Hr Hm].
      destruct (binary_round prec emax false p 0) as [s'|s'| |s' m e]; cbn in Hr |- *; try tauto.
      + subst s'. split; [reflexivity|exact Hm].
      + destruct Hr as [-> He]. split; [split; [reflexivity|exact He]|exact Hm]. }
  exists (fast_float n). rewrite float_of_int_fast by lia.
  destruct Hf as [Hr Hm]. split; [|split; assumption].
  rewrite is_infinity_spec.
  destruct (Prim2SF (fast_float n)); cbn in Hr; try tauto; reflexivity.
Qed.

(** [f * step_um] for a zero or finite [f]. *)
Lemma mul_step_error f s :
  rounded s (-36) (Prim2SF f) ->
  (mag (Prim2SF f) * (7626096569973941 / 36028797018963968) < 16384)%R ->
  rounded s (-38) (Prim2SF (f * step_um))
  /\ (Rabs (mag (Prim2SF (f * step_um))
            - mag (Prim2SF f) * (7626096569973941 / 36028797018963968))
      <= 2 * pow2 (-38))%R.
Proof.
  intros Hr Hb. rewrite mul_spec, Prim2SF_step. unfold SF64mul. rewrite <- step_real in *.
  destruct (Prim2SF f) as [s'|s'| |s' m e]; cbn [rounded] in Hr; try tauto.
  - subst s'. cbn [SFmul mag rounded]. split; [apply xorb_false_r|].
    pose proof (pow2_pos (-38)). apply Rabs_le. lra.
  - destruct Hr as [-> He]. cbn [mag] in *.
    replace s with (xorb s false) at 1 by apply xorb_false_r.
    change (-38) with (Z.max (-91) (fexp prec emax (14 + 1))).
    apply SFmul_error.
    + lia.
    + rewrite (pow2_Z 14) by lia. exact Hb.
    + vm_compute. reflexivity.
    + vm_compute. discriminate.
Qed.

Lemma opp_real x s E :
  rounded s E (Prim2SF x) ->
  rounded (negb s) E (Prim2SF (- x)) /\ mag (Prim2SF (- x)) = mag (Prim2SF x).
Proof.
  rewrite opp_spec. destruct (Prim2SF x) as [s'|s'| |s' m e]; cbn; try tauto.
  - intros ->. split; reflexivity.
  - intros [-> He]. split; [split|]; auto.
Qed.

Lemma add_zero_real x s E :
  rounded s E (Prim2SF x) ->
  (exists s', rounded s' E (Prim2SF (x + 0)))
  /\ realv (Prim2SF (x + 0)) = realv (Prim2SF x).
Proof.
  rewrite add_spec. change (Prim2SF 0) with (S754_zero false).
  destruct (Prim2SF x) as [s'|s'| |s' m e]; cbn; try tauto.
  - intros _. destruct s'; cbn; split; eauto.
  - intros [-> He]. split; [exists s; split|]; auto.
Qed.

Lemma Rabs_bounds a b : (Rabs a <= b)%R -> (- b <= a <= b)%R.
Proof. unfold Rabs. destruct (Rcase_abs a); lra. Qed.

Lemma Q2R_inject_Z n : Q2R (inject_Z n) = IZR n.
Proof. unfold Q2R, inject_Z. cbn [Qnum Qden]. field. Qed.

(** [exact] gives the value of the float. *)
Lemma exact_real x q : exact x = Some q -> Q2R q = realv (Prim2SF x).
Proof.
  unfold exact. destruct (Prim2SF x) as [s|s| |s m e]; try discriminate.
  - intros [= <-]. cbn [realv]. apply RMicromega.Q2R_0.
  - intros [= <-]. cbn [realv].
    assert (Hs : IZR (if s then Z.neg m else Z.pos m)
                 = if s then (- IZR (Z.pos m))%R else IZR (Z.pos m)).
    { destruct s; [|reflexivity]. change (Z.neg m) with (- Z.pos m). apply opp_IZR. }
    assert (Hv : ((if s then (- IZR (Z.pos m))%R else IZR (Z.pos m)) * pow2 e
                  = if s then - scaled (Z.pos m) e else scaled (Z.pos m) e)%R).
    { unfold scaled. destruct s; ring. }
    rewrite <- Hv, <- Hs. destruct (0 <=? e) eqn:He.
    + apply Z.leb_le in He. rewrite Q2R_inject_Z, mult_IZR, (pow2_Z e He). reflexivity.
    + apply Z.leb_gt in He. unfold Q2R. cbn [Qnum Qden].
      rewrite Z2Pos.id by (apply Z.pow_pos_nonneg; lia).
      replace e with (- - e) at 2 by lia. rewrite (pow2_neg (- e)) by lia. reflexivity.
Qed.

Lemma exact_rounded x s E : rounded s E (Prim2SF x) -> exists q, exact x = Some q.
Proof.
  unfold exact. destruct (Prim2SF x); cbn [rounded]; try tauto; eauto.
Qed.

(** [um / step_um] for a zero or finite [um] of magnitude at most 12701. *)
Lemma div_step_real um s E :
  rounded s E (Prim2SF um) ->
  (mag (Prim2SF um) <= 12701)%R ->
  rounded s (-36) (Prim2SF (um / step_um))
  /\ (Rabs (mag (Prim2SF (um / step_um))
            - mag (Prim2SF um) / (7626096569973941 / 36028797018963968))
      <= 2 * pow2 (-36))%R.
Proof.
  intros Hr Hb. destruct (Prim2SF um) as [s'|s'| |s' m e] eqn:Hum; cbn [rounded] in Hr; try tauto.
  - subst s'. rewrite div_spec, Hum, Prim2SF_step. cbn [SF64div SFdiv rounded mag].
    split; [apply xorb_false_r|]. pose proof (pow2_pos (-36)). apply Rabs_le. lra.
  - destruct Hr as [-> _]. exact (div_step_error um s m e Hum Hb).
Qed.

Lemma exact_is_rounded x q : exact x = Some q -> exists s E, rounded s E (Prim2SF x).
Proof.
  unfold exact. destruct (Prim2SF x) as [s|s| |s m e]; try discriminate; intros _.
  - exists s, 0. reflexivity.
  - exists s, e. split; [reflexivity|lia].
Qed.

Lemma Q2R_step : Q2R step_exact = (7626096569973941 / 36028797018963968)%R.
Proof. reflexivity. Qed.

(** The round trip from a finite [um] of magnitude at most 12700: the
    encoder value is inside the travel and the position that comes back is
    within one conversion step and 2^-30 um. *)
Lemma round_trip_real reversed um v :
  exact um = Some v -> (Qabs v <= travel_um)%Q ->
  exists e back,
    encoder_of step_um reversed um = Py.Ok e
    /\ Z.abs e < travel_counts
    /\ um_of step_um reversed e = Py.Ok back
    /\ apart_at_most back um (step_exact + Qmake 1 (2 ^ 30)) = true.
Proof.
  intros Hv Hb.
  pose proof (exact_real _ _ Hv) as HV.
  apply Qabs_Qle_condition in Hb. destruct Hb as [Hb1 Hb2].
  apply Qle_Rle in Hb1, Hb2. unfold travel_um in Hb1, Hb2.
  rewrite Q2R_opp in Hb1. rewrite Q2R_inject_Z in Hb1, Hb2.
  destruct (exact_is_rounded _ _ Hv) as (sx & Ex & Hrum).
  rewrite (realv_rounded _ _ _ Hrum) in HV.
  pose proof (mag_nonneg (Prim2SF um)) as HM0.
  assert (HM : (mag (Prim2SF um) <= 12700)%R) by (destruct sx; lra).
  destruct (div_step_real um sx Ex Hrum ltac:(lra)) as [Hrq Hq].
  destruct (int_of_float_real _ _ _ Hrq) as (a & Ht & Ha0 & Ha).
  apply Rabs_bounds in Hq.
  assert (Hd : pow2 (-36) = (/ 68719476736)%R).
  { change (-36) with (Z.opp 36). rewrite pow2_neg by lia. reflexivity. }
  assert (Hd' : (pow2 (-38) <= pow2 (-36))%R) by (apply pow2_le; lia).
  pose proof (pow2_pos (-38)) as Hd''.
  rewrite Hd in *.
  set (e := if reversed then - (if sx then - a else a) else if sx then - a else a).
  assert (Habs : Z.abs e = a) by (unfold e; destruct sx, reversed; lia).
  assert (Ha1 : a < 60000) by (apply lt_IZR; lra).
  destruct (float_of_int_real e ltac:(lia)) as (f & Hf & Hrf & Hfe).
  rewrite Habs, Hd in Hfe. apply Rabs_bounds in Hfe.
  destruct (mul_step_error f _ Hrf ltac:(lra)) as [Hrp Hp].
  apply Rabs_bounds in Hp.
  exists e, ((if reversed then - (f * step_um) else f * step_um) + 0)%float.
  split.
  { unfold encoder_of, Py.float_div. change (step_um =? 0)%float with false.
    cbn [Py.rbind]. rewrite Ht. reflexivity. }
  split; [unfold travel_counts; lia|].
  split; [unfold um_of; rewrite Hf; reflexivity|].
  assert (Hrp' : rounded (xorb reversed (e <? 0)) (-38)
                   (Prim2SF (if reversed then - (f * step_um) else f * step_um))
                 /\ mag (Prim2SF (if reversed then - (f * step_um) else f * step_um))
                    = mag (Prim2SF (f * step_um))).
  { destruct reversed; [exact (opp_real _ _ _ Hrp)|split; [exact Hrp|reflexivity]]. }
  destruct Hrp' as [Hrp' Hmag].
  destruct (add_zero_real _ _ _ Hrp') as [[s' Hrb] Hvb].
  destruct (exact_rounded _ _ _ Hrb) as [qb Hqb].
  pose proof (exact_real _ _ Hqb) as HB.
  rewrite Hvb, (realv_rounded _ _ _ Hrp'), Hmag in HB.
  unfold apart_at_most. rewrite Hqb, Hv. apply Qle_bool_iff.
  assert (Hs30 : Q2R (Qmake 1 (2 ^ 30)) = (/ 1073741824)%R).
  { unfold Q2R. cbn [Qnum Qden]. change (Z.pos (2 ^ 30)) with 1073741824. lra. }
  assert (He : (e <? 0) = if a =? 0 then false else xorb reversed sx).
  { unfold e. destruct (a =? 0) eqn:E0.
    - apply Z.eqb_eq in E0. rewrite E0. destruct reversed, sx; reflexivity.
    - apply Z.eqb_neq in E0.
      destruct reversed, sx; cbn [xorb].
      + apply Z.ltb_ge. lia.
      + apply Z.ltb_lt. lia.
      + apply Z.ltb_lt. lia.
      + apply Z.ltb_ge. lia. }
  rewrite He in HB.
  pose proof (mag_nonneg (Prim2SF (f * step_um))) as HP0.
  apply Qabs_Qle_condition. split; apply Rle_Qle;
    rewrite ?Q2R_opp, ?Q2R_plus, ?Q2R_minus, Q2R_step, Hs30, HB, HV.
  - destruct (a =? 0) eqn:E0.
    + apply Z.eqb_eq in E0. rewrite E0 in Ha, Hfe. destruct reversed, sx; cbn [xorb]; lra.
    + destruct reversed, sx; cbn [xorb]; lra.
  - destruct (a =? 0) eqn:E0.
    + apply Z.eqb_eq in E0. rewrite E0 in Ha, Hfe. destruct reversed, sx; cbn [xorb]; lra.
    + destruct reversed, sx; cbn [xorb]; lra.
Qed.

(** C7, as amended.  On a channel configured with the supported stage:
    [_um_from_encoder_value] is the encoder value times the conversion
    factor, negated on a reversed axis, plus 0, and is never the negative
    zero; [_encoder_value_from_um] is the quotient by the conversion factor
    with its fraction dropped, negated on a reversed axis; from the
    position of every encoder value [n] of the travel, the conversion to
    counts gives [n] or the next count toward zero, and converting back
    gives a position within one conversion step and 2^-40 um; and from
    every finite position [um] of the travel, 12700 um either way, the round
    trip [um -> encoder -> um] goes through an encoder value of the travel
    and returns a position within one conversion step and 2^-30 um of
    [um]. *)
Theorem conversions_of_a_configured_axis s channel i (reversed : bool) :
  Py.dict_zip_get (channels s) (_internal_channels s) channel = Py.Ok i ->
  _stage_conversion_um s !! i = Some (Some step_um) ->
  reverse s !! i = Some reversed ->
  (forall n f,
     Py.float_of_int n = Py.Ok f ->
     _um_from_encoder_value channel n s
       = Return ((if reversed then - (f * step_um) else f * step_um) + 0)%float s
     /\ Prim2SF ((if reversed then - (f * step_um) else f * step_um) + 0)%float
        <> S754_zero true)
  /\ (forall um t y,
        Py.int_of_float (um / step_um)%float = Py.Ok t ->
        exact (um / step_um)%float = Some y ->
        _encoder_value_from_um channel um s = Return (if reversed then - t else t) s
        /\ (inject_Z (Z.abs t) <= Qabs y)%Q /\ (Qabs y < inject_Z (Z.abs t) + 1)%Q
        /\ (0 <= inject_Z t * y)%Q)
  /\ (forall n,
        - travel_counts <= n <= travel_counts ->
        exists um e back,
          _um_from_encoder_value channel n s = Return um s
          /\ _encoder_value_from_um channel um s = Return e s
          /\ (e = n \/ e = n - Z.sgn n)
          /\ _um_from_encoder_value channel e s = Return back s
          /\ apart_at_most back um (step_exact + Qmake 1 (2 ^ 40)) = true)
  /\ (forall um v,
        exact um = Some v -> (Qabs v <= travel_um)%Q ->
        exists e back,
          _encoder_value_from_um channel um s = Return e s
          /\ Z.abs e < travel_counts
          /\ round_trip channel um s = Return back s
          /\ apart_at_most back um (step_exact + Qmake 1 (2 ^ 30)) = true).
Proof.
  intros Hd Hc Hr. split; [|split; [|split]].
  - intros n f Hf. split; [|apply add_zero_not_negative_zero].
    rewrite (um_from_encoder_value_pure _ _ _ _ _ _ Hd Hc Hr). unfold um_of.
    rewrite Hf. reflexivity.
  - intros um t y Ht Hy. split; [|exact (int_of_float_truncates _ _ _ Ht Hy)].
    rewrite (encoder_value_from_um_pure _ _ _ _ _ _ Hd Hc Hr). unfold encoder_of, Py.float_div.
    change (step_um =? 0)%float with false. cbn [Py.rbind]. rewrite Ht. reflexivity.
  - intros n Hn. pose proof (near_travel reversed n Hn) as H. unfold near in H.
    destruct (um_of step_um reversed n) as [um|] eqn:E1; [|discriminate].
    destruct (encoder_of step_um reversed um) as [e|] eqn:E2; [|discriminate].
    destruct (um_of step_um reversed e) as [back|] eqn:E3; [|discriminate].
    apply andb_true_iff in H as [He Hb].
    exists um, e, back.
    rewrite !(um_from_encoder_value_pure _ _ _ _ _ _ Hd Hc Hr), E1, E3.
    rewrite (encoder_value_from_um_pure _ _ _ _ _ _ Hd Hc Hr), E2.
    split; [reflexivity|]. split; [reflexivity|]. split; [|split; [reflexivity|exact Hb]].
    apply orb_true_iff in He as [He|He]; apply Z.eqb_eq in He; auto.
  - intros um v Hv Hb.
    destruct (round_trip_real reversed um v Hv Hb) as (e & back & E1 & He & E2 & Hn).
    exists e, back. unfold round_trip, bind.
    rewrite (encoder_value_from_um_pure _ _ _ _ _ _ Hd Hc Hr), E1. cbn [lift].
    rewrite (um_from_encoder_value_pure _ _ _ _ _ _ Hd Hc Hr), E2. cbn [lift].
    auto.
Qed.

(** The position of encoder value 4725 on channel 1, and the round trip
    from 1000.5 um. *)
Lemma conversions_of_a_configured_axis_witness :
  Py.dict_zip_get (channels (one_axis false 0 [])) (_internal_channels (one_axis false 0 [])) 1
    = Py.Ok 0%nat
  /\ _stage_conversion_um (one_axis false 0 []) !! 0%nat = Some (Some step_um)
  /\ reverse (one_axis false 0 []) !! 0%nat = Some false
  /\ Py.float_of_int 4725 = Py.Ok 4725%float
  /\ _um_from_encoder_value 1 4725 (one_axis false 0 [])
     = Return (4725 * step_um + 0)%float (one_axis false 0 [])
  /\ exists v,
       exact 1000.5%float = Some v /\ (Qabs v <= travel_um)%Q
       /\ exists e back,
            _encoder_value_from_um 1 1000.5%float (one_axis false 0 [])
              = Return e (one_axis false 0 [])
            /\ Z.abs e < travel_counts
            /\ round_trip 1 1000.5%float (one_axis false 0 [])
               = Return back (one_axis false 0 [])
            /\ apart_at_most back 1000.5%float (step_exact + Qmake 1 (2 ^ 30)) = true.
Proof.
  assert (H1 : Py.dict_zip_get (channels (one_axis false 0 []))
                 (_internal_channels (one_axis false 0 [])) 1 = Py.Ok 0%nat)
    by (vm_compute; reflexivity).
  assert (H2 : _stage_conversion_um (one_axis false 0 []) !! 0%nat = Some (Some step_um))
    by (vm_compute; reflexivity).
  assert (H3 : reverse (one_axis false 0 []) !! 0%nat = Some false)
    by (vm_compute; reflexivity).
  assert (H4 : Py.float_of_int 4725 = Py.Ok 4725%float) by (vm_compute; reflexivity).
  assert (H5 : exact 1000.5%float = Some (Qmake 8800491068719104 (2 ^ 43)))
    by (vm_compute; reflexivity).
  assert (H6 : (Qabs (Qmake 8800491068719104 (2 ^ 43)) <= travel_um)%Q)
    by (vm_compute; discriminate).
  split; [exact H1|]. split; [exact H2|]. split; [exact H3|]. split; [exact H4|].
  split.
  - exact (proj1 (proj1 (conversions_of_a_configured_axis _ 1 0%nat false H1 H2 H3)
                    4725 4725%float H4)).
  - exists (Qmake 8800491068719104 (2 ^ 43)). split; [exact H5|]. split; [exact H6|].
    exact (proj2 (proj2 (proj2 (conversions_of_a_configured_axis _ 1 0%nat false H1 H2 H3)))
             1000.5%float _ H5 H6).
Defined.

(** C7, as stated, fails inside the travel.  2051.050323 um is the position
    of encoder value 9690; it converts to 9689 counts and back to
    2050.8386563 um, which is further away than one conversion step. *)
Lemma round_trip_exceeds_one_step :
  ~ within_one_step (one_axis false 0 []) 1 0x1.00619c3efae79p+11%float.
Proof.
  intros (back & E & H). vm_compute in E. injection E as <-.
  vm_compute in H. discriminate.
Qed.

(** Far outside the travel the round trip is off by a whole micrometre, and
    an infinite request does not convert at all. *)
Lemma round_trip_far_outside :
  ~ within_one_step (one_axis false 0 []) 1 7756864612445718%float
  /\ round_trip 1 PrimFloat.infinity (one_axis false 0 []) = Raise Py.OverflowError (one_axis false 0 []).
Proof.
  split; [|vm_compute; reflexivity].
  intros (back & E & H). vm_compute in E. injection E as <-.
  vm_compute in H. discriminate.
Qed.

(** * The other methods *)


(** ** Channels that are not there *)

Ltac unfold_methods :=
  unfold _reverse_limit_signs, _set_encoder_value_to_zero, _move_to_encoder_value,
    _finish_move, get_position_um, set_stage_limit_um, get_retract_point_um,
    set_retract_point_um, legalize_move_um, legalize_move_um_body, move_zero, retract,
    _get_encoder_value, move_um, recursion_limit;
  cbn [move_um_at]; unfold move_um_body.

Lemma dict_zip_get_missing {V} (keys : list Z) (values : list V) k :
  Py.contains keys k = false -> Py.dict_zip_get keys values k = Py.Err Py.KeyError.
Proof.
  intros H. unfold Py.dict_zip_get.
  enough (E : forall acc, fold_left (fun acc kv => if fst kv =? k then Some (snd kv) else acc)
                            (zip keys values) acc = acc) by (rewrite E; reflexivity).
  revert values H. induction keys as [|c keys IH]; intros values H acc; [reflexivity|].
  destruct values as [|v values]; [reflexivity|].
  unfold Py.contains in H. cbn [existsb] in H. apply orb_false_iff in H as [Hc H].
  cbn [zip zip_with fold_left fst snd]. rewrite Z.eqb_sym, Hc. apply IH. exact H.
Qed.

Lemma dict_zip_get_listed {V} (keys : list Z) (values : list V) k v :
  Py.dict_zip_get keys values k = Py.Ok v -> Py.contains keys k = true.
Proof.
  intros H. destruct (Py.contains keys k) eqn:E; [reflexivity|].
  rewrite (dict_zip_get_missing keys values k E) in H. discriminate.
Qed.

(** X1.  A label that is not in [channels] is refused by every method that
    takes a channel, before anything is read, written or changed.  The
    thirteen methods that assert the channel fail that assertion; the four
    that do not ([_send], [_um_from_encoder_value], [_encoder_value_from_um]
    and [_check_min_motion]) raise the KeyError of the dictionary of
    channels. *)
Theorem unknown_channel_is_refused channel s :
  Py.contains (channels s) channel = false ->
  (forall verbose, _get_encoder_value channel verbose s
     = Raise (Py.AssertionError Py.ChannelNotAvailable) s)
  /\ _reverse_limit_signs channel s = Raise (Py.AssertionError Py.ChannelNotAvailable) s
  /\ _set_encoder_value_to_zero channel s = Raise (Py.AssertionError Py.ChannelNotAvailable) s
  /\ (forall encoder_value block, _move_to_encoder_value channel encoder_value block s
        = Raise (Py.AssertionError Py.ChannelNotAvailable) s)
  /\ (forall verbose, _finish_move channel verbose s
        = Raise (Py.AssertionError Py.ChannelNotAvailable) s)
  /\ (forall verbose, get_position_um channel verbose s
        = Raise (Py.AssertionError Py.ChannelNotAvailable) s)
  /\ (forall lower_limit limit_um, set_stage_limit_um channel lower_limit limit_um s
        = Raise (Py.AssertionError Py.ChannelNotAvailable) s)
  /\ (forall verbose, get_retract_point_um channel verbose s
        = Raise (Py.AssertionError Py.ChannelNotAvailable) s)
  /\ (forall retract_um_pos relative verbose,
        set_retract_point_um channel retract_um_pos relative verbose s
        = Raise (Py.AssertionError Py.ChannelNotAvailable) s)
  /\ (forall um relative verbose, legalize_move_um channel um relative verbose s
        = Raise (Py.AssertionError Py.ChannelNotAvailable) s)
  /\ (forall um relative block verbose, move_um channel um relative block verbose s
        = Raise (Py.AssertionError Py.ChannelNotAvailable) s)
  /\ (forall block, move_zero channel block s
        = Raise (Py.AssertionError Py.ChannelNotAvailable) s)
  /\ retract channel s = Raise (Py.AssertionError Py.ChannelNotAvailable) s
  /\ (forall cmd response_bytes, _send cmd channel response_bytes s = Raise Py.KeyError s)
  /\ (forall encoder_value, _um_from_encoder_value channel encoder_value s
        = Raise Py.KeyError s)
  /\ (forall um, _encoder_value_from_um channel um s = Raise Py.KeyError s)
  /\ (forall target_encoder_value, _check_min_motion channel target_encoder_value s
        = Raise Py.KeyError s).
Proof.
  intros H.
  pose proof (dict_zip_get_missing (channels s) (_internal_channels s) channel H) as K.
  repeat split; intros; unfold_methods;
    unfold assert_channel, _send, _um_from_encoder_value, _encoder_value_from_um,
      _check_min_motion, check_min_motion_body, internal_channel;
    munfold; rewrite ?H, ?K; reflexivity.
Qed.

(** Label 7 on a controller with channels 1, 2, 3. *)
Lemma unknown_channel_is_refused_witness :
  Py.contains (channels (one_axis false 0 [])) 7 = false
  /\ move_um 7 100%float false true false (one_axis false 0 [])
     = Raise (Py.AssertionError Py.ChannelNotAvailable) (one_axis false 0 [])
  /\ _encoder_value_from_um 7 100%float (one_axis false 0 [])
     = Raise Py.KeyError (one_axis false 0 []).
Proof.
  assert (H : Py.contains (channels (one_axis false 0 [])) 7 = false)
    by (vm_compute; reflexivity).
  split; [exact H|].
  destruct (unknown_channel_is_refused 7 _ H)
    as (_ & _ & _ & _ & _ & _ & _ & _ & _ & _ & M & _ & _ & _ & _ & E & _).
  split; [exact (M 100%float false true false)|exact (E 100%float)].
Defined.


Lemma no_stage_query channel i s verbose :
  Py.dict_zip_get (channels s) (_internal_channels s) channel = Py.Ok i ->
  stages s !! i = Some None ->
  exists e, _get_encoder_value channel verbose s = Raise e s.
Proof.
  intros Hd Hs. rewrite get_encoder_value_outcome. unfold query_outcome.
  rewrite Hd, Hs.
  destruct (Py.contains (channels s) channel); [|eauto].
  destruct (Py.to_bytes (Z.of_nat i) 1 false); eauto.
Qed.

Lemma no_stage_send channel i s cmd response_bytes :
  Py.dict_zip_get (channels s) (_internal_channels s) channel = Py.Ok i ->
  stages s !! i = Some None ->
  _send cmd channel response_bytes s = Raise (Py.AssertionError Py.StageNotInitialised) s.
Proof.
  intros Hd Hs. unfold _send, internal_channel, Py.index. munfold. mrew. reflexivity.
Qed.

Lemma no_stage_encoder channel i s um :
  Py.dict_zip_get (channels s) (_internal_channels s) channel = Py.Ok i ->
  _stage_conversion_um s !! i = Some None ->
  _encoder_value_from_um channel um s = Raise Py.TypeError s.
Proof.
  intros Hd Hc. unfold _encoder_value_from_um, internal_channel, Py.index. munfold. mrew.
  reflexivity.
Qed.

Lemma no_stage_move_um mv channel i s um relative block verbose :
  Py.dict_zip_get (channels s) (_internal_channels s) channel = Py.Ok i ->
  _stage_conversion_um s !! i = Some None ->
  exists e, move_um_body mv channel um relative block verbose s = Raise e s.
Proof.
  intros Hd Hc. unfold move_um_body, legalize_move_um_body, target_encoder, assert_channel.
  munfold. mcase (Py.contains (channels s) channel); [|eauto].
  rewrite (no_stage_encoder _ _ _ _ Hd Hc). eauto.
Qed.

(** X2.  A channel without a stage is inert.  No command is sent for it,
    and the methods called on it end with the object and the port as they
    were: [get_retract_point_um] returns [None], [_finish_move] returns or
    raises, and [_get_encoder_value], [get_position_um],
    [_move_to_encoder_value], [legalize_move_um], [move_um], [move_zero],
    [retract], [set_stage_limit_um], [set_retract_point_um],
    [_reverse_limit_signs] and [_set_encoder_value_to_zero] raise. *)
Theorem channel_without_stage_is_inert channel i s :
  Py.dict_zip_get (channels s) (_internal_channels s) channel = Py.Ok i ->
  no_stage s i ->
  (forall cmd response_bytes,
     _send cmd channel response_bytes s = Raise (Py.AssertionError Py.StageNotInitialised) s)
  /\ (forall verbose, exists e, _get_encoder_value channel verbose s = Raise e s)
  /\ (forall verbose, exists e, get_position_um channel verbose s = Raise e s)
  /\ (forall encoder_value block,
        exists e, _move_to_encoder_value channel encoder_value block s = Raise e s)
  /\ (forall verbose, untouched (_finish_move channel verbose s) s)
  /\ (forall um relative verbose,
        exists e, legalize_move_um channel um relative verbose s = Raise e s)
  /\ (forall um relative block verbose,
        exists e, move_um channel um relative block verbose s = Raise e s)
  /\ (forall block, exists e, move_zero channel block s = Raise e s)
  /\ (exists e, retract channel s = Raise e s)
  /\ (forall lower_limit limit_um,
        exists e, set_stage_limit_um channel lower_limit limit_um s = Raise e s)
  /\ (forall retract_um_pos relative verbose,
        exists e, set_retract_point_um channel retract_um_pos relative verbose s = Raise e s)
  /\ (exists e, _reverse_limit_signs channel s = Raise e s)
  /\ (exists e, _set_encoder_value_to_zero channel s = Raise e s)
  /\ (forall verbose, get_retract_point_um channel verbose s = Return None s).
Proof.
  intros Hd (Hs & Hc & Hu & Hl & Ha & Hh & Hre).
  assert (Hgr : forall verbose, get_retract_point_um channel verbose s = Return None s).
  { intros verbose. unfold get_retract_point_um, assert_channel, internal_channel. munfold.
    rewrite (dict_zip_get_listed _ _ _ _ Hd), Hd, Hre. reflexivity. }
  clear Hh Hre.
  assert (Hq : forall verbose, exists e, _get_encoder_value channel verbose s = Raise e s)
    by (intros; exact (no_stage_query _ _ _ _ Hd Hs)).
  assert (Hg : forall verbose, exists e, get_position_um channel verbose s = Raise e s).
  { intros verbose. unfold get_position_um, assert_channel. munfold.
    mcase (Py.contains (channels s) channel); [|eauto].
    destruct (Hq false) as [e ->]. eauto. }
  assert (Hm : forall d um relative block verbose,
             exists e, move_um_at (S d) channel um relative block verbose s = Raise e s)
    by (intros; exact (no_stage_move_um _ _ _ _ _ _ _ _ Hd Hc)).
  split; [intros; exact (no_stage_send _ _ _ _ _ Hd Hs)|].
  split; [exact Hq|]. split; [exact Hg|].
  split.
  { intros enc block.
    unfold _move_to_encoder_value, _finish_move, assert_channel, internal_channel, pending_at,
      Py.index.
    munfold. mcase (Py.contains (channels s) channel); [|eauto].
    destruct (_pending_encoder_value s !! i) as [[p|]|] eqn:Hp; mrew; [| |eauto].
    - destruct (Hq false) as [e ->]. eauto.
    - mcase (Py.to_bytes enc 4 true); [|eauto].
      mcase (Py.to_bytes (Z.of_nat i) 2 false); [|eauto].
      rewrite (no_stage_send _ _ _ _ _ Hd Hs). eauto. }
  split.
  { intros verbose.
    unfold _finish_move, assert_channel, internal_channel, pending_at, Py.index.
    munfold. mcase (Py.contains (channels s) channel); [|reflexivity].
    destruct (_pending_encoder_value s !! i) as [[p|]|]; mrew; try reflexivity.
    destruct (Hq false) as [e ->]. reflexivity. }
  split.
  { intros um relative verbose.
    unfold legalize_move_um, legalize_move_um_body, target_encoder, assert_channel.
    munfold. mcase (Py.contains (channels s) channel); [|eauto].
    rewrite (no_stage_encoder _ _ _ _ Hd Hc). eauto. }
  split; [intros; apply Hm|].
  split.
  { intros block. unfold move_zero, assert_channel. munfold.
    mcase (Py.contains (channels s) channel); [|eauto]. apply Hm. }
  split.
  { unfold retract, assert_channel, internal_channel, Py.index. munfold.
    mcase (Py.contains (channels s) channel); [|eauto].
    mcase (attr_index (_stage_retract_point_um s) i); [|eauto].
    mcase (reverse_factors s !! i); [|eauto].
    match goal with |- context [match ?p with Some x => Py.float_mul_int x _ | None => _ end] =>
      destruct p as [x|]; [|eauto] end.
    mcase (Py.float_mul_int x z); [|eauto].
    match goal with |- context [move_um channel ?um false true false s] =>
      destruct (Hm 332%nat um false true false) as [e He];
      change (move_um channel um false true false s) with
        (move_um_at 333 channel um false true false s);
      rewrite He end.
    eauto. }
  split.
  { intros lower_limit limit_um.
    unfold set_stage_limit_um, assert_channel, internal_channel, reverse_at, lower_limit_at,
      upper_limit_of, Py.index, Py.ge_ge, Py.le_le, Py.le.
    munfold. mcase (Py.contains (channels s) channel); [|eauto].
    destruct (Py.opt_truthy Py.float_truthy limit_um) eqn:Ht.
    - destruct limit_um as [x|]; [|discriminate]. mrew.
      mcase (reverse s !! i); [|eauto].
      destruct b; mrew; eauto.
    - mrew. destruct (Hg (very_verbose s)) as [e ->]. eauto. }
  split.
  { intros retract_um_pos relative verbose.
    unfold set_retract_point_um, assert_channel, internal_channel, reverse_at, lowest_scan_at,
      highest_scan_of, Py.index, Py.ge_ge, Py.le_le, Py.le.
    munfold. mcase (Py.contains (channels s) channel); [|eauto].
    destruct (Py.opt_truthy Py.float_truthy retract_um_pos) eqn:Ht.
    - destruct retract_um_pos as [x|]; [|discriminate]. mrew.
      destruct relative; mrew.
      + destruct (Hg false) as [e ->]. eauto.
      + mcase (reverse s !! i); [|eauto].
        destruct b; mrew; eauto.
    - mrew. destruct (Hg false) as [e ->]. eauto. }
  split.
  { unfold _reverse_limit_signs, assert_channel, internal_channel, upper_limit_at, Py.index.
    munfold. mcase (Py.contains (channels s) channel); [|eauto]. eauto. }
  split; [|exact Hgr].
  unfold _set_encoder_value_to_zero, zero_and_wait, assert_channel, internal_channel,
    self_verbose.
  munfold. mcase (Py.contains (channels s) channel); [|eauto].
  destruct (verbose s); mrew.
  - match goal with |- context [_get_encoder_value channel ?v s] =>
      destruct (Hq v) as [e He]; rewrite He end.
    eauto.
  - mcase (Py.to_bytes (Z.of_nat i) 2 false); [|eauto].
    mcase (Py.to_bytes 0 4 true); [|eauto].
    rewrite (no_stage_send _ _ _ _ _ Hd Hs). eauto.
Qed.


(** A channel of [one_axis] that has no stage. *)
Lemma channel_without_stage_is_inert_witness :
  Py.dict_zip_get (channels (one_axis false 0 [])) (_internal_channels (one_axis false 0 [])) 2
    = Py.Ok 1%nat
  /\ no_stage (one_axis false 0 []) 1
  /\ (exists e, move_um 2 100%float false true false (one_axis false 0 [])
                = Raise e (one_axis false 0 []))
  /\ get_retract_point_um 2 false (one_axis false 0 []) = Return None (one_axis false 0 []).
Proof.
  assert (H1 : Py.dict_zip_get (channels (one_axis false 0 []))
                 (_internal_channels (one_axis false 0 [])) 2 = Py.Ok 1%nat)
    by (vm_compute; reflexivity).
  assert (H2 : no_stage (one_axis false 0 []) 1).
  { repeat (split; [vm_compute; reflexivity|]). vm_compute. reflexivity. }
  split; [exact H1|]. split; [exact H2|].
  destruct (channel_without_stage_is_inert 2 1%nat _ H1 H2)
    as (_ & _ & _ & _ & _ & _ & M & _ & _ & _ & _ & _ & _ & G).
  split; [exact (M 100%float false true false)|exact (G false)].
Defined.

(** ** Reading the position *)

Lemma query_outcome_return channel s v s' :
  query_outcome channel s = Return v s' ->
  s' = set_port (port s') s
  /\ last_reading s' = Some v
  /\ exists i cb,
       Py.dict_zip_get (channels s) (_internal_channels s) channel = Py.Ok i
       /\ Py.to_bytes (Z.of_nat i) 1 false = Py.Ok cb
       /\ written (port s') = written (port s) ++ [query_frame cb]
       /\ in_buffer (port s') = [].
Proof.
  intros H. split; [|split; [exact (query_outcome_reading _ _ _ _ H)|]];
    unfold query_outcome in H;
    repeat match type of H with
           | context [match ?x with _ => _ end] => destruct x eqn:?
           end; try discriminate; injection H as <- <-.
  - destruct s; reflexivity.
  - match goal with
    | H : serial_read _ _ = Some _ |- _ =>
        unfold serial_read in H;
        destruct (_ <=? _)%nat in H; [injection H as <- <-|discriminate]
    end.
    eexists _, _. split; [reflexivity|]. split; [eassumption|]. cbn.
    split; [reflexivity|].
    match goal with H : (length _ =? 0)%nat = true |- _ =>
      apply Nat.eqb_eq in H; cbn in H; apply length_zero_iff_nil in H; exact H end.
Qed.

Lemma um_from_encoder_value_port channel v p s :
  _um_from_encoder_value channel v (set_port p s)
  = match _um_from_encoder_value channel v s with
    | Return um _ => Return um (set_port p s)
    | Raise e _ => Raise e (set_port p s)
    | Blocked _ => Blocked (set_port p s)
    | Spent => Spent
    end.
Proof.
  unfold _um_from_encoder_value, internal_channel, Py.index. munfold. msimpl.
  mcase (Py.dict_zip_get (channels s) (_internal_channels s) channel); [|reflexivity].
  mcase (_stage_conversion_um s !! a); [|reflexivity].
  destruct o as [c|]; [|reflexivity].
  mcase (Py.int_mul_float v c); [|reflexivity].
  mcase (reverse s !! a); reflexivity.
Qed.

(** X3.  [get_position_um] sends one position query and returns the
    position of the encoder value read.  The object is left as it was but
    for the port: the stored current encoder value is not refreshed. *)
Theorem get_position_um_only_reads channel verbose s um s' :
  get_position_um channel verbose s = Return um s' ->
  exists i cb encoder_value,
    Py.dict_zip_get (channels s) (_internal_channels s) channel = Py.Ok i
    /\ Py.to_bytes (Z.of_nat i) 1 false = Py.Ok cb
    /\ written (port s') = written (port s) ++ [query_frame cb]
    /\ in_buffer (port s') = []
    /\ last_reading s' = Some encoder_value
    /\ _um_from_encoder_value channel encoder_value s = Return um s
    /\ s' = set_port (port s') s
    /\ _current_encoder_value s' = _current_encoder_value s.
Proof.
  unfold get_position_um, assert_channel. munfold.
  mcase (Py.contains (channels s) channel); [|discriminate].
  rewrite get_encoder_value_outcome.
  destruct (query_outcome channel s) as [v s1| | |] eqn:Hq; try discriminate.
  destruct (query_outcome_return _ _ _ _ Hq) as (Es & L & i & cb & Hd & Hb & W & B).
  intros H.
  assert (Hu : _um_from_encoder_value channel v (set_port (port s1) s) = Return um s')
    by (rewrite <- Es; exact H).
  rewrite um_from_encoder_value_port in Hu.
  destruct (um_from_encoder_value_reads channel v s) as [[um2 Hu2]|[e Hu2]];
    rewrite Hu2 in Hu; [|discriminate].
  injection Hu as <- <-.
  exists i, cb, v. cbn [port set_port _current_encoder_value].
  split; [exact Hd|]. split; [exact Hb|]. split; [exact W|]. split; [exact B|].
  split; [rewrite <- Es; exact L|]. split; [exact Hu2|]. split; reflexivity.
Qed.

(** The stage reports encoder value 4725 while the object still holds 0. *)
Lemma get_position_um_only_reads_witness :
  exists um s',
    get_position_um 1 false (one_axis false 0 [position_reply 0 4725]) = Return um s'
    /\ last_reading s' = Some 4725
    /\ _current_encoder_value s' = _current_encoder_value (one_axis false 0 [position_reply 0 4725]).
Proof.
  eexists _, _.
  eassert (H : get_position_um 1 false (one_axis false 0 [position_reply 0 4725]) = Return _ _)
    by (vm_compute; reflexivity).
  split; [exact H|]. split; [vm_compute; reflexivity|].
  destruct (get_position_um_only_reads _ _ _ _ _ H) as (i & cb & v & _ & _ & _ & _ & _ & _ & _ & Hc).
  exact Hc.
Defined.


(** ** Construction *)

Lemma stage_lookup_some name x :
  stage_lookup name = Some x -> x = (12700%float, step_um).
Proof.
  unfold stage_lookup, supported_stages. cbn [find fst snd].
  destruct (String.eqb _ name); cbn; [|discriminate]. intros [= <-]. reflexivity.
Qed.

(** X4.  [__init__] checks the whole configuration before it talks to the
    device: tuples that do not have three elements, or a stage name that is
    not in [supported_stages] at any position, end the construction with an
    assertion error and the port as it was opened. *)
Theorem init_rejects_bad_configuration p clock verbose very_verbose stages reverse channels :
  length stages <> 3%nat \/ length reverse <> 3%nat \/ length channels <> 3%nat
  \/ (exists name, In (Some name) stages /\ stage_lookup name = None) ->
  __init__ p clock verbose very_verbose stages reverse channels
    = Raise (Py.AssertionError Py.BadConfiguration)
        (blank p clock verbose very_verbose stages reverse channels)
  /\ port (blank p clock verbose very_verbose stages reverse channels) = p.
Proof.
  intros H. split; [|reflexivity]. unfold __init__. munfold.
  destruct ((length stages =? 3)%nat && (length reverse =? 3)%nat
            && (length channels =? 3)%nat) eqn:Hl; [|reflexivity].
  apply andb_true_iff in Hl as [Hl H3]. apply andb_true_iff in Hl as [H1 H2].
  apply Nat.eqb_eq in H1, H2, H3.
  destruct H as [H|[H|[H|(name & Hin & Hn)]]]; try contradiction.
  destruct (forallb _ stages) eqn:Hf; [|reflexivity].
  exfalso. rewrite forallb_forall in Hf. specialize (Hf _ Hin). cbv beta iota in Hf.
  rewrite Hn in Hf. discriminate.
Qed.

(** A stage type that is not supported, in the last position. *)
Lemma init_rejects_bad_configuration_witness :
  (exists name, In (Some name) [Some "ZFM2020"%string; None; Some "ZFM2030"%string]
                /\ stage_lookup name = None)
  /\ __init__ (fresh_port []) bench_clock false false
       [Some "ZFM2020"%string; None; Some "ZFM2030"%string] [false; false; false] [1; 2; 3]
     = Raise (Py.AssertionError Py.BadConfiguration)
         (blank (fresh_port []) bench_clock false false
            [Some "ZFM2020"%string; None; Some "ZFM2030"%string] [false; false; false]
            [1; 2; 3]).
Proof.
  assert (H : exists name, In (Some name) [Some "ZFM2020"%string; None; Some "ZFM2030"%string]
                           /\ stage_lookup name = None).
  { exists "ZFM2030"%string. split; [cbn; auto|vm_compute; reflexivity]. }
  split; [exact H|].
  exact (proj1 (init_rejects_bad_configuration (fresh_port []) bench_clock false false _
                  [false; false; false] [1; 2; 3] (or_intror (or_intror (or_intror H))))).
Defined.


Lemma query_outcome_return_state channel s v s' :
  query_outcome channel s = Return v s' -> exists p, s' = set_port p s.
Proof.
  intros H. exists (port s'). exact (proj1 (query_outcome_return _ _ _ _ H)).
Qed.

Lemma query_outcome_received channel s v s' :
  query_outcome channel s = Return v s' ->
  exists response,
    received (port s') = received (port s) ++ [response]
    /\ v = Py.from_bytes_signed (Py.suffix 4 response).
Proof.
  unfold query_outcome.
  repeat match goal with
         | |- context [match ?x with _ => _ end] => destruct x eqn:?
         end; try discriminate; intros [= <- <-].
  match goal with
  | H : serial_read _ _ = Some _ |- _ =>
      unfold serial_read in H;
      destruct (_ <=? _)%nat in H; [injection H as <- <-|discriminate]
  end.
  eexists. split; reflexivity.
Qed.

(** One turn of the loop of [__init__] on a channel that has a stage. *)
Lemma init_stage_turn k name s s' :
  init_stage k (Some name) s = Return tt s' ->
  exists factor upper lower step hi lo re p' cb response,
    written p' = written (port s) ++ [query_frame cb]
    /\ received p' = received (port s) ++ [response]
    /\ reverse_factors s !! k = Some factor
    /\ Py.float_mul_int 12700 factor = Py.Ok upper
    /\ Py.float_mul_int (PrimFloat.opp 12700) factor = Py.Ok lower
    /\ Py.float_mul_int step_um factor = Py.Ok step
    /\ _stage_highest_scan_point_um s = PerChannel hi
    /\ _stage_lowest_scan_point_um s = PerChannel lo
    /\ _stage_retract_point_um s = PerChannel re
    /\ s' = set_current
              (<[k := Some (Py.from_bytes_signed (Py.suffix 4 response))]>
                 (_current_encoder_value s))
              (set_port p'
                 (set_retract (PerChannel (<[k := Some (upper - step)%float]> re))
                    (set_lowest_scan (PerChannel (<[k := Some lower]> lo))
                       (set_highest_scan (PerChannel (<[k := Some upper]> hi))
                          (set_stage_tables
                             (<[k := Some upper]> (_stage_upper_limit_um s))
                             (<[k := Some lower]> (_stage_lower_limit_um s))
                             (<[k := Some step_um]> (_stage_conversion_um s)) s))))).
Proof.
  unfold init_stage.
  destruct (stage_lookup name) as [[limit conv]|] eqn:Hn; [|discriminate].
  apply stage_lookup_some in Hn. injection Hn as -> ->.
  unfold attr_store. unfold Py.index, Py.store. munfold.
  mcase (reverse_factors s !! k); [|intros [=]].
  mcase (Py.float_mul_int 12700 z); [|intros [=]].
  mcase (Py.float_mul_int (PrimFloat.opp 12700) z); [|intros [=]].
  mcase (Py.float_mul_int step_um z); [|intros [=]].
  mcase (k <? length (_stage_upper_limit_um s))%nat; [|intros [=]].
  mcase (k <? length (_stage_lower_limit_um s))%nat; [|intros [=]].
  mcase (k <? length (_stage_conversion_um s))%nat; [|intros [=]].
  destruct (_stage_highest_scan_point_um s) as [hi|] eqn:Hhi; mrew; [|intros [=]].
  mcase (k <? length hi)%nat; [|intros [=]].
  destruct (_stage_lowest_scan_point_um s) as [lo|] eqn:Hlo; mrew; [|intros [=]].
  mcase (k <? length lo)%nat; [|intros [=]].
  destruct (_stage_retract_point_um s) as [re|] eqn:Hre; mrew; [|intros [=]].
  mcase (k <? length re)%nat; [|intros [=]].
  mcase (channels s !! k); [|intros [=]].
  rewrite get_encoder_value_outcome.
  match goal with |- context [query_outcome ?c ?t] =>
    destruct (query_outcome c t) as [v s1| | |] eqn:Hq; try solve [intros [=]];
    destruct (query_outcome_return _ _ _ _ Hq) as (Es & _ & i & cb & _ & _ & W & _);
    destruct (query_outcome_received _ _ _ _ Hq) as (response & R & ->);
    revert W R; rewrite Es; generalize (port s1); intros p' W R; cbn [port set_port] in W, R
  end.
  msimpl.
  mcase (k <? length (_current_encoder_value s))%nat; [|intros [=]].
  intros [= <-].
  eexists _, _, _, _, _, _, _, _, cb, response.
  split; [exact W|]. split; [exact R|].
  repeat (split; [first [reflexivity|eassumption]|]). reflexivity.
Qed.


Lemma length_three {A} (l : list A) : length l = 3%nat -> exists a b c, l = [a; b; c].
Proof. destruct l as [|a [|b [|c [|]]]]; try discriminate. eauto. Qed.

Lemma mul_by_direction (x : float) (rev : bool) :
  Py.float_mul_int x (if rev then -1 else 1) = Py.Ok (x * direction rev)%float.
Proof.
  unfold Py.float_mul_int, direction.
  assert (H1 : Py.float_of_int 1 = Py.Ok 1%float) by (vm_compute; reflexivity).
  assert (H2 : Py.float_of_int (-1) = Py.Ok (-1)%float) by (vm_compute; reflexivity).
  destruct rev; [rewrite H2|rewrite H1]; reflexivity.
Qed.

Ltac turn H k :=
  match type of H with
  | context [init_stage k None ?S] =>
      change (init_stage k None S) with (@Return unit tt S) in H; cbv beta iota in H
  | context [init_stage k (Some ?n) ?S] =>
      let H1 := fresh "Hturn" in
      destruct (init_stage k (Some n) S) as [[] ?| | |] eqn:H1; try discriminate H;
      apply init_stage_turn in H1;
      destruct H1 as (? & ? & ? & ? & ? & ? & ? & ? & ? & ? & ? & ? & ? & ? & ? & ? & ? & ? & ? & ->);
      repeat match goal with
             | E : reverse_factors _ !! _ = Some _ |- _ => cbn in E; injection E as <-
             | E : Py.float_mul_int _ _ = Py.Ok _ |- _ =>
                 rewrite mul_by_direction in E; injection E as <-
             | E : _ = PerChannel _ |- _ => cbn in E; injection E as <-
             | W : written _ = written (port _) ++ _ |- _ =>
                 cbn [port set_current set_port set_retract set_lowest_scan set_highest_scan
                      set_stage_tables blank] in W
             | R : received _ = received (port _) ++ _ |- _ =>
                 cbn [port set_current set_port set_retract set_lowest_scan set_highest_scan
                      set_stage_tables blank] in R
             end
  end.

(** X5.  When [__init__] returns, the object holds the configuration it
    was given, no move is pending on any channel, and the tables are filled
    channel by channel.  A channel without a stage has [None] in every
    table.  A channel with a stage has the conversion factor of the stage,
    the limits +-12700 um times the direction of the axis, scan points equal
    to the limits, a retract point one conversion step inside the upper
    limit, and as current encoder value the one carried by the response
    that the device gave to the position query of this channel: one query
    was written and one response read for each stage, in the order of the
    channels. *)
Theorem init_fills_the_tables p clock verbose very_verbose names reversed labels s :
  __init__ p clock verbose very_verbose names reversed labels = Return tt s ->
  stages s = names /\ reverse s = reversed /\ channels s = labels
  /\ _internal_channels s = [0; 1; 2]%nat
  /\ _min_encoder_motion s = 5
  /\ _pending_encoder_value s = [None; None; None]
  /\ (forall i, names !! i = Some None ->
        no_stage s i /\ _current_encoder_value s !! i = Some None)
  /\ (exists queries responses,
        written (port s) = written p ++ queries
        /\ received (port s) = received p ++ responses
        /\ length queries = length (omap (fun stage => stage) names)
        /\ length responses = length queries
        /\ Forall (fun frame => exists cb, frame = query_frame cb) queries
        /\ forall i name, names !! i = Some (Some name) ->
             exists rev response,
               reversed !! i = Some rev
               /\ _stage_conversion_um s !! i = Some (Some step_um)
               /\ _stage_upper_limit_um s !! i = Some (Some (12700 * direction rev)%float)
               /\ _stage_lower_limit_um s !! i
                  = Some (Some (PrimFloat.opp 12700 * direction rev)%float)
               /\ attr_index (_stage_highest_scan_point_um s) i
                  = Py.Ok (Some (12700 * direction rev)%float)
               /\ attr_index (_stage_lowest_scan_point_um s) i
                  = Py.Ok (Some (PrimFloat.opp 12700 * direction rev)%float)
               /\ attr_index (_stage_retract_point_um s) i
                  = Py.Ok (Some (12700 * direction rev - step_um * direction rev)%float)
               /\ responses !! stages_before i names = Some response
               /\ _current_encoder_value s !! i
                  = Some (Some (Py.from_bytes_signed (Py.suffix 4 response)))).
Proof.
  intros H. unfold __init__ in H. munfold.
  destruct ((length names =? 3)%nat && (length reversed =? 3)%nat
            && (length labels =? 3)%nat) eqn:Hl; [|discriminate].
  apply andb_true_iff in Hl as [Hl H3]. apply andb_true_iff in Hl as [H1 H2].
  apply Nat.eqb_eq in H1, H2, H3.
  destruct (length_three _ H1) as (a & b & c & ->).
  destruct (length_three _ H2) as (r0 & r1 & r2 & ->).
  destruct (length_three _ H3) as (c0 & c1 & c2 & ->).
  destruct (forallb _ _); [|discriminate].
  cbn [init_stages] in H. munfold.
  destruct a as [na|], b as [nb|], c as [nc|];
    turn H 0%nat; turn H 1%nat; turn H 2%nat; injection H as <-.
  all: repeat (split; [reflexivity|]).
  all: split;
    [intros [|[|[|i]]] Hi; cbn in Hi; try discriminate Hi; clear Hi;
     (split; [unfold no_stage; repeat split; reflexivity|reflexivity])
    |].
  all: cbn [port set_current set_port set_retract set_lowest_scan set_highest_scan
            set_stage_tables blank];
    eexists _, _; split;
    [repeat match goal with W : written ?x = _ |- context [written ?x] => rewrite W end;
     rewrite <- ?app_assoc; try reflexivity; symmetry; apply app_nil_r|];
    split;
    [repeat match goal with R : received ?x = _ |- context [received ?x] => rewrite R end;
     rewrite <- ?app_assoc; try reflexivity; symmetry; apply app_nil_r|];
    split; [reflexivity|]; split; [reflexivity|];
    split; [repeat constructor; eexists; reflexivity|].
  all: intros [|[|[|i]]] name Hi; cbn in Hi; try discriminate Hi; clear Hi;
    eexists _, _; repeat split; reflexivity.
Qed.


(** The controller with a reversed stage on channel 1, reporting encoder
    value 40. *)
Lemma init_fills_the_tables_witness :
  exists s,
    __init__ (fresh_port [position_reply 0 40]) bench_clock false false
      [Some "ZFM2020"%string; None; None] [true; false; false] [1; 2; 3] = Return tt s
    /\ _stage_upper_limit_um s !! 0%nat = Some (Some (12700 * direction true)%float)
    /\ (12700 * direction true)%float = (-12700)%float
    /\ received (port s) = [position_reply 0 40]
    /\ _current_encoder_value s !! 0%nat = Some (Some 40)
    /\ no_stage s 1.
Proof.
  eexists.
  eassert (H : __init__ (fresh_port [position_reply 0 40]) bench_clock false false
                 [Some "ZFM2020"%string; None; None] [true; false; false] [1; 2; 3]
               = Return tt _) by (vm_compute; reflexivity).
  split; [exact H|].
  destruct (init_fills_the_tables _ _ _ _ _ _ _ _ H)
    as (_ & _ & _ & _ & _ & _ & Hnone & queries & responses & _ & _ & _ & _ & _ & Hsome).
  destruct (Hsome 0%nat "ZFM2020"%string eq_refl) as (rev & response & Hr & _ & Hu & _).
  injection Hr as <-. split; [exact Hu|]. split; [vm_compute; reflexivity|].
  split; [vm_compute; reflexivity|]. split; [vm_compute; reflexivity|].
  exact (proj1 (Hnone 1%nat eq_refl)).
Defined.

(** ** Channel labels *)

(** X6.  The labels of [channels] resolve to their positions through the
    dictionary of channels.  With three distinct labels the label in
    position [j] is internal channel [j]; a label that is not there is a
    KeyError; and a label resolves to the last position at which it occurs:
    of two equal labels the later position wins, so that the earlier channel
    cannot be addressed. *)
Theorem channel_labels_resolve s :
  _internal_channels s = [0; 1; 2]%nat ->
  length (channels s) = 3%nat ->
  (NoDup (channels s) ->
   forall j c, channels s !! j = Some c -> internal_channel c s = Return j s)
  /\ (forall c, Py.contains (channels s) c = false -> internal_channel c s = Raise Py.KeyError s)
  /\ (forall j c, channels s !! j = Some c ->
        (forall j', (j < j')%nat -> channels s !! j' <> Some c) ->
        internal_channel c s = Return j s)
  /\ (forall j j' c, (j < j')%nat -> channels s !! j = Some c -> channels s !! j' = Some c ->
        internal_channel c s <> Return j s).
Proof.
  intros Hi Hl. destruct (length_three _ Hl) as (c0 & c1 & c2 & Hc).
  assert (Hget : forall c, internal_channel c s =
            lift (if c2 =? c then Py.Ok 2%nat
                  else if c1 =? c then Py.Ok 1%nat
                  else if c0 =? c then Py.Ok 0%nat else Py.Err Py.KeyError) s).
  { intros c. unfold internal_channel, Py.dict_zip_get. rewrite Hi, Hc.
    cbn [zip zip_with fold_left fst snd].
    destruct (c0 =? c), (c1 =? c), (c2 =? c); reflexivity. }
  assert (Last : forall j c, [c0; c1; c2] !! j = Some c ->
            (forall j', (j < j')%nat -> [c0; c1; c2] !! j' <> Some c) ->
            internal_channel c s = Return j s).
  { intros j c Hj Hlast. rewrite Hget.
    destruct j as [|[|[|j]]]; cbn in Hj; try discriminate; injection Hj as ->.
    - pose proof (Hlast 1%nat ltac:(lia)) as L1. pose proof (Hlast 2%nat ltac:(lia)) as L2.
      cbn in L1, L2.
      destruct (Z.eqb_spec c2 c); [exfalso; congruence|].
      destruct (Z.eqb_spec c1 c); [exfalso; congruence|].
      rewrite Z.eqb_refl. reflexivity.
    - pose proof (Hlast 2%nat ltac:(lia)) as L2. cbn in L2.
      destruct (Z.eqb_spec c2 c); [exfalso; congruence|].
      rewrite Z.eqb_refl. reflexivity.
    - rewrite Z.eqb_refl. reflexivity. }
  rewrite Hc. split; [|split; [|split]].
  - intros Hnd j c Hj. apply Last; [exact Hj|].
    intros j' Hlt Hj'.
    apply NoDup_cons in Hnd as [N0 Hnd]. apply NoDup_cons in Hnd as [N1 _].
    apply not_elem_of_cons in N0 as (N01 & N0). apply not_elem_of_cons in N0 as (N02 & _).
    apply not_elem_of_cons in N1 as (N12 & _).
    destruct j as [|[|[|j]]], j' as [|[|[|j']]]; cbn in Hj, Hj'; try discriminate; try lia;
      congruence.
  - intros c Hn. rewrite Hget. unfold Py.contains in Hn. cbn [existsb] in Hn.
    rewrite !orb_false_iff in Hn. destruct Hn as (H0 & H1 & H2 & _).
    rewrite (Z.eqb_sym c2 c), (Z.eqb_sym c1 c), (Z.eqb_sym c0 c), H0, H1, H2. reflexivity.
  - exact Last.
  - intros j j' c Hlt Hj Hj'. rewrite Hget.
    destruct j as [|[|[|j]]], j' as [|[|[|j']]]; cbn in Hj, Hj'; try discriminate; try lia;
      injection Hj as ->; injection Hj' as ->; rewrite ?Z.eqb_refl;
      try (destruct (c2 =? c)); cbn; discriminate.
Qed.

(** Labels 1, 2, 3, where label 2 is internal channel 1; and labels 1, 1, 3,
    where label 1 is internal channel 1 and never internal channel 0. *)
Lemma channel_labels_resolve_witness :
  _internal_channels (one_axis false 0 []) = [0; 1; 2]%nat
  /\ length (channels (one_axis false 0 [])) = 3%nat
  /\ NoDup (channels (one_axis false 0 []))
  /\ internal_channel 2 (one_axis false 0 []) = Return 1%nat (one_axis false 0 [])
  /\ channels twin_labels = [1; 1; 3]
  /\ internal_channel 1 twin_labels = Return 1%nat twin_labels
  /\ internal_channel 1 twin_labels <> Return 0%nat twin_labels.
Proof.
  assert (H1 : _internal_channels (one_axis false 0 []) = [0; 1; 2]%nat)
    by (vm_compute; reflexivity).
  assert (H2 : length (channels (one_axis false 0 [])) = 3%nat) by (vm_compute; reflexivity).
  assert (H3 : NoDup (channels (one_axis false 0 []))).
  { change (channels (one_axis false 0 [])) with [1; 2; 3].
    repeat constructor; rewrite ?not_elem_of_cons; try apply not_elem_of_nil;
      repeat split; try discriminate; apply not_elem_of_nil. }
  assert (K1 : _internal_channels twin_labels = [0; 1; 2]%nat) by (vm_compute; reflexivity).
  assert (K2 : length (channels twin_labels) = 3%nat) by (vm_compute; reflexivity).
  assert (K3 : channels twin_labels = [1; 1; 3]) by (vm_compute; reflexivity).
  split; [exact H1|]. split; [exact H2|]. split; [exact H3|].
  split; [exact (proj1 (channel_labels_resolve _ H1 H2) H3 1%nat 2 eq_refl)|].
  split; [exact K3|].
  destruct (channel_labels_resolve _ K1 K2) as (_ & _ & Last & Never).
  split.
  - apply (Last 1%nat 1); [rewrite K3; reflexivity|].
    intros j' Hlt. rewrite K3.
    destruct j' as [|[|[|j']]]; try lia; cbn; discriminate.
  - apply (Never 0%nat 1%nat 1); [lia|rewrite K3; reflexivity..].
Defined.


(** ** Reversing the signs of the limits *)

Lemma opp_involutive (x : float) : (- - x)%float = x.
Proof.
  apply Prim2SF_inj. rewrite !opp_spec.
  destruct (Prim2SF x) as [[]|[]| |[] m e]; reflexivity.
Qed.

Lemma reverse_limit_signs_run channel i u l h lo r hi_l lo_l re_l s :
  Py.contains (channels s) channel = true ->
  Py.dict_zip_get (channels s) (_internal_channels s) channel = Py.Ok i ->
  _stage_upper_limit_um s !! i = Some (Some u) ->
  _stage_lower_limit_um s !! i = Some (Some l) ->
  _stage_highest_scan_point_um s = PerChannel hi_l -> hi_l !! i = Some (Some h) ->
  _stage_lowest_scan_point_um s = PerChannel lo_l -> lo_l !! i = Some (Some lo) ->
  _stage_retract_point_um s = PerChannel re_l -> re_l !! i = Some (Some r) ->
  _reverse_limit_signs channel s = Return tt (signs_reversed i u l h lo r hi_l lo_l re_l s).
Proof.
  intros Hc Hd Hu Hl Hhi Hh Hlo Hlo' Hre Hr.
  assert (L1 : (i <? length (_stage_upper_limit_um s))%nat = true)
    by (apply Nat.ltb_lt; eapply lookup_lt_Some; eassumption).
  assert (L2 : (i <? length (_stage_lower_limit_um s))%nat = true)
    by (apply Nat.ltb_lt; eapply lookup_lt_Some; eassumption).
  assert (L3 : (i <? length hi_l)%nat = true)
    by (apply Nat.ltb_lt; eapply lookup_lt_Some; eassumption).
  assert (L4 : (i <? length lo_l)%nat = true)
    by (apply Nat.ltb_lt; eapply lookup_lt_Some; eassumption).
  assert (L5 : (i <? length re_l)%nat = true)
    by (apply Nat.ltb_lt; eapply lookup_lt_Some; eassumption).
  unfold _reverse_limit_signs, assert_channel, internal_channel, upper_limit_at, lower_limit_at,
    highest_scan_at, lowest_scan_at, retract_at, negated, attr_store, attr_index.
  unfold Py.index, Py.store. munfold. mrew. reflexivity.
Qed.

Lemma reverse_limit_signs_return channel s s1 :
  _reverse_limit_signs channel s = Return tt s1 ->
  exists i u l h lo r hi_l lo_l re_l,
    Py.contains (channels s) channel = true
    /\ Py.dict_zip_get (channels s) (_internal_channels s) channel = Py.Ok i
    /\ _stage_upper_limit_um s !! i = Some (Some u)
    /\ _stage_lower_limit_um s !! i = Some (Some l)
    /\ _stage_highest_scan_point_um s = PerChannel hi_l /\ hi_l !! i = Some (Some h)
    /\ _stage_lowest_scan_point_um s = PerChannel lo_l /\ lo_l !! i = Some (Some lo)
    /\ _stage_retract_point_um s = PerChannel re_l /\ re_l !! i = Some (Some r)
    /\ s1 = signs_reversed i u l h lo r hi_l lo_l re_l s.
Proof.
  unfold _reverse_limit_signs, assert_channel, internal_channel, upper_limit_at, lower_limit_at,
    highest_scan_at, lowest_scan_at, retract_at, negated, attr_store, attr_index.
  unfold Py.index, Py.store. munfold.
  mcase (Py.contains (channels s) channel); [|intros [=]].
  mcase (Py.dict_zip_get (channels s) (_internal_channels s) channel); [|intros [=]].
  destruct (_stage_upper_limit_um s !! a) as [[u|]|] eqn:Hu; mrew; try solve [intros [=]].
  mcase (a <? length (_stage_upper_limit_um s))%nat; [|intros [=]].
  destruct (_stage_lower_limit_um s !! a) as [[l|]|] eqn:Hl; mrew; try solve [intros [=]].
  mcase (a <? length (_stage_lower_limit_um s))%nat; [|intros [=]].
  destruct (_stage_highest_scan_point_um s) as [hi_l|] eqn:Hhi; mrew; [|intros [=]].
  destruct (hi_l !! a) as [[h|]|] eqn:Hh; mrew; try solve [intros [=]].
  mcase (a <? length hi_l)%nat; [|intros [=]].
  destruct (_stage_lowest_scan_point_um s) as [lo_l|] eqn:Hlo; mrew; [|intros [=]].
  destruct (lo_l !! a) as [[lo|]|] eqn:Hlo'; mrew; try solve [intros [=]].
  mcase (a <? length lo_l)%nat; [|intros [=]].
  destruct (_stage_retract_point_um s) as [re_l|] eqn:Hre; mrew; [|intros [=]].
  destruct (re_l !! a) as [[r|]|] eqn:Hr; mrew; try solve [intros [=]].
  mcase (a <? length re_l)%nat; [|intros [=]].
  intros [= <-].
  exists a, u, l, h, lo, r, hi_l, lo_l, re_l.
  repeat (split; [first [reflexivity|eassumption]|]). reflexivity.
Qed.

(** X7.  [_reverse_limit_signs] negates the two limits, the two scan points
    and the retract point of its channel and nothing else: the entries of
    the other channels, the direction of the axis, the encoder values and
    the port stay as they were, no command is sent, and a second call
    restores the object. *)
Theorem reverse_limit_signs_twice channel s s1 :
  _reverse_limit_signs channel s = Return tt s1 ->
  _reverse_limit_signs channel s1 = Return tt s
  /\ (exists i u l h lo r,
        Py.dict_zip_get (channels s) (_internal_channels s) channel = Py.Ok i
        /\ _stage_upper_limit_um s !! i = Some (Some u)
        /\ _stage_upper_limit_um s1 !! i = Some (Some (- u)%float)
        /\ _stage_lower_limit_um s !! i = Some (Some l)
        /\ _stage_lower_limit_um s1 !! i = Some (Some (- l)%float)
        /\ attr_index (_stage_highest_scan_point_um s) i = Py.Ok (Some h)
        /\ attr_index (_stage_highest_scan_point_um s1) i = Py.Ok (Some (- h)%float)
        /\ attr_index (_stage_lowest_scan_point_um s) i = Py.Ok (Some lo)
        /\ attr_index (_stage_lowest_scan_point_um s1) i = Py.Ok (Some (- lo)%float)
        /\ attr_index (_stage_retract_point_um s) i = Py.Ok (Some r)
        /\ attr_index (_stage_retract_point_um s1) i = Py.Ok (Some (- r)%float)
        /\ forall j, j <> i ->
             _stage_upper_limit_um s1 !! j = _stage_upper_limit_um s !! j
             /\ _stage_lower_limit_um s1 !! j = _stage_lower_limit_um s !! j
             /\ attr_index (_stage_highest_scan_point_um s1) j
                = attr_index (_stage_highest_scan_point_um s) j
             /\ attr_index (_stage_lowest_scan_point_um s1) j
                = attr_index (_stage_lowest_scan_point_um s) j
             /\ attr_index (_stage_retract_point_um s1) j
                = attr_index (_stage_retract_point_um s) j)
  /\ port s1 = port s /\ reverse s1 = reverse s /\ reverse_factors s1 = reverse_factors s
  /\ _stage_conversion_um s1 = _stage_conversion_um s
  /\ _current_encoder_value s1 = _current_encoder_value s
  /\ _pending_encoder_value s1 = _pending_encoder_value s.
Proof.
  intros H.
  destruct (reverse_limit_signs_return _ _ _ H)
    as (i & u & l & h & lo & r & hi_l & lo_l & re_l
        & Hc & Hd & Hu & Hl & Hhi & Hh & Hlo & Hlo' & Hre & Hr & ->).
  assert (L1 := lookup_lt_Some _ _ _ Hu). assert (L2 := lookup_lt_Some _ _ _ Hl).
  assert (L3 := lookup_lt_Some _ _ _ Hh). assert (L4 := lookup_lt_Some _ _ _ Hlo').
  assert (L5 := lookup_lt_Some _ _ _ Hr).
  split; [|split; [|repeat split; reflexivity]].
  - rewrite (reverse_limit_signs_run channel i (- u) (- l) (- h) (- lo) (- r)
               (<[i := Some (- h)%float]> hi_l) (<[i := Some (- lo)%float]> lo_l)
               (<[i := Some (- r)%float]> re_l));
      try exact Hc; try exact Hd; try reflexivity;
      try (cbn; apply list_lookup_insert_eq; assumption).
    f_equal. unfold signs_reversed. cbn.
    rewrite !list_insert_insert_eq, !opp_involutive.
    rewrite (list_insert_id _ _ _ Hu), (list_insert_id _ _ _ Hl), (list_insert_id _ _ _ Hh),
      (list_insert_id _ _ _ Hlo'), (list_insert_id _ _ _ Hr).
    rewrite <- Hhi, <- Hlo, <- Hre. destruct s; reflexivity.
  - exists i, u, l, h, lo, r. cbn. rewrite Hhi, Hlo, Hre. unfold attr_index, Py.index.
    rewrite !list_lookup_insert_eq by assumption. rewrite Hh, Hlo', Hr.
    repeat (split; [first [assumption|reflexivity]|]).
    intros j Hj. rewrite !list_lookup_insert_ne by congruence. repeat split; reflexivity.
Qed.

(** The limits of a fresh axis, reversed. *)
Lemma reverse_limit_signs_twice_witness :
  exists s1,
    _reverse_limit_signs 1 (one_axis false 0 []) = Return tt s1
    /\ _reverse_limit_signs 1 s1 = Return tt (one_axis false 0 [])
    /\ _stage_upper_limit_um s1 = [Some (-12700)%float; None; None].
Proof.
  eexists.
  eassert (H : _reverse_limit_signs 1 (one_axis false 0 []) = Return tt _)
    by (vm_compute; reflexivity).
  split; [exact H|]. split; [exact (proj1 (reverse_limit_signs_twice _ _ _ H))|].
  vm_compute. reflexivity.
Defined.


(** ** Setting the encoder count to zero *)

Lemma wait_for_zero_spec channel : forall budget s,
  (unread s < budget)%nat ->
  match wait_for_zero budget channel s with
  | Return _ s' =>
      s' = set_port (port s') s /\ last_reading s' = Some 0
      /\ exists queries,
           written (port s') = written (port s) ++ queries /\ Forall is_query queries
  | Raise _ _ | Blocked _ => True
  | Spent => False
  end.
Proof.
  induction budget as [|b IH]; intros s Hb; [lia|].
  cbn [wait_for_zero]. munfold. rewrite get_encoder_value_outcome.
  destruct (query_outcome channel s) as [v s1|e s1|s1|] eqn:Hq; try exact I;
    [|exact (query_outcome_not_spent _ _ Hq)].
  pose proof (query_outcome_uses_a_reply _ _ _ _ Hq) as Hm.
  destruct (query_outcome_return _ _ _ _ Hq) as (Es & L & i & cb & _ & _ & W & _).
  destruct (v =? 0) eqn:Hv.
  - apply Z.eqb_eq in Hv. subst v. split; [exact Es|]. split; [exact L|].
    exists [query_frame cb]. split; [exact W|]. repeat constructor. exists cb. reflexivity.
  - specialize (IH s1 ltac:(lia)).
    destruct (wait_for_zero b channel s1) as [[] s2| | |]; try exact I; [|exact IH].
    destruct IH as (Es2 & L2 & qs & W2 & F2).
    split; [rewrite Es2, Es at 1; reflexivity|]. split; [exact L2|].
    exists (query_frame cb :: qs). split.
    + rewrite W2, W, <- app_assoc. reflexivity.
    + constructor; [exists cb; reflexivity|exact F2].
Qed.

Lemma zero_and_wait_outcome channel s :
  match zero_and_wait channel s with
  | Return _ s' =>
      exists i cb s1 after,
        Py.dict_zip_get (channels s) (_internal_channels s) channel = Py.Ok i
        /\ Py.to_bytes (Z.of_nat i) 2 false = Py.Ok cb
        /\ s1 = set_port (port s1) s /\ last_reading s1 = Some 0
        /\ written (port s1) = written (port s) ++ zero_frame cb [0; 0; 0; 0] :: after
        /\ Forall is_query after
        /\ s' = set_current (<[i := Some 0]> (_current_encoder_value s)) s1
  | Raise _ _ | Blocked _ => True
  | Spent => False
  end.
Proof.
  unfold zero_and_wait, internal_channel. munfold.
  mcase (Py.dict_zip_get (channels s) (_internal_channels s) channel); [|exact I].
  mcase (Py.to_bytes (Z.of_nat a) 2 false); [|exact I].
  change (Py.to_bytes 0 4 true) with (Py.Ok [0; 0; 0; 0]). mrew.
  set (frame := zero_frame a0 [0; 0; 0; 0]).
  destruct (stages s !! a) as [[name|]|] eqn:Hs.
  - rewrite (send_command_outcome _ _ _ _ _ E Hs).
    destruct (length _ =? 0)%nat eqn:Hb; [|exact I].
    set (s0 := set_port (serial_write frame (port s)) s).
    assert (Hm : (unread s0 < zero_budget s0)%nat).
    { unfold unread, zero_budget. destruct (in_buffer (port s0)); lia. }
    pose proof (wait_for_zero_spec channel _ _ Hm) as HW.
    destruct (wait_for_zero (zero_budget s0) channel s0) as [[] s1| | |];
      try exact I; [|exact HW].
    destruct HW as (Es1 & L1 & qs & W1 & F1).
    assert (Hf : channels s1 = channels s /\ _internal_channels s1 = _internal_channels s
                 /\ _current_encoder_value s1 = _current_encoder_value s)
      by (rewrite Es1; auto).
    destruct Hf as (F2 & F3 & F4). rewrite F2, F3, E. msimpl.
    unfold Py.store. rewrite F4.
    destruct (a <? length (_current_encoder_value s))%nat; [|exact I]. msimpl.
    exists a, a0, s1, qs. split; [reflexivity|]. split; [exact E0|].
    split; [rewrite Es1 at 1; reflexivity|]. split; [exact L1|].
    split; [rewrite W1; unfold s0; cbn [port set_port written serial_write];
            rewrite <- app_assoc; reflexivity|].
    split; [exact F1|reflexivity].
  - unfold _send, internal_channel, Py.index. munfold. mrew. exact I.
  - unfold _send, internal_channel, Py.index. munfold. mrew. exact I.
Qed.

(** X8.  [_set_encoder_value_to_zero] sends the command that zeroes the
    encoder count and then reads the position until the device reports 0:
    when it returns, the last reading was 0 and 0 is the stored current
    encoder value of the channel.  Nothing else of the object changes: the
    limits, the scan points, the retract point and a pending target are
    those of before, and no move command is sent.  Before the command
    there is one position query when [verbose] is set, none otherwise. *)
Theorem zeroing_waits_for_zero channel s :
  _set_encoder_value_to_zero channel s <> Spent
  /\ forall s',
       _set_encoder_value_to_zero channel s = Return tt s' ->
       exists i cb s1 before after,
         Py.dict_zip_get (channels s) (_internal_channels s) channel = Py.Ok i
         /\ Py.to_bytes (Z.of_nat i) 2 false = Py.Ok cb
         /\ s1 = set_port (port s1) s /\ last_reading s1 = Some 0
         /\ written (port s1)
            = written (port s) ++ before ++ zero_frame cb [0; 0; 0; 0] :: after
         /\ Forall is_query before /\ Forall is_query after
         /\ length before = (if verbose s then 1 else 0)%nat
         /\ s' = set_current (<[i := Some 0]> (_current_encoder_value s)) s1.
Proof.
  assert (H : match _set_encoder_value_to_zero channel s with
              | Return _ s' =>
                  exists i cb s1 before after,
                    Py.dict_zip_get (channels s) (_internal_channels s) channel = Py.Ok i
                    /\ Py.to_bytes (Z.of_nat i) 2 false = Py.Ok cb
                    /\ s1 = set_port (port s1) s /\ last_reading s1 = Some 0
                    /\ written (port s1)
                       = written (port s) ++ before ++ zero_frame cb [0; 0; 0; 0] :: after
                    /\ Forall is_query before /\ Forall is_query after
                    /\ length before = (if verbose s then 1 else 0)%nat
                    /\ s' = set_current (<[i := Some 0]> (_current_encoder_value s)) s1
              | Raise _ _ | Blocked _ => True
              | Spent => False
              end).
  { unfold _set_encoder_value_to_zero, assert_channel, self_verbose. munfold.
    mcase (Py.contains (channels s) channel); [|exact I].
    destruct (verbose s) eqn:Hv; mrew.
    - rewrite get_encoder_value_outcome.
      destruct (query_outcome channel s) as [v s0|e s0|s0|] eqn:Hq; try exact I;
        [|exact (query_outcome_not_spent _ _ Hq)].
      destruct (query_outcome_return _ _ _ _ Hq) as (Es & _ & i & cb & _ & _ & W & _).
      pose proof (zero_and_wait_outcome channel s0) as HZ.
      destruct (zero_and_wait channel s0) as [[] s'| | |]; try exact I; [|exact HZ].
      destruct HZ as (i' & cb' & s1 & after & Hd & Hb & Es1 & L1 & W1 & F1 & ->).
      exists i', cb', s1, [query_frame cb], after.
      assert (Hf : channels s0 = channels s /\ _internal_channels s0 = _internal_channels s
                   /\ _current_encoder_value s0 = _current_encoder_value s)
        by (rewrite Es; auto).
      destruct Hf as (F2 & F3 & F4). rewrite F2, F3 in Hd. rewrite F4.
      split; [exact Hd|]. split; [exact Hb|].
      split; [rewrite Es1, Es at 1; reflexivity|]. split; [exact L1|].
      split; [rewrite W1, W, <- app_assoc; reflexivity|].
      split; [repeat constructor; exists cb; reflexivity|].
      split; [exact F1|]. split; reflexivity.
    - pose proof (zero_and_wait_outcome channel s) as HZ.
      destruct (zero_and_wait channel s) as [[] s'| | |]; try exact I; [|exact HZ].
      destruct HZ as (i' & cb' & s1 & after & Hd & Hb & Es1 & L1 & W1 & F1 & ->).
      exists i', cb', s1, [], after. repeat (split; [first [assumption|constructor]|]).
      reflexivity. }
  split.
  - intros E. rewrite E in H. exact H.
  - intros s' E. rewrite E in H. exact H.
Qed.

(** A stage at encoder value 40 whose count drops to 0 after two readings. *)
Lemma zeroing_waits_for_zero_witness :
  exists s',
    _set_encoder_value_to_zero 1
        (one_axis false 40 [[]; position_reply 0 40; position_reply 0 0])
      = Return tt s'
    /\ _current_encoder_value s' !! 0%nat = Some (Some 0).
Proof.
  eexists.
  eassert (H : _set_encoder_value_to_zero 1
                 (one_axis false 40 [[]; position_reply 0 40; position_reply 0 0])
               = Return tt _) by (vm_compute; reflexivity).
  split; [exact H|].
  destruct (proj2 (zeroing_waits_for_zero _ _) _ H)
    as (i & cb & s1 & before & after & Hd & _ & _ & _ & _ & _ & _ & _ & ->).
  vm_compute in Hd. injection Hd as <-. reflexivity.
Defined.


(** ** The move command *)

(** X9.  A move command for an encoder value that fits 32 bits, on an idle
    channel whose device stays silent: the frame written is
    [53 04 06 00 00 00], the internal channel on two bytes and the target
    on four, and these four bytes are read back as the target by the
    decoding of a position reply.  The target becomes the pending value of
    the channel; the current encoder value is not touched. *)
Theorem move_command_carries_the_target channel i name n s :
  Py.contains (channels s) channel = true ->
  Py.dict_zip_get (channels s) (_internal_channels s) channel = Py.Ok i ->
  Z.of_nat i < 65536 ->
  stages s !! i = Some (Some name) ->
  _pending_encoder_value s !! i = Some None ->
  in_buffer (port s) ++ hd [] (replies (port s)) = [] ->
  - 2 ^ 31 <= n < 2 ^ 31 ->
  exists b0 b1 b2 b3 s',
    _move_to_encoder_value channel n false s = Return tt s'
    /\ written (port s')
       = written (port s)
         ++ [[83; 4; 6; 0; 0; 0; Z.of_nat i mod 256; Z.of_nat i / 256 mod 256; b0; b1; b2; b3]]
    /\ 0 <= b0 < 256 /\ 0 <= b1 < 256 /\ 0 <= b2 < 256 /\ 0 <= b3 < 256
    /\ int32_le b0 b1 b2 b3 = n
    /\ Py.from_bytes_signed [b0; b1; b2; b3] = n
    /\ _pending_encoder_value s' = <[i := Some n]> (_pending_encoder_value s)
    /\ _current_encoder_value s' = _current_encoder_value s.
Proof.
  intros Hc Hd Hi Hs Hp Hq Hn.
  destruct (to_bytes_int32 n Hn) as (b0 & b1 & b2 & b3 & Hb & R0 & R1 & R2 & R3 & Hv).
  assert (Hcb : Py.to_bytes (Z.of_nat i) 2 false
                = Py.Ok [Z.of_nat i mod 256; Z.of_nat i / 256 mod 256]).
  { unfold Py.to_bytes. replace (8 * Z.of_nat 2) with 16 by reflexivity.
    destruct (0 <=? Z.of_nat i) eqn:E1; [|lia].
    destruct (Z.of_nat i <? 2 ^ 16) eqn:E2; [|lia]. reflexivity. }
  exists b0, b1, b2, b3. eexists.
  rewrite (move_to_encoder_value_idle _ _ _ _ _ _ Hc Hd Hs Hp), Hb, Hcb. cbv zeta.
  rewrite Hq. cbn [length Nat.eqb].
  split; [reflexivity|]. split; [reflexivity|].
  repeat (split; [assumption|]).
  split; [rewrite from_bytes_signed_int32; exact Hv|]. split; reflexivity.
Qed.

(** A move to encoder value -59999 on channel 1. *)
Lemma move_command_carries_the_target_witness :
  exists b0 b1 b2 b3 s',
    _move_to_encoder_value 1 (-59999) false (one_axis false 0 []) = Return tt s'
    /\ written (port s')
       = written (port (one_axis false 0 [])) ++ [[83; 4; 6; 0; 0; 0; 0; 0; b0; b1; b2; b3]]
    /\ int32_le b0 b1 b2 b3 = -59999.
Proof.
  assert (H1 : Py.contains (channels (one_axis false 0 [])) 1 = true)
    by (vm_compute; reflexivity).
  assert (H2 : Py.dict_zip_get (channels (one_axis false 0 []))
                 (_internal_channels (one_axis false 0 [])) 1 = Py.Ok 0%nat)
    by (vm_compute; reflexivity).
  assert (H3 : stages (one_axis false 0 []) !! 0%nat = Some (Some "ZFM2020"%string))
    by (vm_compute; reflexivity).
  assert (H4 : _pending_encoder_value (one_axis false 0 []) !! 0%nat = Some None)
    by (vm_compute; reflexivity).
  assert (H5 : in_buffer (port (one_axis false 0 []))
               ++ hd [] (replies (port (one_axis false 0 []))) = [])
    by (vm_compute; reflexivity).
  destruct (move_command_carries_the_target 1 0%nat _ (-59999) _ H1 H2 ltac:(cbn; lia) H3 H4 H5
              ltac:(lia))
    as (b0 & b1 & b2 & b3 & s' & Hr & Hw & _ & _ & _ & _ & Hv & _).
  exists b0, b1, b2, b3, s'. split; [exact Hr|]. split; [exact Hw|exact Hv].
Defined.


(** X10.  An encoder value that does not fit a signed 32-bit integer is
    refused with OverflowError when the command is built: on an idle channel
    nothing has been sent and nothing has changed. *)
Theorem move_beyond_32_bits_is_refused channel i n block s :
  Py.contains (channels s) channel = true ->
  Py.dict_zip_get (channels s) (_internal_channels s) channel = Py.Ok i ->
  _pending_encoder_value s !! i = Some None ->
  n < - 2 ^ 31 \/ 2 ^ 31 <= n ->
  _move_to_encoder_value channel n block s = Raise Py.OverflowError s.
Proof.
  intros Hc Hd Hp Hn.
  assert (Hb : Py.to_bytes n 4 true = Py.Err Py.OverflowError).
  { unfold Py.to_bytes. replace (8 * Z.of_nat 4) with 32 by reflexivity.
    replace (32 - 1) with 31 by reflexivity.
    destruct (- 2 ^ 31 <=? n) eqn:E1; [|reflexivity].
    destruct (n <? 2 ^ 31) eqn:E2; [lia|reflexivity]. }
  unfold _move_to_encoder_value, assert_channel, internal_channel, pending_at, Py.index.
  munfold. mrew. reflexivity.
Qed.

(** The first value past the range, on channel 1. *)
Lemma move_beyond_32_bits_is_refused_witness :
  _move_to_encoder_value 1 (2 ^ 31) false (one_axis false 0 [])
    = Raise Py.OverflowError (one_axis false 0 []).
Proof.
  apply (move_beyond_32_bits_is_refused 1 0%nat).
  - vm_compute. reflexivity.
  - vm_compute. reflexivity.
  - vm_compute. reflexivity.
  - right. lia.
Defined.

(** X11.  When the device answers a move command with any byte, the
    command has gone out but [_move_to_encoder_value] fails on the check of
    the input buffer before it records the target: the channel still has no
    pending value, and a [_finish_move] that follows returns at once. *)
Theorem answered_move_is_not_recorded channel i name n block s :
  Py.contains (channels s) channel = true ->
  Py.dict_zip_get (channels s) (_internal_channels s) channel = Py.Ok i ->
  Z.of_nat i < 65536 ->
  stages s !! i = Some (Some name) ->
  _pending_encoder_value s !! i = Some None ->
  - 2 ^ 31 <= n < 2 ^ 31 ->
  in_buffer (port s) ++ hd [] (replies (port s)) <> [] ->
  exists s' frame,
    _move_to_encoder_value channel n block s = Raise (Py.AssertionError Py.LinkDesync) s'
    /\ written (port s') = written (port s) ++ [frame]
    /\ is_move_frame frame = true
    /\ _pending_encoder_value s' = _pending_encoder_value s
    /\ _current_encoder_value s' = _current_encoder_value s
    /\ forall verbose, _finish_move channel verbose s' = Return None s'.
Proof.
  intros Hc Hd Hi Hs Hp Hn Hq.
  destruct (to_bytes_int32 n Hn) as (b0 & b1 & b2 & b3 & Hb & _).
  assert (Hcb : Py.to_bytes (Z.of_nat i) 2 false
                = Py.Ok [Z.of_nat i mod 256; Z.of_nat i / 256 mod 256]).
  { unfold Py.to_bytes. replace (8 * Z.of_nat 2) with 16 by reflexivity.
    destruct (0 <=? Z.of_nat i) eqn:E1; [|lia].
    destruct (Z.of_nat i <? 2 ^ 16) eqn:E2; [|lia]. reflexivity. }
  eexists _, _.
  rewrite (move_to_encoder_value_idle _ _ _ _ _ _ Hc Hd Hs Hp), Hb, Hcb. cbv zeta.
  destruct (length _ =? 0)%nat eqn:E.
  { apply Nat.eqb_eq, length_zero_iff_nil in E. contradiction. }
  split; [reflexivity|]. split; [reflexivity|]. split; [reflexivity|].
  split; [reflexivity|]. split; [reflexivity|].
  intros verbose. apply (finish_move_idle _ _ _ i); assumption.
Qed.

(** A device that acknowledges the move command with one byte. *)
Lemma answered_move_is_not_recorded_witness :
  exists s' frame,
    _move_to_encoder_value 1 100 true (one_axis false 0 [[1]])
      = Raise (Py.AssertionError Py.LinkDesync) s'
    /\ written (port s') = written (port (one_axis false 0 [[1]])) ++ [frame]
    /\ is_move_frame frame = true
    /\ _pending_encoder_value s' = _pending_encoder_value (one_axis false 0 [[1]]).
Proof.
  destruct (answered_move_is_not_recorded 1 0%nat "ZFM2020"%string 100 true
              (one_axis false 0 [[1]]))
    as (s' & frame & H1 & H2 & H3 & H4 & _);
    try (vm_compute; reflexivity); try (cbn; lia); try (vm_compute; discriminate).
  exists s', frame. auto.
Defined.


(** ** The nudge of the minimum-motion guard *)

Lemma check_min_motion_ext mv mv' channel target s :
  mv channel 10%float true true false s = mv' channel 10%float true true false s ->
  check_min_motion_body mv channel target s = check_min_motion_body mv' channel target s.
Proof.
  intros H.
  unfold check_min_motion_body, internal_channel, pending_at, current_at, Py.index.
  munfold.
  mcase (Py.dict_zip_get (channels s) (_internal_channels s) channel); [|reflexivity].
  mcase (_pending_encoder_value s !! a); [|reflexivity].
  destruct (Py.opt_truthy Py.int_truthy o) eqn:Ht; mrew.
  - case_bool_decide; [reflexivity|]. mrew.
    destruct o as [p|]; mrew; [|reflexivity].
    destruct (Z.abs (target - p) <=? _min_encoder_motion s); [|reflexivity].
    rewrite H. reflexivity.
  - mcase (_current_encoder_value s !! a); [|reflexivity].
    case_bool_decide; [reflexivity|]. mrew.
    destruct o0 as [c|]; mrew; [|reflexivity].
    destruct (Z.abs (target - c) <=? _min_encoder_motion s); [|reflexivity].
    rewrite H. reflexivity.
Qed.

Lemma move_um_body_ext mv mv' channel um relative block verbose s :
  mv channel 10%float true true false s = mv' channel 10%float true true false s ->
  move_um_body mv channel um relative block verbose s
  = move_um_body mv' channel um relative block verbose s.
Proof.
  intros H. unfold move_um_body, legalize_move_um_body, assert_channel. munfold.
  mcase (Py.contains (channels s) channel); [|reflexivity].
  destruct (target_encoder_reads channel um relative s) as [[t Ht]|[e Ht]]; rewrite Ht;
    [|reflexivity].
  rewrite (check_min_motion_ext mv mv' channel t s H). reflexivity.
Qed.

Lemma ten_um_is_47_counts rev : encoder_of step_um rev 10%float = Py.Ok (if rev then -47 else 47).
Proof. destruct rev; vm_compute; reflexivity. Qed.

(** The nudge itself asks for no nudge. *)
Lemma nudge_is_far channel i rev mv mv' s :
  Py.dict_zip_get (channels s) (_internal_channels s) channel = Py.Ok i ->
  _stage_conversion_um s !! i = Some (Some step_um) ->
  reverse s !! i = Some rev ->
  _min_encoder_motion s = 5 ->
  move_um_body mv channel 10%float true true false s
  = move_um_body mv' channel 10%float true true false s.
Proof.
  intros Hd Hc Hr Hm.
  unfold move_um_body, legalize_move_um_body, assert_channel. munfold.
  mcase (Py.contains (channels s) channel); [|reflexivity].
  assert (Hck : forall t r, Z.abs (t - r) = 47 ->
            reference_encoder i s = Some r ->
            check_min_motion_body mv channel t s = check_min_motion_body mv' channel t s).
  { intros t r Ht Hr'. rewrite !(check_min_motion_spec _ _ _ _ _ _ Hd Hr'), Hm.
    destruct (t =? r) eqn:E1; [reflexivity|].
    destruct (Z.abs (t - r) <=? 5) eqn:E2; [lia|reflexivity]. }
  unfold target_encoder. munfold.
  rewrite (encoder_value_from_um_pure _ _ _ _ _ _ Hd Hc Hr), ten_um_is_47_counts.
  unfold internal_channel, pending_at, current_at, Py.index. munfold. mrew.
  mcase (_pending_encoder_value s !! i); [|reflexivity].
  destruct (Py.opt_truthy Py.int_truthy o) eqn:Ht; mrew.
  - destruct o as [p|]; [|discriminate]. mrew.
    rewrite (Hck _ p); [reflexivity| |].
    + destruct rev; lia.
    + unfold reference_encoder. rewrite E0. cbn [Py.opt_truthy] in *. rewrite Ht. reflexivity.
  - mcase (_current_encoder_value s !! i); [|reflexivity].
    destruct o0 as [c|]; mrew; [|reflexivity].
    rewrite (Hck _ c); [reflexivity| |].
    + destruct rev; lia.
    + unfold reference_encoder. rewrite E0. cbn [Py.opt_truthy] in *. rewrite Ht, E1.
      reflexivity.
Qed.

(** X12.  The nudge of the minimum-motion guard is a relative move of
    10 um, 47 counts of the supported stage, so that the guard that runs
    inside the nudge never asks for a second nudge: [move_um] goes at most
    two calls deep, and its result is the one a recursion limit of two
    calls gives. *)
Theorem nudge_does_not_nest channel i rev s :
  Py.dict_zip_get (channels s) (_internal_channels s) channel = Py.Ok i ->
  _stage_conversion_um s !! i = Some (Some step_um) ->
  reverse s !! i = Some rev ->
  _min_encoder_motion s = 5 ->
  (forall mv mv',
     move_um_body mv channel 10%float true true false s
     = move_um_body mv' channel 10%float true true false s)
  /\ (forall depth um relative block verbose,
        move_um_at (S (S depth)) channel um relative block verbose s
        = move_um_at 2 channel um relative block verbose s)
  /\ (forall um relative block verbose,
        move_um channel um relative block verbose s
        = move_um_at 2 channel um relative block verbose s).
Proof.
  intros Hd Hc Hr Hm.
  assert (A : forall mv mv',
            move_um_body mv channel 10%float true true false s
            = move_um_body mv' channel 10%float true true false s)
    by (intros; exact (nudge_is_far _ _ _ _ _ _ Hd Hc Hr Hm)).
  assert (B : forall depth um relative block verbose,
            move_um_at (S (S depth)) channel um relative block verbose s
            = move_um_at 2 channel um relative block verbose s).
  { intros depth um relative block verbose. cbn [move_um_at].
    apply move_um_body_ext. apply A. }
  split; [exact A|]. split; [exact B|].
  intros um relative block verbose. exact (B 331%nat um relative block verbose).
Qed.

(** Channel 1 of a fresh controller. *)
Lemma nudge_does_not_nest_witness :
  move_um 1 0x1.199999999999ap+0%float false true false
      (one_axis false 0 [[]; position_reply 0 47; []; position_reply 0 5])
  = move_um_at 2 1 0x1.199999999999ap+0%float false true false
      (one_axis false 0 [[]; position_reply 0 47; []; position_reply 0 5]).
Proof.
  refine (proj2 (proj2 (nudge_does_not_nest 1 0%nat false _ _ _ _ _)) _ _ _ _);
    vm_compute; reflexivity.
Defined.


(** ** Requests of less than one count *)

Lemma small_request_is_zero_counts rev um v :
  exact um = Some v -> (Qabs v <= 21 # 100)%Q ->
  encoder_of step_um rev um = Py.Ok 0.
Proof.
  intros Hv Hb.
  pose proof (exact_real _ _ Hv) as HV.
  apply Qabs_Qle_condition in Hb. destruct Hb as [Hb1 Hb2].
  apply Qle_Rle in Hb1, Hb2. rewrite Q2R_opp in Hb1.
  assert (H21 : Q2R (21 # 100) = (21 / 100)%R) by (unfold Q2R; cbn; lra).
  rewrite H21 in Hb1, Hb2.
  destruct (exact_is_rounded _ _ Hv) as (sx & Ex & Hrum).
  rewrite (realv_rounded _ _ _ Hrum) in HV.
  pose proof (mag_nonneg (Prim2SF um)) as HM0.
  assert (HM : (mag (Prim2SF um) <= 21 / 100)%R) by (destruct sx; lra).
  destruct (div_step_real um sx Ex Hrum ltac:(lra)) as [Hrq Hq].
  destruct (int_of_float_real _ _ _ Hrq) as (a & Ht & Ha0 & Ha).
  apply Rabs_bounds in Hq.
  assert (Hd : pow2 (-36) = (/ 68719476736)%R).
  { change (-36) with (Z.opp 36). rewrite pow2_neg by lia. reflexivity. }
  rewrite Hd in Hq.
  assert (Ha1 : a < 1) by (apply lt_IZR; lra).
  assert (a = 0) as -> by lia.
  unfold encoder_of, Py.float_div. change (step_um =? 0)%float with false.
  cbn [Py.rbind]. rewrite Ht. destruct sx, rev; reflexivity.
Qed.

Lemma get_position_um_polled channel verbose s s' :
  final_state (get_position_um channel verbose s) = Some s' -> polled s s'.
Proof.
  unfold get_position_um, assert_channel. munfold.
  destruct (Py.contains (channels s) channel); [|intros [= <-]; apply polled_refl].
  rewrite get_encoder_value_outcome.
  destruct (query_outcome channel s) as [v s1|e s1|s1|] eqn:Hq; [| | |discriminate].
  - assert (P : polled s s1) by (apply (query_outcome_polled channel); rewrite Hq; reflexivity).
    destruct (um_from_encoder_value_reads channel v s1) as [[um ->]|[e ->]];
      intros [= <-]; exact P.
  - intros [= <-]. apply (query_outcome_polled channel). rewrite Hq. reflexivity.
  - intros [= <-]. apply (query_outcome_polled channel). rewrite Hq. reflexivity.
Qed.

(** X13.  A relative request of less than one count is dropped.  When the
    requested distance is at most 0.21 um in magnitude (one count is
    0.2116667 um) it converts to zero counts, the target is the encoder
    value the stage is at or heading for, and [move_um] returns [None] and
    sends no move command: small steps do not add up.  With [self.verbose]
    unset nothing is sent and nothing changes; with [self.verbose] set the
    position is read once, for the message that is printed. *)
Theorem small_relative_move_is_dropped channel i rev r um v block verbose s :
  Py.contains (channels s) channel = true ->
  Py.dict_zip_get (channels s) (_internal_channels s) channel = Py.Ok i ->
  _stage_conversion_um s !! i = Some (Some step_um) ->
  reverse s !! i = Some rev ->
  reference_encoder i s = Some r ->
  exact um = Some v -> (Qabs v <= 21 # 100)%Q ->
  _encoder_value_from_um channel um s = Return 0 s
  /\ move_um channel um true block verbose s
     = (if self_verbose s
        then (run get_position_um channel false then ret None) s
        else Return None s)
  /\ (forall legal s', move_um channel um true block verbose s <> Return (Some legal) s')
  /\ (forall s', final_state (move_um channel um true block verbose s) = Some s' ->
        move_frames s' = move_frames s
        /\ _pending_encoder_value s' = _pending_encoder_value s
        /\ _current_encoder_value s' = _current_encoder_value s).
Proof.
  intros Hc Hd Hcv Hr Href Hv Hb.
  assert (He : _encoder_value_from_um channel um s = Return 0 s).
  { rewrite (encoder_value_from_um_pure _ _ _ _ _ _ Hd Hcv Hr),
      (small_request_is_zero_counts rev um v Hv Hb). reflexivity. }
  split; [exact He|].
  assert (Ht : target_encoder channel um true s = Return r s).
  { unfold target_encoder. munfold. rewrite He.
    unfold internal_channel, pending_at, current_at, Py.index. munfold. mrew.
    unfold reference_encoder in Href.
    destruct (_pending_encoder_value s !! i) as [o|] eqn:Hp; [|discriminate]. mrew.
    destruct (Py.opt_truthy Py.int_truthy o) eqn:Hto; mrew.
    - subst o. mrew. reflexivity.
    - destruct (_current_encoder_value s !! i) as [c|] eqn:Hcur; [|discriminate]. mrew.
      subst c. reflexivity. }
  assert (Hm : move_um channel um true block verbose s
               = (if self_verbose s
                  then (run get_position_um channel false then ret None) s
                  else Return None s)).
  { unfold move_um, recursion_limit. cbn [move_um_at].
    unfold move_um_body, legalize_move_um_body, assert_channel, self_verbose. munfold.
    rewrite Hc. msimpl. rewrite Hc. msimpl. rewrite Ht.
    rewrite (check_min_motion_spec _ _ _ _ _ _ Hd Href), Z.eqb_refl. msimpl.
    cbn [negb Py.opt_truthy].
    let b := eval cbv delta [self_verbose] beta in (self_verbose s) in destruct b;
      [|reflexivity].
    destruct (get_position_um channel false s); reflexivity. }
  split; [exact Hm|]. rewrite Hm.
  pose proof (get_position_um_polled channel false s) as P.
  destruct (self_verbose s).
  - munfold. destruct (get_position_um channel false s) as [x s1|e s1|s1|];
      cbn [final_state] in P.
    + split; [discriminate|]. intros s' [= <-]. specialize (P s1 eq_refl).
      split; [exact (polled_move_frames _ _ P)|].
      destruct (polled_fields _ _ P) as (_ & _ & F3 & F4). auto.
    + split; [discriminate|]. intros s' [= <-]. specialize (P s1 eq_refl).
      split; [exact (polled_move_frames _ _ P)|].
      destruct (polled_fields _ _ P) as (_ & _ & F3 & F4). auto.
    + split; [discriminate|]. intros s' [= <-]. specialize (P s1 eq_refl).
      split; [exact (polled_move_frames _ _ P)|].
      destruct (polled_fields _ _ P) as (_ & _ & F3 & F4). auto.
    + split; discriminate.
  - split; [discriminate|]. intros s' [= <-]. auto.
Qed.

(** A step of 0.1 um on channel 1: with [self.verbose] unset, and with
    [self.verbose] set, where one position query goes out. *)
Lemma small_relative_move_is_dropped_witness :
  self_verbose (one_axis false 100 []) = false
  /\ move_um 1 0x1.999999999999ap-4%float true true false (one_axis false 100 [])
     = Return None (one_axis false 100 [])
  /\ self_verbose (bench true [Some "ZFM2020"%string; None; None] [false; false; false]
                     [position_reply 0 100; position_reply 0 100]) = true
  /\ exists s',
       move_um 1 0x1.999999999999ap-4%float true true false
         (bench true [Some "ZFM2020"%string; None; None] [false; false; false]
            [position_reply 0 100; position_reply 0 100])
       = Return None s'
       /\ written (port s') = [query_frame [0]; query_frame [0]].
Proof.
  split; [reflexivity|].
  split.
  - refine (proj1 (proj2 (small_relative_move_is_dropped 1 0%nat false 100
                            0x1.999999999999ap-4%float
                            (Qmake 7205759403792794 (2 ^ 56)) true false
                            (one_axis false 100 []) _ _ _ _ _ _ _)));
      try (vm_compute; reflexivity).
    vm_compute. discriminate.
  - split; [vm_compute; reflexivity|].
    eexists. split; vm_compute; reflexivity.
Defined.


(** ** How long a wait lasts *)

Lemma query_outcome_writes channel s s' :
  final_state (query_outcome channel s) = Some s' ->
  wall_clock s' = wall_clock s /\ clock_reads s' = clock_reads s
  /\ exists queries,
       written (port s') = written (port s) ++ queries /\ (length queries <= 1)%nat.
Proof.
  unfold query_outcome.
  repeat match goal with
         | |- context [match ?x with _ => _ end] => destruct x eqn:?
         end; cbn [final_state]; intros [= <-];
    (split; [reflexivity|]); (split; [reflexivity|]);
    try (exists []; rewrite app_nil_r; split; [reflexivity|cbn; lia]).
  all: match goal with
       | H : serial_read _ _ = Some _ |- _ =>
           unfold serial_read in H;
           destruct (_ <=? _)%nat in H; [injection H as <- <-|discriminate]
       | _ => idtac
       end.
  all: eexists [_]; cbn; split; [reflexivity|lia].
Qed.

Ltac stay :=
  split; [reflexivity|]; split; [cbn; lia|];
  exists []; cbn; rewrite app_nil_r; split; [reflexivity|lia].

(** Once a reading of the clock is past the deadline the loop has at most
    as many turns left as there are readings before it. *)
Lemma poll_gives_up channel timeout : forall n budget cur s s',
  (timeout <? wall_clock s (clock_reads s + n))%float = true ->
  final_state (poll budget channel timeout cur s) = Some s' ->
  wall_clock s' = wall_clock s
  /\ (clock_reads s' <= clock_reads s + S n)%nat
  /\ exists queries,
       written (port s') = written (port s) ++ queries /\ (length queries <= n)%nat.
Proof.
  induction n as [|n IH]; intros budget cur s s' Ht;
    destruct budget as [|b]; cbn [poll];
    unfold internal_channel, pending_at, Py.index; munfold.
  all: mcase (Py.dict_zip_get (channels s) (_internal_channels s) channel);
    [|intros [= <-]; stay].
  all: mcase (_pending_encoder_value s !! a); [|intros [= <-]; stay].
  all: case_bool_decide; [intros [= <-]; stay|].
  - rewrite Nat.add_0_r in Ht. rewrite Ht. destruct o; intros [= <-]; stay.
  - rewrite Nat.add_0_r in Ht. rewrite Ht. destruct o; intros [= <-]; stay.
  - destruct (timeout <? wall_clock s (clock_reads s))%float;
      [destruct o; intros [= <-]; stay|discriminate].
  - destruct (timeout <? wall_clock s (clock_reads s))%float;
      [destruct o; intros [= <-]; stay|].
    rewrite get_encoder_value_outcome.
    set (s1 := set_clock_reads (S (clock_reads s)) s).
    pose proof (query_outcome_writes channel s1) as Q.
    destruct (query_outcome channel s1) as [v s2|e s2|s2|] eqn:Hq; cbn [final_state] in Q.
    + destruct (Q s2 eq_refl) as (W2 & C2 & q & Wq & Lq). cbn in W2, C2, Wq.
      intros Hf. apply IH in Hf.
      * destruct Hf as (W3 & C3 & q' & Wq' & Lq').
        split; [congruence|]. split; [lia|].
        exists (q ++ q'). rewrite Wq', Wq, app_assoc, length_app.
        split; [reflexivity|lia].
      * rewrite W2, C2. replace (S (clock_reads s) + n)%nat with (clock_reads s + S n)%nat by lia.
        exact Ht.
    + destruct (Q s2 eq_refl) as (W2 & C2 & q & Wq & Lq). cbn in W2, C2, Wq.
      intros [= <-]. split; [exact W2|]. split; [lia|]. exists q. split; [exact Wq|lia].
    + destruct (Q s2 eq_refl) as (W2 & C2 & q & Wq & Lq). cbn in W2, C2, Wq.
      intros [= <-]. split; [exact W2|]. split; [lia|]. exists q. split; [exact Wq|lia].
    + discriminate.
Qed.

(** X14.  [_finish_move] gives up at the first reading of the clock that is
    past the deadline, 6 s after the reading it takes at the start.  If
    reading number [n] of the loop (the first is number 0) is past the
    deadline, the call has ended, however it ends, after at most [n] waits:
    it has sent at most [n + 1] position queries and has read the clock at
    most [n + 2] times. *)
Theorem finish_move_gives_up_at_the_deadline channel verbose n s s' :
  (wall_clock s (clock_reads s) + 6 <? wall_clock s (clock_reads s + S n))%float = true ->
  final_state (_finish_move channel verbose s) = Some s' ->
  exists queries,
    written (port s') = written (port s) ++ queries
    /\ (length queries <= S n)%nat
    /\ (clock_reads s' <= clock_reads s + S (S n))%nat.
Proof.
  intros Ht.
  assert (Stay : exists queries,
            written (port s) = written (port s) ++ queries
            /\ (length queries <= S n)%nat
            /\ (clock_reads s <= clock_reads s + S (S n))%nat).
  { exists []. rewrite app_nil_r. split; [reflexivity|]. split; [cbn; lia|lia]. }
  unfold _finish_move, assert_channel, internal_channel, pending_at, Py.index. munfold.
  mcase (Py.contains (channels s) channel); [|intros [= <-]; exact Stay].
  mcase (Py.dict_zip_get (channels s) (_internal_channels s) channel);
    [|intros [= <-]; exact Stay].
  mcase (_pending_encoder_value s !! a); [|intros [= <-]; exact Stay].
  destruct o as [p|]; [|intros [= <-]; exact Stay].
  rewrite get_encoder_value_outcome.
  pose proof (query_outcome_writes channel s) as Q.
  destruct (query_outcome channel s) as [v s1|e s1|s1|] eqn:Hq; cbn [final_state] in Q;
    [| | |discriminate];
    destruct (Q s1 eq_refl) as (W1 & C1 & q & Wq & Lq);
    [|intros [= <-]; exists q; split; [exact Wq|]; split; lia
     |intros [= <-]; exists q; split; [exact Wq|]; split; lia].
  set (st := set_clock_reads (S (clock_reads s1)) s1).
  pose proof (poll_gives_up channel (wall_clock s1 (clock_reads s1) + 6)%float n
                (poll_budget st) v st) as G.
  assert (Hn : (wall_clock s1 (clock_reads s1) + 6
                <? wall_clock st (clock_reads st + n))%float = true).
  { cbn. rewrite W1, C1.
    replace (S (clock_reads s + n))%nat with (clock_reads s + S n)%nat by lia. exact Ht. }
  destruct (poll (poll_budget st) channel (wall_clock s1 (clock_reads s1) + 6)%float v st)
    as [enc s2|e s2|s2|]; cbn [final_state] in G; [| | |discriminate];
    destruct (G s2 Hn eq_refl) as (W2 & C2 & q' & Wq' & Lq'); cbn in W2, C2, Wq';
    (assert (Done : exists queries,
               written (port s2) = written (port s) ++ queries
               /\ (length queries <= S n)%nat
               /\ (clock_reads s2 <= clock_reads s + S (S n))%nat)
       by (exists (q ++ q'); rewrite Wq', Wq, app_assoc, length_app;
           split; [reflexivity|]; split; lia));
    [|intros [= <-]; exact Done|intros [= <-]; exact Done].
  msimpl.
  destruct (Py.dict_zip_get (channels s2) (_internal_channels s2) channel) as [i2|];
    msimpl; [|intros [= <-]; exact Done].
  unfold Py.store.
  destruct (i2 <? length (_current_encoder_value s2))%nat; msimpl; [|intros [= <-]; exact Done].
  match goal with |- context [_um_from_encoder_value channel enc ?t] =>
    destruct (um_from_encoder_value_reads channel enc t) as [[um Hu]|[e Hu]]; rewrite Hu
  end; msimpl; [|intros [= <-]; exact Done].
  destruct (Py.dict_zip_get (channels s2) (_internal_channels s2) channel) as [i3|];
    msimpl; [|intros [= <-]; exact Done].
  destruct (i3 <? length (_pending_encoder_value s2))%nat; msimpl; intros [= <-]; exact Done.
Qed.

(** A stage that stalls short of the target under the clock of the bench:
    reading number 60 of the loop is the first past the deadline, and the
    wait ends after 61 position queries with the stage where it was. *)
Lemma finish_move_gives_up_at_the_deadline_witness :
  exists um s1,
    _finish_move 1 false stalled = Return (Some (50, um)) s1
    /\ length (written (port s1)) = (length (written (port stalled)) + 61)%nat
    /\ exists queries,
         written (port s1) = written (port stalled) ++ queries
         /\ (length queries <= 61)%nat
         /\ (clock_reads s1 <= clock_reads stalled + 62)%nat.
Proof.
  eassert (H : _finish_move 1 false stalled = Return (Some (50, _)) _)
    by (vm_compute; reflexivity).
  eexists _, _. split; [exact H|]. split; [vm_compute; reflexivity|].
  apply (finish_move_gives_up_at_the_deadline 1 false 60 stalled).
  - vm_compute. reflexivity.
  - rewrite H. reflexivity.
Defined.



(** ** The encoder value that [move_um] commands *)

Lemma within_limits_value channel t legal s s' :
  within_limits channel t s = Return legal s' ->
  _um_from_encoder_value channel t s = Return legal s.
Proof.
  unfold within_limits. munfold.
  destruct (um_from_encoder_value_reads channel t s) as [[um Hu]|[e Hu]]; rewrite Hu;
    [|discriminate].
  intros H. f_equal.
  repeat match type of H with
         | context [match ?x with _ => _ end] => destruct x eqn:?
         end; try discriminate; injection H as <- _; reflexivity.
Qed.

(** The position of an encoder value of the travel other than 0 is not 0. *)
Lemma position_is_not_zero rev t legal :
  t <> 0 -> - travel_counts <= t <= travel_counts ->
  um_of step_um rev t = Py.Ok legal -> Py.float_truthy legal = true.
Proof.
  intros Ht Htr E1.
  destruct (Py.float_truthy legal) eqn:Hl; [reflexivity|exfalso].
  unfold Py.float_truthy in Hl. apply negb_false_iff in Hl.
  rewrite FloatAxioms.eqb_spec in Hl.
  assert (Hz : exists sg, legal = SF2Prim (S754_zero sg)).
  { rewrite <- (SF2Prim_Prim2SF legal).
    change (Prim2SF 0) with (S754_zero false) in Hl.
    destruct (Prim2SF legal) as [sg|[]| |[] m e]; try discriminate Hl. eauto. }
  destruct Hz as [sg ->].
  pose proof (near_travel rev t Htr) as Hn. unfold near in Hn. rewrite E1 in Hn.
  assert (E2 : encoder_of step_um rev (SF2Prim (S754_zero sg)) = Py.Ok 0)
    by (destruct sg, rev; vm_compute; reflexivity).
  rewrite E2 in Hn.
  destruct (um_of step_um rev 0) as [back|]; [|discriminate].
  apply andb_true_iff in Hn as [He _].
  assert (Hone : t = 1 \/ t = -1).
  { apply orb_true_iff in He as [He|He]; apply Z.eqb_eq in He; [congruence|].
    destruct (Z.sgn_spec t) as [[? Hs]|[[? Hs]|[? Hs]]]; rewrite Hs in He; lia. }
  destruct Hone as [-> | ->]; destruct sg, rev; vm_compute in E1; discriminate.
Qed.

(** X15.  [move_um] converts the request to an encoder value, the encoder
    value to the position it returns, and this position to an encoder
    value again, which is the one it commands.  The second conversion can
    lose a count: for a target [t] of the travel other than 0 the commanded
    value is [t] or the next count toward zero, while the position returned
    is that of [t]. *)
Theorem move_um_commands_the_reconverted_target
  channel i rev c t legal um relative block verbose s :
  Py.contains (channels s) channel = true ->
  Py.dict_zip_get (channels s) (_internal_channels s) channel = Py.Ok i ->
  _stage_conversion_um s !! i = Some (Some step_um) ->
  reverse s !! i = Some rev ->
  _min_encoder_motion s = 5 ->
  _pending_encoder_value s !! i = Some None ->
  _current_encoder_value s !! i = Some (Some c) ->
  target_encoder channel um relative s = Return t s ->
  5 < Z.abs (t - c) ->
  - travel_counts <= t <= travel_counts ->
  t <> 0 ->
  within_limits channel t s = Return legal s ->
  exists commanded,
    um_of step_um rev t = Py.Ok legal
    /\ encoder_of step_um rev legal = Py.Ok commanded
    /\ (commanded = t \/ commanded = t - Z.sgn t)
    /\ move_um channel um relative block verbose s
       = (run _move_to_encoder_value channel commanded block then
          run (if block then run _finish_move channel verbose then ret tt else ret tt) then
          run (if verbose then run get_position_um channel false then ret tt else ret tt) then
          ret (Some legal)) s.
Proof.
  intros Hc Hd Hcv Hr Hm Hp Hcur Ht Hfar Htr Hnz Hw.
  pose proof (within_limits_value _ _ _ _ _ Hw) as Hu.
  rewrite (um_from_encoder_value_pure _ _ _ _ _ _ Hd Hcv Hr) in Hu.
  pose proof (near_travel rev t Htr) as Hn. unfold near in Hn.
  destruct (um_of step_um rev t) as [um0|] eqn:E1; [|discriminate].
  injection Hu as ->.
  pose proof (position_is_not_zero rev t legal Hnz Htr E1) as Hl.
  destruct (encoder_of step_um rev legal) as [e|] eqn:E2; [|discriminate].
  destruct (um_of step_um rev e) as [back|]; [|discriminate].
  apply andb_true_iff in Hn as [He _].
  exists e. split; [reflexivity|]. split; [reflexivity|].
  split; [apply orb_true_iff in He as [He|He]; apply Z.eqb_eq in He; auto|].
  assert (Href : reference_encoder i s = Some c)
    by (unfold reference_encoder; rewrite Hp, Hcur; reflexivity).
  unfold move_um, recursion_limit. cbn [move_um_at].
  unfold move_um_body, legalize_move_um_body, assert_channel. munfold.
  rewrite Hc. msimpl. rewrite Hc. msimpl. rewrite Ht.
  rewrite (check_min_motion_spec _ _ _ _ _ _ Hd Href), Hm.
  destruct (t =? c) eqn:Eq; [lia|].
  destruct (Z.abs (t - c) <=? 5) eqn:Eq'; [lia|].
  cbn [negb]. rewrite Hw. cbn [Py.opt_truthy negb]. rewrite Hl. cbn [negb].
  rewrite (encoder_value_from_um_pure _ _ _ _ _ _ Hd Hcv Hr), E2. reflexivity.
Qed.

(** A move to 2051.1 um from encoder value 0: the target is 9690 counts,
    the position returned is that of 9690 counts, the command is for 9689. *)
Lemma move_um_commands_the_reconverted_target_witness :
  exists commanded,
    target_encoder 1 0x1.0063333333333p+11%float false (one_axis false 0 [])
      = Return 9690 (one_axis false 0 [])
    /\ encoder_of step_um false 0x1.00619c3efae79p+11%float = Py.Ok commanded
    /\ commanded = 9689
    /\ move_um 1 0x1.0063333333333p+11%float false false false (one_axis false 0 [])
       = (run _move_to_encoder_value 1 commanded false then
          run ret tt then run ret tt then
          ret (Some 0x1.00619c3efae79p+11%float)) (one_axis false 0 []).
Proof.
  assert (Ht : target_encoder 1 0x1.0063333333333p+11%float false (one_axis false 0 [])
               = Return 9690 (one_axis false 0 [])) by (vm_compute; reflexivity).
  assert (Hw : within_limits 1 9690 (one_axis false 0 [])
               = Return 0x1.00619c3efae79p+11%float (one_axis false 0 []))
    by (vm_compute; reflexivity).
  assert (Htr : - travel_counts <= 9690 <= travel_counts)
    by (vm_compute; split; discriminate).
  assert (Hfar : 5 < Z.abs (9690 - 0)) by reflexivity.
  assert (Hnz : 9690 <> 0) by discriminate.
  destruct (move_um_commands_the_reconverted_target 1 0%nat false 0 9690
              0x1.00619c3efae79p+11%float 0x1.0063333333333p+11%float false false false
              (one_axis false 0 [])
              eq_refl eq_refl eq_refl eq_refl eq_refl eq_refl eq_refl Ht Hfar Htr Hnz Hw)
    as (commanded & _ & He & _ & Hm).
  exists commanded. split; [exact Ht|]. split; [exact He|]. split; [|exact Hm].
  vm_compute in He. injection He as <-. reflexivity.
Defined.

Lemma float_order_chain (l h v : float) :
  (l <? h)%float = true -> (h <=? v)%float = true -> (v <=? l)%float = true -> False.
Proof.
  rewrite ltb_spec, !leb_spec. unfold SFltb, SFleb, SFcompare.
  destruct (Prim2SF l) as [[]|[]| |[] ml el], (Prim2SF h) as [[]|[]| |[] mh eh],
    (Prim2SF v) as [[]|[]| |[] mv ev]; try discriminate.
  all: destruct (Z.compare_spec el eh), (Z.compare_spec eh ev), (Z.compare_spec ev el);
    try discriminate; try lia; subst.
  all: rewrite <- ?Pos.compare_cont_antisym; cbn [CompOpp].
  all: fold (Pos.compare ml mh) (Pos.compare mh mv) (Pos.compare mv ml) (Pos.compare mh ml) (Pos.compare mv mh) (Pos.compare ml mv).
  all: destruct (Pos.compare_spec ml mh), (Pos.compare_spec mh mv), (Pos.compare_spec mv ml);
    try discriminate; try lia.
Qed.

(** ** The retract point *)

Lemma get_position_um_return channel verbose s um s1 :
  get_position_um channel verbose s = Return um s1 -> s1 = set_port (port s1) s.
Proof.
  unfold get_position_um, assert_channel. munfold.
  mcase (Py.contains (channels s) channel); [|discriminate].
  rewrite get_encoder_value_outcome.
  destruct (query_outcome channel s) as [v s0| | |] eqn:Hq; try discriminate.
  destruct (query_outcome_return _ _ _ _ Hq) as (Es & _).
  destruct (um_from_encoder_value_reads channel v s0) as [[um2 Hu2]|[e Hu2]];
    rewrite Hu2; [|discriminate].
  intros [= <- <-]. exact Es.
Qed.

Lemma bind_return {A B} (m : M A) (k : A -> M B) s v s' :
  bind m k s = Return v s' -> exists a s1, m s = Return a s1 /\ k a s1 = Return v s'.
Proof.
  unfold bind. destruct (m s) as [a s1| | |]; try discriminate. eauto.
Qed.

Lemma assert_channel_return channel s u s1 :
  assert_channel channel s = Return u s1 ->
  Py.contains (channels s) channel = true /\ s1 = s.
Proof.
  unfold assert_channel, assert_that, ret, raise.
  destruct (Py.contains (channels s) channel); [|discriminate].
  intros [= <-]. auto.
Qed.

(** The candidate of [set_retract_point_um] is made in a state that differs
    from the one of the call in the port only. *)
Lemma retract_candidate_return channel (pos : option float) (relative : bool) s t s1 :
  (if Py.opt_truthy Py.float_truthy pos
   then match pos with
        | Some x =>
            if relative
            then let* p := get_position_um channel false in ret (x + p)%float
            else ret x
        | None => raise Py.TypeError
        end
   else get_position_um channel false) s = Return t s1 ->
  s1 = set_port (port s1) s.
Proof.
  munfold.
  destruct (Py.opt_truthy Py.float_truthy pos).
  - destruct pos as [x|]; [|discriminate].
    destruct relative; [|intros [= <- <-]; destruct s; reflexivity].
    destruct (get_position_um channel false s) as [p s0| | |] eqn:Hg; try discriminate.
    intros [= <- <-]. exact (get_position_um_return _ _ _ _ _ Hg).
  - apply get_position_um_return.
Qed.

(** X16.  With the scan points the right way round for the direction of the
    axis (lowest below highest, or above it on a reversed axis),
    [set_retract_point_um] accepts no retract point at all: its range test
    is the mirror image of the one [legalize_move_um] applies.  A plain
    explicit position is refused with the object untouched, by the
    assertion on a reversed axis and by an AttributeError raised while the
    message of the assertion is built on the others. *)
Theorem retract_point_is_never_accepted channel i (rev : bool) lo hi s :
  Py.contains (channels s) channel = true ->
  Py.dict_zip_get (channels s) (_internal_channels s) channel = Py.Ok i ->
  reverse s !! i = Some rev ->
  attr_index (_stage_lowest_scan_point_um s) i = Py.Ok (Some lo) ->
  attr_index (_stage_highest_scan_point_um s) i = Py.Ok (Some hi) ->
  (if rev then hi <? lo else lo <? hi)%float = true ->
  (forall retract_um_pos relative verbose v s',
      set_retract_point_um channel retract_um_pos relative verbose s <> Return v s')
  /\ (forall x verbose,
        Py.float_truthy x = true ->
        set_retract_point_um channel (Some x) false verbose s
        = Raise (if rev then Py.AssertionError Py.OutOfRange else Py.AttributeError) s).
Proof.
  intros Hc Hd Hr Hlo Hhi Hord.
  assert (Tail : forall t p,
     (let* i := internal_channel channel in
      let* rev := reverse_at i in
      run (if rev then
             let* i := internal_channel channel in
             let* lo := lowest_scan_at i in
             let* hi := gets (highest_scan_of channel) in
             let* inside := lift (Py.le_le lo (Some t) hi) in
             assert_with inside
               (let* i := internal_channel channel in
                run lowest_scan_at i then
                let* i := internal_channel channel in
                run highest_scan_at i then ret tt)
               Py.OutOfRange
           else
             let* i := internal_channel channel in
             let* lo := lowest_scan_at i in
             let* hi := gets (highest_scan_of channel) in
             let* inside := lift (Py.ge_ge lo (Some t) hi) in
             assert_with inside (raise Py.AttributeError) Py.OutOfRange) then
      run modify (set_retract (Scalar t)) then
      ret t) (set_port p s)
     = Raise (if rev then Py.AssertionError Py.OutOfRange else Py.AttributeError)
         (set_port p s)).
  { intros t p.
    unfold internal_channel, reverse_at, lowest_scan_at, highest_scan_at, highest_scan_of,
      Py.index, Py.le_le, Py.ge_ge, Py.le.
    munfold. mrew.
    destruct rev; mrew.
    - destruct (lo <=? t)%float eqn:E1; mrew; [|reflexivity].
      destruct (t <=? hi)%float eqn:E2; mrew; [|reflexivity].
      destruct (float_order_chain hi lo t Hord E1 E2).
    - destruct (t <=? lo)%float eqn:E1; mrew; [|reflexivity].
      destruct (hi <=? t)%float eqn:E2; mrew; [|reflexivity].
      destruct (float_order_chain lo hi t Hord E2 E1). }
  split.
  - intros pos relative verbose v s' H.
    unfold set_retract_point_um in H.
    apply bind_return in H as (u & s0 & Ha & H).
    apply assert_channel_return in Ha as [_ ->].
    apply bind_return in H as (t & s1 & Hcand & H).
    apply retract_candidate_return in Hcand.
    rewrite Hcand, (Tail t (port s1)) in H. discriminate.
  - intros x verbose Hx.
    unfold set_retract_point_um, assert_channel. munfold. rewrite Hc.
    cbn [Py.opt_truthy]. rewrite Hx.
    assert (Es : s = set_port (port s) s) by (destruct s; reflexivity).
    pose proof (Tail x (port s)) as HT. rewrite <- Es in HT. munfold. exact HT.
Qed.

(** A fresh axis, in either direction. *)
Lemma retract_point_is_never_accepted_witness :
  set_retract_point_um 1 (Some 100%float) false false (one_axis false 0 [])
    = Raise Py.AttributeError (one_axis false 0 [])
  /\ set_retract_point_um 1 (Some 100%float) false false (one_axis true 0 [])
     = Raise (Py.AssertionError Py.OutOfRange) (one_axis true 0 []).
Proof.
  split.
  - apply (proj2 (retract_point_is_never_accepted 1 0%nat false (-12700)%float 12700%float
                    (one_axis false 0 []) eq_refl eq_refl eq_refl eq_refl eq_refl eq_refl)
             100%float false eq_refl).
  - apply (proj2 (retract_point_is_never_accepted 1 0%nat true 12700%float (-12700)%float
                    (one_axis true 0 []) eq_refl eq_refl eq_refl eq_refl eq_refl eq_refl)
             100%float false eq_refl).
Defined.

(** X17.  A retract point that [set_retract_point_um] accepts replaces the
    list of retract points by that one number.  From then on the retract
    point of no channel can be read: [get_retract_point_um] and [retract]
    raise TypeError on every channel, and change nothing. *)
Theorem accepted_retract_point_is_a_number channel retract_um_pos relative verbose s v s' :
  set_retract_point_um channel retract_um_pos relative verbose s = Return v s' ->
  s' = set_retract (Scalar v) (set_port (port s') s)
  /\ forall channel' j verbose',
       Py.contains (channels s) channel' = true ->
       Py.dict_zip_get (channels s) (_internal_channels s) channel' = Py.Ok j ->
       get_retract_point_um channel' verbose' s' = Raise Py.TypeError s'
       /\ retract channel' s' = Raise Py.TypeError s'.
Proof.
  intros H.
  assert (Es : s' = set_retract (Scalar v) (set_port (port s') s)).
  { unfold set_retract_point_um in H.
    apply bind_return in H as (u & s0 & Ha & H).
    apply assert_channel_return in Ha as [_ ->].
    apply bind_return in H as (t & s1 & Hcand & H).
    apply retract_candidate_return in Hcand.
    apply bind_return in H as (i & s2 & Hi & H).
    unfold internal_channel, lift in Hi.
    destruct (Py.dict_zip_get _ _ _) in Hi; [|discriminate]. injection Hi as <- <-.
    apply bind_return in H as (rev & s2 & Hrev & H).
    unfold reverse_at, lift in Hrev.
    destruct (Py.index _ _) in Hrev; [|discriminate]. injection Hrev as <- <-.
    apply bind_return in H as (u2 & s2 & Hchk & H).
    assert (E2 : s2 = s1).
    { revert Hchk. unfold internal_channel, lowest_scan_at, highest_scan_at, highest_scan_of.
      munfold.
      repeat match goal with
             | |- context [match ?x with _ => _ end] =>
                 lazymatch x with
                 | context [match _ with _ => _ end] => fail
                 | _ => destruct x
                 end
             end; intros [=]; congruence. }
    subst s2. unfold modify, bind, ret in H. injection H as <- <-.
    change (port (set_retract (Scalar t) s1)) with (port s1).
    rewrite <- Hcand. reflexivity. }
  split; [exact Es|].
  intros channel' j verbose' Hc Hd.
  unfold get_retract_point_um, retract, assert_channel, internal_channel, attr_index.
  munfold. rewrite Es. clear Es H. mrew. split; reflexivity.
Qed.

(** On an axis whose limits have been mirrored by [_reverse_limit_signs]
    the retract point 100 um is accepted. *)
Lemma accepted_retract_point_is_a_number_witness :
  exists s',
    set_retract_point_um 1 (Some 100%float) false false mirrored = Return 100%float s'
    /\ get_retract_point_um 1 false s' = Raise Py.TypeError s'
    /\ retract 1 s' = Raise Py.TypeError s'.
Proof.
  eassert (H : set_retract_point_um 1 (Some 100%float) false false mirrored = Return _ _)
    by (vm_compute; reflexivity).
  eexists. split; [exact H|].
  exact (proj2 (accepted_retract_point_is_a_number _ _ _ _ _ _ _ H) 1 0%nat false
           eq_refl eq_refl).
Defined.

(** ** Scan limits *)

Lemma polled_number s s' : polled s s' -> scan_point_is_a_number s -> scan_point_is_a_number s'.
Proof.
  intros (E & _) H. unfold scan_point_is_a_number. rewrite E. exact H.
Qed.

(** The limits test of [legalize_move_um] subscripts both scan points. *)
Lemma within_limits_number channel t s :
  scan_point_is_a_number s -> exists e, within_limits channel t s = Raise e s.
Proof.
  intros Hn. unfold within_limits.
  unfold internal_channel, lowest_scan_at, highest_scan_at, lower_limit_at, upper_limit_at,
    reverse_at, Py.index.
  unfold bind at 1.
  destruct (um_from_encoder_value_reads channel t s) as [[um ->]|[e ->]]; [|eauto].
  munfold.
  destruct Hn as [[x Hx]|[x Hx]].
  - mcase (Py.dict_zip_get (channels s) (_internal_channels s) channel); [|eauto].
    cbn [attr_index]. eauto.
  - mcase (Py.dict_zip_get (channels s) (_internal_channels s) channel); [|eauto].
    mcase (attr_index (_stage_lowest_scan_point_um s) a); [|eauto].
    destruct (Py.opt_truthy Py.float_truthy a0); mrew; cbn [attr_index]; [eauto|].
    unfold Py.index.
    mcase (_stage_lower_limit_um s !! a); cbn [attr_index]; eauto.
Qed.

Section ScanNumber.

Variable mv : Z -> float -> bool -> bool -> bool -> M (option float).

Hypothesis mv_polls : forall channel um relative block verbose s s',
  scan_point_is_a_number s ->
  final_state (mv channel um relative block verbose s) = Some s' -> polled s s'.

Lemma check_min_motion_polled channel t s s' :
  scan_point_is_a_number s ->
  final_state (check_min_motion_body mv channel t s) = Some s' -> polled s s'.
Proof.
  intros Hn.
  unfold check_min_motion_body, internal_channel, pending_at, current_at, Py.index. munfold.
  mcase (Py.dict_zip_get (channels s) (_internal_channels s) channel);
    [|intros [= <-]; apply polled_refl].
  mcase (_pending_encoder_value s !! a); [|intros [= <-]; apply polled_refl].
  destruct (Py.opt_truthy Py.int_truthy o).
  - mrew. case_bool_decide; [intros [= <-]; apply polled_refl|].
    mrew. destruct o as [p|]; [|intros [= <-]; apply polled_refl].
    destruct (Z.abs (t - p) <=? _min_encoder_motion s); [|intros [= <-]; apply polled_refl].
    pose proof (mv_polls channel 10%float true true false s) as P.
    destruct (mv channel 10%float true true false s) as [r s1|e s1|s1|];
      cbn [final_state] in *; try discriminate; intros [= <-]; apply P; auto.
  - mrew. mcase (_current_encoder_value s !! a); [|intros [= <-]; apply polled_refl].
    case_bool_decide; [intros [= <-]; apply polled_refl|].
    mrew. destruct o0 as [c|]; [|intros [= <-]; apply polled_refl].
    destruct (Z.abs (t - c) <=? _min_encoder_motion s); [|intros [= <-]; apply polled_refl].
    pose proof (mv_polls channel 10%float true true false s) as P.
    destruct (mv channel 10%float true true false s) as [r s1|e s1|s1|];
      cbn [final_state] in *; try discriminate; intros [= <-]; apply P; auto.
Qed.

Lemma legalize_number channel um relative verbose s :
  scan_point_is_a_number s ->
  (forall legal s', legalize_move_um_body mv channel um relative verbose s
                    <> Return (Some legal) s')
  /\ (forall s', final_state (legalize_move_um_body mv channel um relative verbose s) = Some s' ->
                 polled s s').
Proof.
  intros Hn. unfold legalize_move_um_body, assert_channel. munfold.
  destruct (Py.contains (channels s) channel);
    [|split; [discriminate|intros s' [= <-]; apply polled_refl]].
  destruct (target_encoder_reads channel um relative s) as [[t ->]|[e ->]];
    [|split; [discriminate|intros s' [= <-]; apply polled_refl]].
  pose proof (check_min_motion_polled channel t s) as P.
  destruct (check_min_motion_body mv channel t s) as [needed s1|e s1|s1|];
    cbn [final_state] in P;
    [| split; [discriminate|intros s' [= <-]; apply P; auto]
     | split; [discriminate|intros s' [= <-]; apply P; auto]
     | split; discriminate].
  specialize (P s1 Hn eq_refl).
  destruct needed; cbn [negb].
  - destruct (within_limits_number channel t s1 (polled_number _ _ P Hn)) as [e ->].
    split; [discriminate|intros s' [= <-]; exact P].
  - split; [discriminate|intros s' [= <-]; exact P].
Qed.

Lemma move_um_body_number channel um relative block verbose s :
  scan_point_is_a_number s ->
  (forall legal s', move_um_body mv channel um relative block verbose s
                    <> Return (Some legal) s')
  /\ (forall s', final_state (move_um_body mv channel um relative block verbose s) = Some s' ->
                 polled s s').
Proof.
  intros Hn. unfold move_um_body, assert_channel. munfold.
  destruct (Py.contains (channels s) channel);
    [|split; [discriminate|intros s' [= <-]; apply polled_refl]].
  destruct (legalize_number channel um relative verbose s Hn) as [N P].
  destruct (legalize_move_um_body mv channel um relative verbose s) as [legal s1|e s1|s1|];
    cbn [final_state] in P;
    [| split; [discriminate|intros s' [= <-]; apply P; reflexivity]
     | split; [discriminate|intros s' [= <-]; apply P; reflexivity]
     | split; discriminate].
  destruct legal as [legal|]; [destruct (N legal s1 eq_refl)|].
  specialize (P s1 eq_refl). cbn [Py.opt_truthy negb].
  destruct (self_verbose s1); [|split; [discriminate|intros s' [= <-]; exact P]].
  pose proof (get_position_um_polled channel false s1) as G.
  destruct (get_position_um channel false s1) as [x s2|e s2|s2|]; cbn [final_state] in G.
  - split; [discriminate|intros s' [= <-]]. eapply polled_trans; [exact P|]. auto.
  - split; [discriminate|intros s' [= <-]]. eapply polled_trans; [exact P|]. auto.
  - split; [discriminate|intros s' [= <-]]. eapply polled_trans; [exact P|]. auto.
  - split; discriminate.
Qed.

End ScanNumber.

Lemma move_um_at_number depth : forall channel um relative block verbose s,
  scan_point_is_a_number s ->
  (forall legal s', move_um_at depth channel um relative block verbose s
                    <> Return (Some legal) s')
  /\ (forall s', final_state (move_um_at depth channel um relative block verbose s) = Some s' ->
                 polled s s').
Proof.
  induction depth as [|d IH]; intros channel um relative block verbose s Hn; cbn [move_um_at].
  - split; [discriminate|intros s' [= <-]; apply polled_refl].
  - apply move_um_body_number; [|exact Hn].
    intros c u r b v s0 s' Hn0. apply IH. exact Hn0.
Qed.

(** The candidate of [set_stage_limit_um] is made in a state that differs
    from the one of the call in the port only. *)
Lemma limit_candidate_return channel (limit_um : option float) s t s1 :
  (if Py.opt_truthy Py.float_truthy limit_um
   then match limit_um with Some x => ret x | None => raise Py.TypeError end
   else let* vv := gets very_verbose in get_position_um channel vv) s = Return t s1 ->
  s1 = set_port (port s1) s.
Proof.
  munfold.
  destruct (Py.opt_truthy Py.float_truthy limit_um).
  - destruct limit_um as [x|]; [|discriminate].
    intros [= <- <-]. destruct s; reflexivity.
  - apply get_position_um_return.
Qed.

(** The range test of [set_stage_limit_um] leaves the state as it was. *)
Lemma limit_range_test_reads channel (rev : bool) t :
  reads_only
    (if rev then
       let* i := internal_channel channel in
       let* lo := lower_limit_at i in
       let* hi := gets (upper_limit_of channel) in
       let* inside := lift (Py.ge_ge lo (Some t) hi) in
       assert_with inside
         (let* i := internal_channel channel in
          run lower_limit_at i then
          let* i := internal_channel channel in
          run upper_limit_at i then ret tt) Py.OutOfRange
     else
       let* i := internal_channel channel in
       let* lo := lower_limit_at i in
       let* hi := gets (upper_limit_of channel) in
       let* inside := lift (Py.le_le lo (Some t) hi) in
       assert_with inside
         (let* i := internal_channel channel in
          run lower_limit_at i then
          let* i := internal_channel channel in
          run upper_limit_at i then ret tt) Py.OutOfRange).
Proof.
  unfold assert_with, internal_channel, lower_limit_at, upper_limit_at. reads.
Qed.

Lemma set_stage_limit_um_return channel (lower_limit : bool) limit_um s v s1 :
  set_stage_limit_um channel lower_limit limit_um s = Return v s1 ->
  s1 = (if lower_limit then set_lowest_scan (Scalar v) (set_port (port s1) s)
        else set_highest_scan (Scalar v) (set_port (port s1) s))
  /\ (lower_limit = false -> exists x, _stage_retract_point_um s = Scalar x).
Proof.
  intros H. unfold set_stage_limit_um in H.
  apply bind_return in H as (u & s0 & Ha & H).
  apply assert_channel_return in Ha as [_ ->].
  apply bind_return in H as (t & s0 & Hcand & H).
  apply limit_candidate_return in Hcand.
  apply bind_return in H as (i & s2 & Hi & H).
  unfold internal_channel, lift in Hi.
  destruct (Py.dict_zip_get _ _ _) eqn:Hd in Hi; [|discriminate]. injection Hi as <- <-.
  apply bind_return in H as (rev & s2 & Hrev & H).
  unfold reverse_at, lift in Hrev.
  destruct (Py.index _ _) eqn:Hr in Hrev; [|discriminate]. injection Hrev as <- <-.
  apply bind_return in H as (u2 & s2 & Hchk & H).
  match type of Hchk with
  | (if ?r then _ else _) _ = _ =>
      destruct (limit_range_test_reads channel r t s0) as [[u3 E]|[e E]]
  end; rewrite E in Hchk; [|discriminate].
  injection Hchk as <- <-. clear E.
  apply bind_return in H as (u4 & s3 & Hset & H).
  unfold ret in H. injection H as <- <-.
  destruct lower_limit.
  - unfold modify in Hset. injection Hset as <- <-.
    split; [|discriminate].
    change (port (set_lowest_scan (Scalar t) s0)) with (port s0).
    rewrite <- Hcand. reflexivity.
  - pose proof Hcand as Hcand'.
    apply bind_return in Hset as (u5 & s4 & Hm & Hset).
    unfold modify in Hm. injection Hm as <- <-.
    revert Hset. unfold internal_channel, reverse_at, highest_scan_at, attr_lt_scalar,
      attr_gt_scalar, Py.index.
    munfold. msimpl.
    assert (Er : _stage_retract_point_um s0 = _stage_retract_point_um s)
      by (rewrite Hcand; reflexivity).
    clear Hcand Hd Hr.
    destruct (Py.dict_zip_get (channels s0) (_internal_channels s0) channel) as [j|] eqn:Hj;
      msimpl; [|discriminate].
    destruct (reverse s0 !! j) as [r|]; msimpl; [|discriminate].
    destruct (_stage_retract_point_um s0) as [l|x] eqn:Hre;
      [destruct r; discriminate|].
    intros Hset. split; [|intros _; exists x; congruence].
    assert (E3 : s3 = set_highest_scan (Scalar t) s0).
    { destruct r; [destruct (x <? t)%float|destruct (t <? x)%float].
      all: msimpl; rewrite ?Hj in Hset; cbn [attr_index] in Hset;
        try discriminate; congruence. }
    subst s3. change (port (set_highest_scan (Scalar t) s0)) with (port s0).
    rewrite <- Hcand'. reflexivity.
Qed.

(** X18.  On an object whose retract points are the list of [__init__],
    the upper scan limit cannot be set: [set_stage_limit_um] with
    [lower_limit=False] never returns.  With an explicit limit inside the
    stage limits it raises TypeError, and by then the highest scan point
    has been rebound to the number. *)
Theorem upper_scan_limit_is_never_set channel limit_um l s :
  _stage_retract_point_um s = PerChannel l ->
  (forall v s', set_stage_limit_um channel false limit_um s <> Return v s')
  /\ (forall i (rev : bool) lo hi x,
        Py.contains (channels s) channel = true ->
        Py.dict_zip_get (channels s) (_internal_channels s) channel = Py.Ok i ->
        reverse s !! i = Some rev ->
        _stage_lower_limit_um s !! i = Some (Some lo) ->
        _stage_upper_limit_um s !! i = Some (Some hi) ->
        Py.float_truthy x = true ->
        (if rev then (x <=? lo)%float && (hi <=? x)%float
         else (lo <=? x)%float && (x <=? hi)%float) = true ->
        set_stage_limit_um channel false (Some x) s
        = Raise Py.TypeError (set_highest_scan (Scalar x) s)).
Proof.
  intros Hre. split.
  - intros v s' H. apply set_stage_limit_um_return in H as [_ H].
    destruct (H eq_refl) as [x Hx]. congruence.
  - intros i rev lo hi x Hc Hd Hr Hlo Hhi Hx Hin.
    unfold set_stage_limit_um, assert_channel, internal_channel, reverse_at, lower_limit_at,
      upper_limit_at, upper_limit_of, highest_scan_at, attr_lt_scalar, attr_gt_scalar,
      Py.ge_ge, Py.le_le, Py.le, Py.index.
    munfold. mrew.
    destruct rev; apply andb_true_iff in Hin as [H1 H2]; mrew; reflexivity.
Qed.

(** The upper scan limit of a fresh axis. *)
Lemma upper_scan_limit_is_never_set_witness :
  exists l,
    _stage_retract_point_um (one_axis false 0 []) = PerChannel l
    /\ set_stage_limit_um 1 false (Some 100%float) (one_axis false 0 [])
       = Raise Py.TypeError (set_highest_scan (Scalar 100) (one_axis false 0 [])).
Proof.
  eassert (H : _stage_retract_point_um (one_axis false 0 []) = PerChannel _)
    by (vm_compute; reflexivity).
  eexists. split; [exact H|].
  exact (proj2 (upper_scan_limit_is_never_set 1 (Some 100%float) _ _ H)
           0%nat false (-12700)%float 12700%float 100%float
           eq_refl eq_refl eq_refl eq_refl eq_refl eq_refl eq_refl).
Defined.

(** X19.  A scan limit that [set_stage_limit_um] sets replaces the list of
    scan points by that one number, and [legalize_move_um] subscripts both
    scan points: from then on no move is legal.  On every channel
    [legalize_move_um], [move_um] and [move_zero] return no legal move, and
    [move_um] writes no move command and leaves the current and pending
    encoder values as they are. *)
Theorem no_move_after_a_scan_limit channel (lower_limit : bool) limit_um s v s1 :
  set_stage_limit_um channel lower_limit limit_um s = Return v s1 ->
  s1 = (if lower_limit then set_lowest_scan (Scalar v) (set_port (port s1) s)
        else set_highest_scan (Scalar v) (set_port (port s1) s))
  /\ forall channel' um relative block verbose,
       (forall legal s2,
           legalize_move_um channel' um relative verbose s1 <> Return (Some legal) s2)
       /\ (forall legal s2,
             move_um channel' um relative block verbose s1 <> Return (Some legal) s2)
       /\ (forall legal s2, move_zero channel' block s1 <> Return (Some legal) s2)
       /\ (forall s2,
             final_state (move_um channel' um relative block verbose s1) = Some s2 ->
             move_frames s2 = move_frames s1
             /\ _pending_encoder_value s2 = _pending_encoder_value s1
             /\ _current_encoder_value s2 = _current_encoder_value s1).
Proof.
  intros H. apply set_stage_limit_um_return in H as [Es _].
  split; [exact Es|].
  assert (Hn : scan_point_is_a_number s1).
  { rewrite Es. destruct lower_limit; [left|right]; exists v; reflexivity. }
  intros channel' um relative block verbose.
  split; [|split; [|split]].
  - apply (legalize_number move_um); [|exact Hn].
    intros c u r b v0 s0 s' Hn0. apply move_um_at_number. exact Hn0.
  - apply move_um_at_number. exact Hn.
  - intros legal s2. unfold move_zero, assert_channel. munfold.
    destruct (Py.contains (channels s1) channel'); [|discriminate].
    apply move_um_at_number. exact Hn.
  - intros s2 Hf. apply (proj2 (move_um_at_number _ _ _ _ _ _ _ Hn)) in Hf.
    split; [exact (polled_move_frames _ _ Hf)|].
    destruct (polled_fields _ _ Hf) as (_ & _ & Hp & Hcur). auto.
Qed.

(** The lower scan limit of channel 1 is set to 100 um; a move of channel 2
    to 50 um is then refused. *)
Lemma no_move_after_a_scan_limit_witness :
  exists s1,
    set_stage_limit_um 1 true (Some 100%float) two_axes = Return 100%float s1
    /\ _stage_lowest_scan_point_um s1 = Scalar 100
    /\ move_um 2 50%float false true false s1 = Raise Py.TypeError s1
    /\ forall legal s2, move_um 2 50%float false true false s1 <> Return (Some legal) s2.
Proof.
  eassert (H : set_stage_limit_um 1 true (Some 100%float) two_axes = Return _ _)
    by (vm_compute; reflexivity).
  eexists. split; [exact H|]. split; [reflexivity|].
  split; [vm_compute; reflexivity|].
  exact (proj1 (proj2 (proj2 (no_move_after_a_scan_limit _ _ _ _ _ _ H)
                         2 50%float false true false))).
Defined.
